(** * Customs-statistics fetch / merge / reshape pipeline (app.py)

    A shallow embedding of the Streamlit script: the per-code fetch loop
    with its counters, the HS-code reader, the metadata joins and the
    shaping block, followed by the properties the specification states
    about them. *)

From Stdlib Require Import ZArith String Ascii List Bool Lia.
From Stdlib Require Import Floats.PrimFloat Floats.SpecFloat Floats.FloatOps DecimalString.
From stdpp Require Import gmap strings list.

Set Warnings "-register-all,-clear-no-such-hyp".
Local Open Scope string_scope.

(** ** Python values that [json.loads] produces *)

(** A JSON number is a Python [int] or a Python [float]. *)
Inductive number :=
  | NInt (z : Z)
  | NFloat (f : float).

(** A parsed JSON document.  [JObj] is a Python [dict] (its items in
    insertion order, keys distinct), [JArr] a Python [list]. *)
Inductive json :=
  | JNull
  | JBool (b : bool)
  | JNum (n : number)
  | JStr (s : string)
  | JArr (items : list json)
  | JObj (fields : list (string * json)).

(** The exception classes that the script's handlers tell apart, and the
    built-in ones that the modelled operations raise. *)
Inductive exn :=
  | RequestException
  | JSONDecodeError
  | TypeError
  | KeyError
  | ValueError
  | AttributeError
  | OverflowError
  | MergeError.

(** ** A small error monad for expressions that may raise *)

Definition res (A : Type) : Type := exn + A.

Definition ok {A} (a : A) : res A := inr a.
Definition raise {A} (e : exn) : res A := inl e.

Definition rbind {A B} (m : res A) (k : A -> res B) : res B :=
  match m with
  | inl e => inl e
  | inr a => k a
  end.

Declare Scope res_scope.
Delimit Scope res_scope with res.
Notation "x <- m ;; k" := (rbind m (fun x => k))
  (at level 100, m at next level, right associativity) : res_scope.

(** Python's short-circuit [a or b] and [a and b] on conditions that may
    raise: the right operand is only evaluated when needed. *)
Definition py_or (a b : res bool) : res bool :=
  rbind a (fun x => if x then ok true else b).

Definition py_and (a b : res bool) : res bool :=
  rbind a (fun x => if x then b else ok false).

Definition py_not (a : res bool) : res bool :=
  rbind a (fun x => ok (negb x)).

(** ** Strings *)

(** A Python [str] is held as its UTF-8 encoding.  [chars] cuts a text
    into its characters: a byte that continues a multi-byte character
    goes with the bytes before it.  [code_point] reads the code point of
    a character; a chunk that is no UTF-8 encoding of a code point reads
    as the replacement character, which is neither white space nor a
    digit.  ASCII characters never occur inside the encoding of another
    character, so a split on the underscore cuts where Python cuts, and
    texts are equal exactly when their encodings are.  (A text with a
    lone surrogate has no UTF-8 encoding and is not represented.) *)

Definition byte (c : ascii) : N := N_of_ascii c.

Definition is_continuation (c : ascii) : bool :=
  ((128 <=? byte c) && (byte c <? 192))%N.

Definition starts_with_continuation (s : string) : bool :=
  match s with
  | String b _ => is_continuation b
  | EmptyString => false
  end.

(** The characters of a text, each as the bytes that encode it. *)
Fixpoint chars (s : string) : list string :=
  match s with
  | EmptyString => []
  | String b rest =>
      if starts_with_continuation rest then
        match chars rest with
        | chunk :: more => String b chunk :: more
        | [] => [String b EmptyString]
        end
      else String b EmptyString :: chars rest
  end.

(** [''.join(l)] *)
Fixpoint join (l : list string) : string :=
  match l with
  | [] => EmptyString
  | ch :: rest => ch ++ join rest
  end.

Definition replacement : N := 65533.

Definition code_point (ch : string) : N :=
  match ch with
  | String b0 EmptyString =>
      if (byte b0 <? 128)%N then byte b0 else replacement
  | String b0 (String b1 EmptyString) =>
      if ((194 <=? byte b0) && (byte b0 <? 224))%N && is_continuation b1
      then ((byte b0 - 192) * 64 + (byte b1 - 128))%N
      else replacement
  | String b0 (String b1 (String b2 EmptyString)) =>
      let n := ((byte b0 - 224) * 4096 + (byte b1 - 128) * 64 + (byte b2 - 128))%N in
      if ((224 <=? byte b0) && (byte b0 <? 240))%N && is_continuation b1 &&
         is_continuation b2 && (2048 <=? n)%N
      then n else replacement
  | String b0 (String b1 (String b2 (String b3 EmptyString))) =>
      let n := ((byte b0 - 240) * 262144 + (byte b1 - 128) * 4096 +
                (byte b2 - 128) * 64 + (byte b3 - 128))%N in
      if ((240 <=? byte b0) && (byte b0 <? 245))%N && is_continuation b1 &&
         is_continuation b2 && is_continuation b3 &&
         ((65536 <=? n) && (n <=? 1114111))%N
      then n else replacement
  | _ => replacement
  end.

(** A character as [chars] cuts it: a byte that continues nothing,
    followed by continuation bytes. *)
Fixpoint all_continuation (s : string) : bool :=
  match s with
  | EmptyString => true
  | String b rest => is_continuation b && all_continuation rest
  end.

Definition well_formed (ch : string) : bool :=
  match ch with
  | String b tail => negb (is_continuation b) && all_continuation tail
  | EmptyString => false
  end.

(** The code points for which [str.isspace] holds; [str.strip] removes
    them from both ends. *)
Definition white_space : list N :=
  [9; 10; 11; 12; 13; 28; 29; 30; 31; 32; 133; 160; 5760; 8192; 8193; 8194; 8195;
   8196; 8197; 8198; 8199; 8200; 8201; 8202; 8232; 8233; 8239; 8287; 12288]%N.

Definition is_space (ch : string) : bool :=
  existsb (N.eqb (code_point ch)) white_space.

(** The list without its longest prefix of elements that satisfy [p]. *)
Fixpoint skip {A} (p : A -> bool) (l : list A) : list A :=
  match l with
  | [] => []
  | x :: rest => if p x then skip p rest else l
  end.

(** The longest prefix of elements that satisfy [p]. *)
Fixpoint while {A} (p : A -> bool) (l : list A) : list A :=
  match l with
  | [] => []
  | x :: rest => if p x then x :: while p rest else []
  end.

(** The list without the elements that satisfy [p] at its two ends. *)
Definition trim {A} (p : A -> bool) (l : list A) : list A :=
  rev (skip p (rev (skip p l))).

Definition lstrip (s : string) : string := join (skip is_space (chars s)).

Definition rstrip (s : string) : string := join (rev (skip is_space (rev (chars s)))).

(** [s.strip()] *)
Definition strip (s : string) : string := join (trim is_space (chars s)).

(** [s[:n]] *)
Definition str_prefix (n : nat) (s : string) : string := join (take n (chars s)).

Definition underscore : ascii := "_"%char.

(** [s.split('_', 1)]: the text before the first underscore and, when
    there is an underscore, the text after it. *)
Fixpoint split_once (s : string) : string * option string :=
  match s with
  | EmptyString => (EmptyString, None)
  | String c rest =>
      if Ascii.eqb c underscore then (EmptyString, Some rest)
      else let (head, tail) := split_once rest in (String c head, tail)
  end.

(** The list that [s.split('_', 1)] returns. *)
Definition split_list (s : string) : list string :=
  match split_once s with
  | (head, None) => [head]
  | (head, Some tail) => [head; tail]
  end.

(** The decimal digits (Unicode 14.0, the database of CPython 3.11),
    which the class [\d] of [re] matches and [int] reads: the first code
    point and the length of each run; the value of a digit is its
    offset in the run modulo ten. *)
Definition decimal_digits : list (N * N) :=
  [(48, 10); (1632, 10); (1776, 10); (1984, 10); (2406, 10); (2534, 10);
   (2662, 10); (2790, 10); (2918, 10); (3046, 10); (3174, 10); (3302, 10);
   (3430, 10); (3558, 10); (3664, 10); (3792, 10); (3872, 10); (4160, 10);
   (4240, 10); (6112, 10); (6160, 10); (6470, 10); (6608, 10); (6784, 10);
   (6800, 10); (6992, 10); (7088, 10); (7232, 10); (7248, 10); (42528, 10);
   (43216, 10); (43264, 10); (43472, 10); (43504, 10); (43600, 10);
   (44016, 10); (65296, 10); (66720, 10); (68912, 10); (69734, 10);
   (69872, 10); (69942, 10); (70096, 10); (70384, 10); (70736, 10);
   (70864, 10); (71248, 10); (71360, 10); (71472, 10); (71904, 10);
   (72016, 10); (72784, 10); (73040, 10); (73120, 10); (92768, 10);
   (92864, 10); (93008, 10); (120782, 50); (123200, 10); (123632, 10);
   (125264, 10); (130032, 10)]%N.

Definition digit_of_code (n : N) : option Z :=
  match List.find (fun run => ((fst run <=? n) && (n <? fst run + snd run))%N)
                  decimal_digits with
  | Some run => Some (Z.of_N ((n - fst run) mod 10))
  | None => None
  end.

Definition digit_of (ch : string) : option Z := digit_of_code (code_point ch).

Definition is_digit (ch : string) : bool :=
  match digit_of ch with
  | Some _ => true
  | None => false
  end.

(** [re.search(r'(\d+)', s)]: the first maximal run of digits. *)
Definition extract_digits (s : string) : option string :=
  match skip (fun ch => negb (is_digit ch)) (chars s) with
  | [] => None
  | found => Some (join (while is_digit found))
  end.

Definition all_digits (s : string) : bool := forallb is_digit (chars s).

(** The number that a run of digits writes, after [acc]. *)
Definition digits_value (acc : Z) (s : string) : Z :=
  fold_left (fun a ch => (10 * a + default 0 (digit_of ch))%Z) (chars s) acc.

(** The digits of a numeral in which single underscores may separate
    digits ([None] when the text is not of that form). *)
Fixpoint numeral_digits (after_digit : bool) (l : list string) : option (list string) :=
  match l with
  | [] => if after_digit then Some [] else None
  | ch :: rest =>
      if is_digit ch then
        match numeral_digits true rest with
        | Some ds => Some (ch :: ds)
        | None => None
        end
      else if (code_point ch =? 95)%N && after_digit then numeral_digits false rest
      else None
  end.

(** The white space that [int] accepts around a numeral: that of
    [str.isspace] without the four separators 28-31. *)
Definition is_int_space (ch : string) : bool :=
  is_space ch && negb ((28 <=? code_point ch) && (code_point ch <=? 31))%N.

(** [int(s)]: white space around, an optional sign, decimal digits. *)
Definition int_of_str (s : string) : option Z :=
  let unsigned l :=
    match numeral_digits false l with
    | Some ds => Some (digits_value 0 (join ds))
    | None => None
    end in
  match trim is_int_space (chars s) with
  | [] => None
  | ch :: rest =>
      if (code_point ch =? 45)%N then
        match unsigned rest with
        | Some z => Some (- z)%Z
        | None => None
        end
      else if (code_point ch =? 43)%N then unsigned rest
      else unsigned (ch :: rest)
  end.

(** [str(z)] for a Python int. *)
Definition str_of_int (z : Z) : string :=
  DecimalString.NilZero.string_of_int (Z.to_int z).

(** ** Built-in operations on parsed JSON *)

(** [needle in hay] for two [str]: substring test. *)
Fixpoint str_contains (needle hay : string) : bool :=
  String.prefix needle hay ||
  match hay with
  | EmptyString => false
  | String _ rest => str_contains needle rest
  end.

(** [d.get(key)] on the items of a dict. *)
Fixpoint dict_get (key : string) (fields : list (string * json)) : option json :=
  match fields with
  | [] => None
  | (k, v) :: rest => if String.eqb k key then Some v else dict_get key rest
  end.

(** [key == item] for a [str] key: only an equal [str] compares equal. *)
Definition json_is_str (key : string) (item : json) : bool :=
  match item with
  | JStr s => String.eqb s key
  | _ => false
  end.

(** [key in container]: key test on a dict, membership on a list,
    substring on a str, [TypeError] on anything else. *)
Definition py_in (key : string) (container : json) : res bool :=
  match container with
  | JObj fields => ok (match dict_get key fields with Some _ => true | None => false end)
  | JArr items => ok (existsb (json_is_str key) items)
  | JStr s => ok (str_contains key s)
  | JNull | JBool _ | JNum _ => raise TypeError
  end.

(** [container[key]] with a [str] key: only a dict can be subscripted
    that way ([KeyError] when the key is missing). *)
Definition py_getitem (container : json) (key : string) : res json :=
  match container with
  | JObj fields =>
      match dict_get key fields with
      | Some v => ok v
      | None => raise KeyError
      end
  | _ => raise TypeError
  end.

(** [container.get(key, default)]: a dict method; other values have no
    attribute [get]. *)
Definition py_get (container : json) (key : string) (default : json) : res json :=
  match container with
  | JObj fields =>
      match dict_get key fields with
      | Some v => ok v
      | None => ok default
      end
  | _ => raise AttributeError
  end.

(** [status == 0]: numeric equality; [False == 0] holds in Python. *)
Definition py_eq_zero (v : json) : bool :=
  match v with
  | JNum (NInt z) => Z.eqb z 0
  | JNum (NFloat f) => PrimFloat.eqb f PrimFloat.zero
  | JBool b => negb b
  | _ => false
  end.

(** [for row in v]: the items of a list, the keys of a dict, the
    characters of a str; [TypeError] when [v] is not iterable. *)
Definition str_chars (s : string) : list json := map JStr (chars s).

Definition py_iter (v : json) : res (list json) :=
  match v with
  | JArr items => ok items
  | JObj fields => ok (map (fun kv => JStr (fst kv)) fields)
  | JStr s => ok (str_chars s)
  | JNull | JBool _ | JNum _ => raise TypeError
  end.

(** ** The fetch loop (app.py, lines 90-159) *)

(** What [requests.get], [raise_for_status] and [res.json()] deliver for
    one code. *)
Inductive response :=
  | TransportFailure
  | NotJson
  | Body (j : json).

(** The variables the loop updates. *)
Record loop_state := mkState {
  data_list : list json;
  result : option json;
  processed_count : nat;
  error_count : nat;
  skipped_count : nat
}.

Definition init_state : loop_state :=
  {| data_list := []; result := None;
     processed_count := 0; error_count := 0; skipped_count := 0 |}.

(** Statements over a mutable state [S] (the loop variables, or the
    variable [df_complete] in the shaping block): they update the state
    and may raise; what was written before the exception stays written. *)
Definition cmd (S A : Type) : Type := S -> res A * S.

Definition cret {S A} (a : A) : cmd S A := fun s => (ok a, s).

Definition cbind {S A B} (m : cmd S A) (k : A -> cmd S B) : cmd S B :=
  fun s =>
    match m s with
    | (inl e, s') => (inl e, s')
    | (inr a, s') => k a s'
    end.

Definition eval {S A} (r : res A) : cmd S A := fun s => (r, s).

Definition update {S} (f : S -> S) : cmd S unit :=
  fun s => (ok tt, f s).

Definition get {S} : cmd S S := fun s => (ok s, s).

Declare Scope cmd_scope.
Delimit Scope cmd_scope with cmd.
Notation "x <- m ;; k" := (cbind m (fun x => k))
  (at level 100, m at next level, right associativity) : cmd_scope.
Notation "m ;;; k" := (cbind m (fun _ => k))
  (at level 100, right associativity) : cmd_scope.

Definition append_row (row : json) (s : loop_state) : loop_state :=
  {| data_list := data_list s ++ [row]; result := result s;
     processed_count := processed_count s; error_count := error_count s;
     skipped_count := skipped_count s |}.

Definition set_result (j : json) (s : loop_state) : loop_state :=
  {| data_list := data_list s; result := Some j;
     processed_count := processed_count s; error_count := error_count s;
     skipped_count := skipped_count s |}.

Definition incr_processed (s : loop_state) : loop_state :=
  {| data_list := data_list s; result := result s;
     processed_count := S (processed_count s); error_count := error_count s;
     skipped_count := skipped_count s |}.

Definition incr_error (s : loop_state) : loop_state :=
  {| data_list := data_list s; result := result s;
     processed_count := processed_count s; error_count := S (error_count s);
     skipped_count := skipped_count s |}.

Definition incr_skipped (s : loop_state) : loop_state :=
  {| data_list := data_list s; result := result s;
     processed_count := processed_count s; error_count := error_count s;
     skipped_count := S (skipped_count s) |}.

(** [for row in response_value: data_list.append(row)] *)
Fixpoint append_rows (rows : list json) : cmd loop_state unit :=
  match rows with
  | [] => cret tt
  | row :: rest => (update (append_row row) ;;; append_rows rest)%cmd
  end.

(** Lines 104-106. *)
Definition request (r : response) : res json :=
  match r with
  | TransportFailure => raise RequestException
  | NotJson => raise JSONDecodeError
  | Body j => ok j
  end.

(** Line 124: the three nested presence tests. *)
Definition has_value (api_result : json) : res bool :=
  py_and (py_in "STATISTICAL_DATA" api_result)
    (py_and (sd <- py_getitem api_result "STATISTICAL_DATA" ;;
             py_in "DATA_INF" sd)%res
            (sd <- py_getitem api_result "STATISTICAL_DATA" ;;
             di <- py_getitem sd "DATA_INF" ;;
             py_in "VALUE" di)%res).

(** Line 116. *)
Definition status_missing (api_result : json) : res bool :=
  py_or (py_not (py_in "RESULT" api_result))
        (py_not (r <- py_getitem api_result "RESULT" ;; py_in "STATUS" r)%res).

(** The body of the [try] (lines 104-143). *)
Definition try_body (r : response) : cmd loop_state unit :=
  (result_json <- eval (request r) ;;
   has_envelope <- eval (py_in "GET_STATS_DATA" result_json) ;;
   if negb has_envelope then
     update incr_skipped
   else
     api_result <- eval (py_getitem result_json "GET_STATS_DATA") ;;
     missing <- eval (status_missing api_result) ;;
     if (missing : bool) then
       update incr_skipped
     else
       status <- eval (r <- py_getitem api_result "RESULT" ;; py_getitem r "STATUS")%res ;;
       if py_eq_zero status then
         present <- eval (has_value api_result) ;;
         if (present : bool) then
           response_value <- eval (sd <- py_getitem api_result "STATISTICAL_DATA" ;;
                                   di <- py_getitem sd "DATA_INF" ;;
                                   py_getitem di "VALUE")%res ;;
           rows <- eval (py_iter response_value) ;;
           append_rows rows ;;;
           update (set_result result_json) ;;;
           update incr_processed
         else
           _ <- eval (r <- py_getitem api_result "RESULT" ;; py_in "ERROR_MSG" r)%res ;;
           update incr_skipped
       else
         _ <- eval (r <- py_getitem api_result "RESULT" ;;
                    py_get r "ERROR_MSG" (JStr "不明なエラー"))%res ;;
         update incr_error)%cmd.

(** The three handlers (lines 145-156): each reports and adds one to
    [error_count]. *)
Definition handler (e : exn) : cmd loop_state unit :=
  match e with
  | RequestException => update incr_error
  | JSONDecodeError => update incr_error
  | _ => update incr_error
  end.

(** One pass of the loop body: the [try] and its handlers.  The
    [finally] clause only moves the progress bar. *)
Definition iteration (r : response) (s : loop_state) : loop_state :=
  match try_body r s with
  | (inr _, s') => s'
  | (inl e, s') => snd (handler e s')
  end.

(** The loop over [hs_codes]; [fetch] is the remote service. *)
Definition fetch_loop (fetch : string -> response) (hs_codes : list string)
    (s : loop_state) : loop_state :=
  fold_left (fun st code => iteration (fetch code) st) hs_codes s.

(** ** The call outcomes of the specification (4.2) and the aggregator (4.3) *)

Inductive Outcome :=
  | Success (rows : list json) (envelope : json)
  | EmptyResult
  | MalformedResponse
  | ApiError (status : json)
  | TransportError
  | ParseError.

Inductive counter := Processed | Skipped | Errored.

(** Success→processed; EmptyResult/MalformedResponse→skipped;
    TransportError/ParseError/ApiError→errored. *)
Definition bucket (o : Outcome) : counter :=
  match o with
  | Success _ _ => Processed
  | EmptyResult | MalformedResponse => Skipped
  | ApiError _ | TransportError | ParseError => Errored
  end.

Definition bump (c : counter) (s : loop_state) : loop_state :=
  match c with
  | Processed => incr_processed s
  | Skipped => incr_skipped s
  | Errored => incr_error s
  end.

(** The aggregator as 4.3 describes it: a success appends its rows and
    replaces the retained envelope; every outcome bumps its counter. *)
Definition aggregate (o : Outcome) (s : loop_state) : loop_state :=
  match o with
  | Success rows envelope =>
      bump Processed
        {| data_list := data_list s ++ rows; result := Some envelope;
           processed_count := processed_count s; error_count := error_count s;
           skipped_count := skipped_count s |}
  | _ => bump (bucket o) s
  end.

(** A member of a JSON object ([None] when absent, or when the value is
    not an object). *)
Definition field (key : string) (j : json) : option json :=
  match j with
  | JObj fields => dict_get key fields
  | _ => None
  end.

Definition is_obj (j : json) : bool :=
  match j with JObj _ => true | _ => false end.

Definition is_arr (j : json) : bool :=
  match j with JArr _ => true | _ => false end.

Definition opt_all (o : option json) (p : json -> bool) : bool :=
  match o with
  | None => true
  | Some x => p x
  end.

(** The response contract of section 6: a JSON object with a top-level
    envelope object; inside, a result object and, on success, a
    statistical-data object containing a data-info object with a list of
    value rows.  Every section may be absent, but one that is present has
    the stated kind. *)
Definition contract_shaped (j : json) : bool :=
  is_obj j &&
  opt_all (field "GET_STATS_DATA" j) (fun env =>
    is_obj env &&
    opt_all (field "RESULT" env) is_obj &&
    opt_all (field "STATISTICAL_DATA" env) (fun sd =>
      is_obj sd &&
      opt_all (field "DATA_INF" sd) (fun di =>
        is_obj di && opt_all (field "VALUE" di) is_arr))).

(** The status field of the envelope, when there is one. *)
Definition envelope_status (j : json) : option json :=
  match field "GET_STATS_DATA" j with
  | Some env =>
      match field "RESULT" env with
      | Some r => field "STATUS" r
      | None => None
      end
  | None => None
  end.

(** The value rows of the envelope, when they are present. *)
Definition value_rows (j : json) : option (list json) :=
  match field "GET_STATS_DATA" j with
  | Some env =>
      match field "STATISTICAL_DATA" env with
      | Some sd =>
          match field "DATA_INF" sd with
          | Some di =>
              match field "VALUE" di with
              | Some (JArr rows) => Some rows
              | _ => None
              end
          | None => None
          end
      | None => None
      end
  | None => None
  end.

(** Classification of a body in the words of 4.2: no envelope or no
    status field is a malformed response; a status other than 0 is an
    API error; status 0 is a success when value rows are present, and an
    empty result when there is no value list or the list has no row. *)
Definition classify (j : json) : Outcome :=
  match envelope_status j with
  | None => MalformedResponse
  | Some status =>
      if py_eq_zero status then
        match value_rows j with
        | Some (row :: rows) => Success (row :: rows) j
        | _ => EmptyResult
        end
      else ApiError status
  end.

(** The decode step: the outcome of a call whose body, if any, follows
    the contract. *)
Definition decode (r : response) : option Outcome :=
  match r with
  | TransportFailure => Some TransportError
  | NotJson => Some ParseError
  | Body j => if contract_shaped j then Some (classify j) else None
  end.

(** ** Data frames *)

(** The missing-value markers of pandas. *)
Inductive null_kind := PyNone | NaN | NA | NaT.

(** The scalars a cell holds: a missing value, a text, a number or a
    calendar date (a timestamp at midnight). *)
Inductive cell :=
  | CNull (k : null_kind)
  | CStr (s : string)
  | CNum (n : number)
  | CDate (year month day : Z).

(** A frame: its column labels in order and its rows.  A row maps a
    label to the cell it holds; a label without an entry reads as NaN. *)
Record DataFrame := mkFrame {
  columns : list string;
  rows : list (gmap string cell)
}.

Definition cell_at (c : string) (r : gmap string cell) : cell :=
  default (CNull NaN) (r !! c).

(** [len(df)] *)
Definition nrows (df : DataFrame) : nat := length (rows df).

(** [c in df.columns] *)
Definition has_column (c : string) (df : DataFrame) : bool :=
  existsb (String.eqb c) (columns df).

(** [df[c]] as the list of its cells. *)
Definition column (c : string) (df : DataFrame) : list cell :=
  map (cell_at c) (rows df).

(** [pd.isna] *)
Definition isna (c : cell) : bool :=
  match c with
  | CNull _ => true
  | _ => false
  end.

(** The integer a float stands for, when it is one. *)
Definition float_to_Z (f : float) : option Z :=
  match FloatOps.Prim2SF f with
  | SpecFloat.S754_zero _ => Some 0%Z
  | SpecFloat.S754_finite sign m e =>
      let mag :=
        if (0 <=? e)%Z then Some (Z.pos m * 2 ^ e)%Z
        else if (Z.pos m mod 2 ^ (- e) =? 0)%Z then Some (Z.pos m / 2 ^ (- e))%Z
        else None in
      match mag with
      | Some v => Some (if sign then (- v)%Z else v)
      | None => None
      end
  | _ => None
  end.

(** Python's [==] on numbers. *)
Definition number_eqb (a b : number) : bool :=
  match a, b with
  | NInt x, NInt y => Z.eqb x y
  | NFloat f, NFloat g => PrimFloat.eqb f g
  | NInt x, NFloat f | NFloat f, NInt x =>
      match float_to_Z f with
      | Some y => Z.eqb x y
      | None => false
      end
  end.

(** Whether two cells are the same key for pandas' hash-based operations
    ([merge], [isin], [unique], [drop_duplicates]); there all missing
    values are one key. *)
Definition key_eq (a b : cell) : bool :=
  match a, b with
  | CNull _, CNull _ => true
  | CStr s, CStr t => String.eqb s t
  | CNum x, CNum y => number_eqb x y
  | CDate y1 m1 d1, CDate y2 m2 d2 => Z.eqb y1 y2 && Z.eqb m1 m2 && Z.eqb d1 d2
  | _, _ => false
  end.

(** What is taken from pandas without being fixed here: the lexical
    rules by which [pd.to_numeric] and [pd.to_datetime] read one value
    ([to_datetime] gives [None] for a value it cannot parse), the text
    [str] prints for a float, and the dtype check [pd.merge] makes on the
    two key columns before joining. *)
Class Pandas := {
  to_numeric : cell -> cell;
  to_datetime : cell -> option cell;
  str_of_float : float -> string;
  keys_mergeable : list cell -> list cell -> bool
}.

Definition two_digits (z : Z) : string :=
  if (z <? 10)%Z then "0" ++ str_of_int z else str_of_int z.

(** One value of [series.astype(str)]. *)
Definition astype_str `{Pandas} (c : cell) : string :=
  match c with
  | CNull PyNone => "None"
  | CNull NaN => "nan"
  | CNull NA => "<NA>"
  | CNull NaT => "NaT"
  | CStr s => s
  | CNum (NInt z) => str_of_int z
  | CNum (NFloat f) => str_of_float f
  | CDate y m d => str_of_int y ++ "-" ++ two_digits m ++ "-" ++ two_digits d
  end.

Definition int64_min : Z := (- 2 ^ 63)%Z.
Definition int64_max : Z := (2 ^ 63 - 1)%Z.

Definition int64 (z : Z) : res cell :=
  if ((int64_min <=? z) && (z <=? int64_max))%Z then ok (CNum (NInt z))
  else raise OverflowError.

(** One value of [series.astype('Int64')]: a missing value becomes NA, an
    integral number stays, a numeral is read with [int]; a float that is
    no 64-bit integer, a text that is no numeral or a date cannot be
    cast, and an integer beyond 64 bits overflows. *)
Definition astype_Int64 (c : cell) : res cell :=
  match c with
  | CNull _ => ok (CNull NA)
  | CNum (NInt z) => int64 z
  | CNum (NFloat f) =>
      match float_to_Z f with
      | Some z => if ((int64_min <=? z) && (z <=? int64_max))%Z
                  then ok (CNum (NInt z)) else raise TypeError
      | None => raise TypeError
      end
  | CStr s =>
      match int_of_str s with
      | Some z => int64 z
      | None => raise ValueError
      end
  | CDate _ _ _ => raise TypeError
  end.

(** A method of the [.str] accessor on one value: elements that are not
    text give NaN. *)
Definition str_method (f : string -> cell) (c : cell) : cell :=
  match c with
  | CStr s => f s
  | _ => CNull NaN
  end.

Fixpoint res_map {A B} (f : A -> res B) (l : list A) : res (list B) :=
  match l with
  | [] => ok []
  | x :: rest =>
      (y <- f x ;; ys <- res_map f rest ;; ok (y :: ys))%res
  end.

(** The distinct values of a list in order of first appearance. *)
Fixpoint uniq_by {A} (eqb : A -> A -> bool) (seen : list A) (l : list A) : list A :=
  match l with
  | [] => []
  | x :: rest =>
      if existsb (eqb x) seen then uniq_by eqb seen rest
      else x :: uniq_by eqb (x :: seen) rest
  end.

(** [df[c] = values], the values given row by row. *)
Definition assign (c : string) (f : gmap string cell -> cell) (df : DataFrame) : DataFrame :=
  {| columns := if has_column c df then columns df else columns df ++ [c];
     rows := map (fun r => <[c := f r]> r) (rows df) |}.

(** The same when computing a value may raise: nothing is assigned then. *)
Definition assign_res (c : string) (f : gmap string cell -> res cell) (df : DataFrame)
    : res DataFrame :=
  (vals <- res_map f (rows df) ;;
   ok {| columns := if has_column c df then columns df else columns df ++ [c];
         rows := zip_with (fun r v => <[c := v]> r) (rows df) vals |})%res.

(** [df[cols]]: [KeyError] when a label is missing. *)
Definition select (cols : list string) (df : DataFrame) : res DataFrame :=
  if forallb (fun c => has_column c df) cols then
    ok {| columns := cols;
          rows := map (fun r => list_to_map (map (fun c => (c, cell_at c r)) cols)) (rows df) |}
  else raise KeyError.

(** [df.drop(cols, axis=1, errors='ignore')] *)
Definition drop_columns (cols : list string) (df : DataFrame) : DataFrame :=
  {| columns := List.filter (fun c => negb (existsb (String.eqb c) cols)) (columns df);
     rows := map (fun r => foldr delete r cols) (rows df) |}.

(** [df[mask]] with the mask given row by row. *)
Definition filter_rows (keep : gmap string cell -> bool) (df : DataFrame) : DataFrame :=
  {| columns := columns df; rows := List.filter keep (rows df) |}.

Definition notna_all (subset : list string) (r : gmap string cell) : bool :=
  forallb (fun c => negb (isna (cell_at c r))) subset.

(** [df.dropna(subset=cols)] *)
Definition dropna (subset : list string) (df : DataFrame) : res DataFrame :=
  if forallb (fun c => has_column c df) subset then ok (filter_rows (notna_all subset) df)
  else raise KeyError.

(** [series.isin(values)] on one value. *)
Definition isin (values : list cell) (c : cell) : bool :=
  existsb (key_eq c) values.

Fixpoint assoc (key : string) (l : list (string * string)) : option string :=
  match l with
  | [] => None
  | (k, v) :: rest => if String.eqb k key then Some v else assoc key rest
  end.

(** [df.rename(columns=mapping)] *)
Definition rename_columns (mapping : list (string * string)) (df : DataFrame) : DataFrame :=
  let new c := default c (assoc c mapping) in
  {| columns := map new (columns df);
     rows := map (fun r => list_to_map (map (fun c => (new c, cell_at c r)) (columns df)))
                 (rows df) |}.

(** [df.astype(str)] *)
Definition frame_astype_str `{Pandas} (df : DataFrame) : DataFrame :=
  {| columns := columns df;
     rows := map (fun r => list_to_map (map (fun c => (c, CStr (astype_str (cell_at c r))))
                                            (columns df)))
                 (rows df) |}.

(** The rows kept by [drop_duplicates]: the first one for each key. *)
Fixpoint first_per_key (c : string) (seen : list cell) (l : list (gmap string cell))
    : list (gmap string cell) :=
  match l with
  | [] => []
  | r :: rest =>
      if existsb (key_eq (cell_at c r)) seen then first_per_key c seen rest
      else r :: first_per_key c (cell_at c r :: seen) rest
  end.

(** [df.drop_duplicates(subset=[c])] *)
Definition drop_duplicates (c : string) (df : DataFrame) : res DataFrame :=
  if has_column c df then
    ok {| columns := columns df; rows := first_per_key c [] (rows df) |}
  else raise KeyError.

Fixpoint no_dup_labels (l : list string) : bool :=
  match l with
  | [] => true
  | x :: rest => negb (existsb (String.eqb x) rest) && no_dup_labels rest
  end.

(** [pd.merge(left, right, on=key, how='left')]: every left row, in
    order, once for each right row with the same key, and once with
    missing values when there is none.  A column other than the key that
    both frames have gets the suffixes [_x] and [_y]. *)
Definition merge_left `{Pandas} (left right : DataFrame) (key : string) : res DataFrame :=
  if negb (has_column key left && has_column key right) then raise KeyError
  else if negb (keys_mergeable (column key left) (column key right)) then raise ValueError
  else
    let shared c := negb (String.eqb c key) && has_column c left && has_column c right in
    let lname c := if shared c then c ++ "_x" else c in
    let rname c := if shared c then c ++ "_y" else c in
    let rcols := List.filter (fun c => negb (String.eqb c key)) (columns right) in
    let cols := (map lname (columns left) ++ map rname rcols)%list in
    let lpart l := map (fun c => (lname c, cell_at c l)) (columns left) in
    let joined l r : gmap string cell :=
      list_to_map (lpart l ++ map (fun c => (rname c, cell_at c r)) rcols)%list in
    let alone l : gmap string cell :=
      list_to_map (lpart l ++ map (fun c => (rname c, CNull NaN)) rcols)%list in
    if negb (no_dup_labels cols) then raise MergeError
    else
      ok {| columns := cols;
            rows := flat_map (fun l =>
                      match List.filter (fun r => key_eq (cell_at key l) (cell_at key r))
                                        (rows right) with
                      | [] => [alone l]
                      | matches => map (joined l) matches
                      end) (rows left) |}.

(** ** The HS-code reader (lines 73-81) *)

(** [pd.notna(code) and code.strip()]: a missing value is skipped before
    [strip] is called; a value that is not a text has no [strip]. *)
Definition keep_code (c : cell) : res bool :=
  match c with
  | CNull _ => ok false
  | CStr s => ok (negb (String.eqb (strip s) ""))
  | _ => raise AttributeError
  end.

(** The list comprehension of line 78: the codes are kept as read. *)
Fixpoint valid_codes (l : list cell) : res (list string) :=
  match l with
  | [] => ok []
  | c :: rest =>
      (keep <- keep_code c ;;
       kept <- valid_codes rest ;;
       ok (match c with
           | CStr s => if (keep : bool) then s :: kept else kept
           | _ => kept
           end))%res
  end.

(** [df_hscode['HSコード'].unique().tolist()] followed by the filter. *)
Definition hs_codes_of (col : list cell) : res (list string) :=
  valid_codes (uniq_by key_eq [] col).

(** ** Frames built from parsed JSON *)

(** The cell for a JSON scalar; nested values and booleans are not part
    of the cell model. *)
Definition scalar_cell (v : json) : option cell :=
  match v with
  | JNull => Some (CNull PyNone)
  | JStr s => Some (CStr s)
  | JNum n => Some (CNum n)
  | _ => None
  end.

Fixpoint record_row (fields : list (string * json)) : option (gmap string cell) :=
  match fields with
  | [] => Some ∅
  | (k, v) :: rest =>
      match scalar_cell v, record_row rest with
      | Some c, Some r => Some (<[k := c]> r)
      | _, _ => None
      end
  end.

(** One record: its labels in order and its row. *)
Definition record (j : json) : option (list string * gmap string cell) :=
  match j with
  | JObj fields =>
      match record_row fields with
      | Some r => Some (map fst fields, r)
      | None => None
      end
  | _ => None
  end.

(** [pd.DataFrame(records)] for a list of flat records: the columns are
    the keys in order of first appearance, a key a record lacks reads as
    NaN.  [None] when an element is not an object of scalars (such lists
    are outside the frame model). *)
Definition frame_of_records (recs : list json) : option DataFrame :=
  match mapM record recs with
  | Some rs =>
      Some {| columns := uniq_by String.eqb [] (concat (map fst rs));
              rows := map snd rs |}
  | None => None
  end.

Definition empty_frame (cols : list string) : DataFrame :=
  {| columns := cols; rows := [] |}.

(** [pd.DataFrame(data)] on a list whose first element is a dict asks
    every element for its keys, so such a list raises [AttributeError]
    when it holds an element that is not a dict. *)
Definition constructor_raises (data : list json) : bool :=
  match data with
  | JObj _ :: rest => existsb (fun j => negb (is_obj j)) rest
  | _ => false
  end.

(** [pd.DataFrame(data)] for a list: the exception, the frame of a list
    of flat records, or [None] for a list outside the frame model. *)
Definition pd_DataFrame (data : list json) : option (res DataFrame) :=
  if constructor_raises data then Some (raise AttributeError)
  else match frame_of_records data with
       | Some df => Some (ok df)
       | None => None
       end.

(** [pd.DataFrame(v)] for the value of a CLASS entry.  A list of flat
    records gives their frame; an empty list, an empty dict or [None]
    give the empty frame; a dict of scalars, a text, a number or a
    boolean make the constructor raise [ValueError], a list of records
    with an element that is no dict [AttributeError].  Other shapes are
    outside the frame model ([None]). *)
Definition DataFrame_of (v : json) : option (res DataFrame) :=
  match v with
  | JNull | JArr [] | JObj [] => Some (ok (empty_frame []))
  | JArr recs => pd_DataFrame recs
  | JObj fields =>
      if forallb (fun kv => match snd kv with JArr _ | JObj _ => false | _ => true end) fields
      then Some (raise ValueError)
      else None
  | JStr _ | JNum _ | JBool _ => Some (raise ValueError)
  end.

(** ** The metadata resolver (lines 174-237) *)

Definition rename_values : list (string * string) :=
  [("@cat01", "HSコード"); ("@cat02", "区分コード"); ("@cat03", "税関コード");
   ("@area", "国コード"); ("@time", "年コード"); ("$", "値（金額、数量）");
   ("@unit", "単位")].

(** Line 179: whether the retained response lacks the metadata section. *)
Definition metadata_missing (result : json) : res bool :=
  py_or (py_not (py_in "GET_STATS_DATA" result))
    (py_or (py_not (g <- py_getitem result "GET_STATS_DATA" ;;
                    py_in "STATISTICAL_DATA" g)%res)
           (py_not (g <- py_getitem result "GET_STATS_DATA" ;;
                    sd <- py_getitem g "STATISTICAL_DATA" ;;
                    py_in "CLASS_INF" sd)%res)).

(** [next((obj for obj in class_objs if obj['@id'] == id), None)] *)
Fixpoint find_class (id : string) (objs : list json) : res (option json) :=
  match objs with
  | [] => ok None
  | obj :: rest =>
      (v <- py_getitem obj "@id" ;;
       if json_is_str id v then ok (Some obj) else find_class id rest)%res
  end.

(** One value of [.astype(str).str.split('_', n=1).str[1]] (line 214). *)
Definition country_name `{Pandas} (c : cell) : cell :=
  match split_list (astype_str c) !! 1 with
  | Some name => CStr name
  | None => CNull NaN
  end.

(** A lookup table (lines 190-216): the frame of the CLASS list of the
    classification [id], its columns renamed and selected; the default
    frame when the classification or its CLASS entry is missing. *)
Definition lookup_table (class_objs : list json) (id : string)
    (names : list (string * string)) (cols : list string)
    (finish : DataFrame -> DataFrame) : option (res DataFrame) :=
  match find_class id class_objs with
  | inl e => Some (raise e)
  | inr None => Some (ok (empty_frame cols))
  | inr (Some obj) =>
      match py_in "CLASS" obj with
      | inl e => Some (raise e)
      | inr false => Some (ok (empty_frame cols))
      | inr true =>
          match py_getitem obj "CLASS" with
          | inl e => Some (raise e)
          | inr v =>
              match DataFrame_of v with
              | None => None
              | Some built =>
                  Some (df <- built ;;
                        shrink <- select cols (rename_columns names df) ;;
                        ok (finish shrink))%res
              end
          end
      end
  end.

Record lookup_tables := mkTables {
  df_cat02_shrink : DataFrame;
  df_zeikan_shrink : DataFrame;
  df_country_shrink : DataFrame
}.

(** Lines 183-216. *)
Definition read_lookup_tables `{Pandas} (result : json) : option (res lookup_tables) :=
  match (g <- py_getitem result "GET_STATS_DATA" ;;
         sd <- py_getitem g "STATISTICAL_DATA" ;;
         ci <- py_getitem sd "CLASS_INF" ;;
         co <- py_getitem ci "CLASS_OBJ" ;;
         py_iter co)%res with
  | inl e => Some (raise e)
  | inr class_objs =>
      match lookup_table class_objs "cat02"
              [("@code", "区分コード"); ("@name", "区分名"); ("@parentCode", "親コード")]
              ["区分コード"; "区分名"; "親コード"] id with
      | None => None
      | Some (inl e) => Some (raise e)
      | Some (inr cat02) =>
          match lookup_table class_objs "cat03"
                  [("@code", "税関コード"); ("@name", "税関")]
                  ["税関コード"; "税関"] id with
          | None => None
          | Some (inl e) => Some (raise e)
          | Some (inr zeikan) =>
              match lookup_table class_objs "area"
                      [("@code", "国コード"); ("@name", "国名")]
                      ["国コード"; "国名"]
                      (assign "国名" (fun r => country_name (cell_at "国名" r))) with
              | None => None
              | Some (inl e) => Some (raise e)
              | Some (inr country) =>
                  Some (ok {| df_cat02_shrink := cat02; df_zeikan_shrink := zeikan;
                              df_country_shrink := country |})
              end
          end
      end
  end.

(** [df[c]]: [KeyError] when the frame has no such column. *)
Definition require_column (c : string) (df : DataFrame) : res unit :=
  if has_column c df then ok tt else raise KeyError.

(** Lines 221-233: the three classification joins, the year, and the
    join with the item labels of the uploaded table. *)
Definition merge_all `{Pandas} (df : DataFrame) (tables : lookup_tables)
    (df_hscode : DataFrame) : res DataFrame :=
  (df_merged_1 <- merge_left df (df_cat02_shrink tables) "区分コード" ;;
   df_merged_2 <- merge_left df_merged_1 (df_zeikan_shrink tables) "税関コード" ;;
   df_merged_3 <- merge_left df_merged_2 (df_country_shrink tables) "国コード" ;;
   _ <- require_column "年コード" df_merged_3 ;;
   let df_merged_3 :=
     assign "年" (fun r => CStr (str_prefix 4 (astype_str (cell_at "年コード" r))))
       df_merged_3 in
   df_merged_3 <-
     assign_res "年" (fun r => astype_Int64 (to_numeric (cell_at "年" r))) df_merged_3 ;;
   _ <- require_column "HSコード" df_merged_3 ;;
   let df_merged_3 :=
     assign "HSコード" (fun r => CStr (astype_str (cell_at "HSコード" r))) df_merged_3 in
   labels <- select ["HSコード"; "品目"] df_hscode ;;
   df_hscode_merge <- drop_duplicates "HSコード" (frame_astype_str labels) ;;
   merge_left df_merged_3 df_hscode_merge "HSコード")%res.

(** The joins with their handler (lines 221-237): when a step raises,
    the frame before the joins is used. *)
Definition join_step `{Pandas} (df : DataFrame) (tables : lookup_tables)
    (df_hscode : DataFrame) : DataFrame :=
  match merge_all df tables df_hscode with
  | inr df_merged_4 => df_merged_4
  | inl _ => df
  end.

(** Lines 175-237: the frame handed to the shaping block.  [inl e] is an
    exception raised by the test of line 179, which no handler
    encloses; [None] is a classification table outside the frame model. *)
Definition resolve `{Pandas} (df : DataFrame) (result : option json)
    (df_hscode : DataFrame) : option (res DataFrame) :=
  match result with
  | None => Some (ok df)
  | Some envelope =>
      match metadata_missing envelope with
      | inl e => Some (raise e)
      | inr true => Some (ok df)
      | inr false =>
          match read_lookup_tables envelope with
          | None => None
          | Some (inl _) => Some (ok df)
          | Some (inr tables) => Some (ok (join_step df tables df_hscode))
          end
      end
  end.

(** A table has deduplicated keys in column [c] when no key matches more
    than one of its rows. *)
Definition single_match (t : DataFrame) (c : string) : Prop :=
  forall k : cell,
    length (List.filter (fun r => key_eq k (cell_at c r)) (rows t)) <= 1.

(** ** The shaping block (lines 241-307) *)

Definition exclude_values : list cell :=
  [CStr "単位2"; CStr "合計_金額"; CStr "合計_数量1"; CStr "合計_数量2"].

Definition final_cols_order : list string :=
  ["HSコード"; "品目"; "年"; "月"; "年月"; "区分";
   "国コード"; "国名"; "税関コード"; "税関"; "値（金額、数量）"; "単位"].

(** [df_complete = f(df_complete)] when [f] may raise. *)
Definition rebind (f : DataFrame -> res DataFrame) : cmd DataFrame unit :=
  fun df =>
    match f df with
    | inl e => (inl e, df)
    | inr df' => (ok tt, df')
    end.

(** [if c in df_complete.columns: body] *)
Definition when_column (c : string) (body : cmd DataFrame unit) : cmd DataFrame unit :=
  (df <- get ;; if has_column c df then body else cret tt)%cmd.

(** The two parts of [区分名] (line 255) for one row. *)
Definition name_parts `{Pandas} (r : gmap string cell) : string * option string :=
  split_once (astype_str (cell_at "区分名" r)).

(** [.str.extract(r'(\d+)')] on one value. *)
Definition extract_number (c : cell) : cell :=
  str_method (fun s => match extract_digits s with
                       | Some d => CStr d
                       | None => CNull NaN
                       end) c.

(** The text handed to [pd.to_datetime] (line 265) for one row. *)
Definition year_month_text `{Pandas} (r : gmap string cell) : string :=
  astype_str (cell_at "年" r) ++ "-" ++ astype_str (cell_at "月数値" r) ++ "-01".

Definition coerce_datetime `{Pandas} (c : cell) : cell :=
  match to_datetime c with
  | Some d => d
  | None => CNull NaT
  end.

Definition strict_datetime `{Pandas} (c : cell) : res cell :=
  match to_datetime c with
  | Some d => ok d
  | None => raise ValueError
  end.

(** Lines 262-271. *)
Definition year_month_block `{Pandas} : cmd DataFrame unit :=
  (df <- get ;;
   if has_column "年" df && has_column "月数値" df then
     rebind (dropna ["年"; "月数値"]) ;;;
     update (assign "年月" (fun r => coerce_datetime (CStr (year_month_text r)))) ;;;
     rebind (dropna ["年月"]) ;;;
     update (drop_columns ["月数値"])
   else cret tt)%cmd.

(** Lines 252-253: the rows whose name is on the deny list go. *)
Definition drop_excluded (df : DataFrame) : DataFrame :=
  filter_rows (fun r => negb (isin exclude_values (cell_at "区分名" r))) df.

(** Lines 255-257: [split_cols] has a column 0 as soon as there is a
    row, and a column 1 when some name holds an underscore; a name
    without underscore has [None] in column 1. *)
Definition split_name_columns `{Pandas} (df : DataFrame) : DataFrame :=
  let has_0 := match rows df with [] => false | _ => true end in
  let has_1 := existsb (fun r => match snd (name_parts r) with
                                 | Some _ => true
                                 | None => false
                                 end) (rows df) in
  assign "区分" (fun r => if has_1 then
                            match snd (name_parts r) with
                            | Some rest => CStr rest
                            | None => CNull PyNone
                            end
                          else CNull NA)
    (assign "月" (fun r => if has_0 then CStr (fst (name_parts r)) else CNull NA) df).

(** Line 260 for one row. *)
Definition month_number (r : gmap string cell) : res cell :=
  astype_Int64 (extract_number (cell_at "月" r)).

(** Lines 251-273, run when the frame has a [区分名] column. *)
Definition category_block `{Pandas} : cmd DataFrame unit :=
  (rebind (dropna ["区分名"]) ;;;
   update drop_excluded ;;;
   update split_name_columns ;;;
   rebind (assign_res "月数値" month_number) ;;;
   year_month_block ;;;
   update (drop_columns ["区分名"]))%cmd.

Definition astype_str_column `{Pandas} (c : string) : cmd DataFrame unit :=
  when_column c (update (assign c (fun r => CStr (astype_str (cell_at c r))))).

(** Lines 275-300: the period code goes, the value becomes a number,
    the codes become texts, and the columns are put in their final
    order (those that exist). *)
Definition finishing_block `{Pandas} : cmd DataFrame unit :=
  (update (drop_columns ["年コード"]) ;;;
   when_column "値（金額、数量）"
     (update (assign "値（金額、数量）" (fun r => to_numeric (cell_at "値（金額、数量）" r)))) ;;;
   astype_str_column "HSコード" ;;;
   astype_str_column "国コード" ;;;
   astype_str_column "税関コード" ;;;
   when_column "年月"
     (rebind (assign_res "年月" (fun r => strict_datetime (cell_at "年月" r)))) ;;;
   df <- get ;;
   rebind (select (List.filter (fun c => has_column c df) final_cols_order)))%cmd.

(** The body of the [try] (lines 242-300). *)
Definition shaping `{Pandas} : cmd DataFrame unit :=
  (when_column "区分名" category_block ;;; finishing_block)%cmd.

(** The shaping block with its handler (lines 302-307): the handler
    reports and goes on with [df_complete] as it is at that point. *)
Definition shaper `{Pandas} (df_complete : DataFrame) : DataFrame :=
  snd (shaping df_complete).

(** ** The whole run *)

Inductive stop_reason :=
  | MissingCodeColumn
  | ReaderError
  | NoValidCodes
  | NoData.

(** How a run ends: [st.stop()] after an error message, an exception no
    handler catches, or the final table with the three counters. *)
Inductive run_result :=
  | Stopped (reason : stop_reason)
  | Uncaught (e : exn)
  | Completed (table : DataFrame) (processed skipped errored : nat).

(** Lines 163-311: what follows the loop.  The frame constructor of
    line 167 is outside every [try].  [None] when the accumulated rows
    or a classification table are outside the frame model. *)
Definition finish `{Pandas} (st : loop_state) (df_hscode : DataFrame) : option run_result :=
  match data_list st with
  | [] => Some (Stopped NoData)
  | _ =>
      match pd_DataFrame (data_list st) with
      | None => None
      | Some (inl e) => Some (Uncaught e)
      | Some (inr raw) =>
          let df := rename_columns rename_values raw in
          match resolve df (result st) df_hscode with
          | None => None
          | Some (inl e) => Some (Uncaught e)
          | Some (inr df_complete) =>
              Some (Completed (shaper df_complete)
                      (processed_count st) (skipped_count st) (error_count st))
          end
      end
  end.

(** Lines 57-311, from the uploaded table and the remote service. *)
Definition run `{Pandas} (df_hscode : DataFrame) (fetch : string -> response)
    : option run_result :=
  if negb (has_column "HSコード" df_hscode) then Some (Stopped MissingCodeColumn)
  else
    match hs_codes_of (column "HSコード" df_hscode) with
    | inl _ => Some (Stopped ReaderError)
    | inr [] => Some (Stopped NoValidCodes)
    | inr hs_codes => finish (fetch_loop fetch hs_codes init_state) df_hscode
    end.

(** ** A reading of numerals and dates for the examples *)

(** The fields of a text separated by dashes. *)
Fixpoint split_on_dash (s : string) : list string :=
  match s with
  | EmptyString => [EmptyString]
  | String c rest =>
      if Ascii.eqb c "-"%char then EmptyString :: split_on_dash rest
      else match split_on_dash rest with
           | [] => [String c EmptyString]
           | head :: tail => String c head :: tail
           end
  end.

Definition parse_date (s : string) : option cell :=
  match split_on_dash s with
  | [y; m; d] =>
      match int_of_str y, int_of_str m, int_of_str d with
      | Some y, Some m, Some d =>
          if ((1 <=? m) && (m <=? 12) && (1 <=? d) && (d <=? 28))%Z
          then Some (CDate y m d) else None
      | _, _, _ => None
      end
  | _ => None
  end.

Definition plain_pandas : Pandas := {|
  to_numeric c :=
    match c with
    | CStr s => match int_of_str s with Some z => CNum (NInt z) | None => CNull NaN end
    | CNum n => CNum n
    | _ => CNull NaN
    end;
  to_datetime c :=
    match c with
    | CStr s => parse_date s
    | CDate y m d => Some (CDate y m d)
    | CNull _ => Some (CNull NaT)
    | CNum _ => None
    end;
  str_of_float _ := "float";
  keys_mergeable _ _ := true
|}.

(** The display name as the specification words it: the text after the
    first underscore ([None] for a text without underscore). *)
Fixpoint after_first_underscore (s : string) : option string :=
  match s with
  | EmptyString => None
  | String c rest =>
      if Ascii.eqb c underscore then Some rest else after_first_underscore rest
  end.

Fixpoint has_underscore (s : string) : bool :=
  match s with
  | EmptyString => false
  | String c rest => Ascii.eqb c underscore || has_underscore rest
  end.

(** ** Sample responses (the scenario of section 8) *)

Definition sample_row : json :=
  JObj [("@tab", JStr "1"); ("@cat01", JStr "010121010"); ("@cat02", JStr "110");
        ("@cat03", JStr "100"); ("@area", JStr "50103"); ("@time", JStr "2023000000");
        ("@unit", JStr "KG"); ("$", JStr "12345")].

Definition class_entry (code name : string) : json :=
  JObj [("@code", JStr code); ("@name", JStr name); ("@level", JStr "1")].

Definition sample_class_inf : json :=
  JObj [("CLASS_OBJ", JArr [
    JObj [("@id", JStr "cat02");
          ("CLASS", JArr [
             JObj [("@code", JStr "110"); ("@name", JStr "01_輸出");
                   ("@level", JStr "1"); ("@parentCode", JStr "100")];
             JObj [("@code", JStr "100"); ("@name", JStr "合計_金額");
                   ("@level", JStr "1"); ("@parentCode", JStr "000")]])];
    JObj [("@id", JStr "cat03");
          ("CLASS", JArr [class_entry "100" "東京"])];
    JObj [("@id", JStr "area");
          ("CLASS", JArr [class_entry "50103" "103_大韓民国"])]])].

(** Status 0 with one value row and the classification tables. *)
Definition sample_success : json :=
  JObj [("GET_STATS_DATA", JObj [
    ("RESULT", JObj [("STATUS", JNum (NInt 0)); ("ERROR_MSG", JStr "正常に終了しました。")]);
    ("STATISTICAL_DATA", JObj [
       ("CLASS_INF", sample_class_inf);
       ("DATA_INF", JObj [("VALUE", JArr [sample_row])])])])].

(** Status 0 with value rows but no classification section. *)
Definition sample_no_metadata : json :=
  JObj [("GET_STATS_DATA", JObj [
    ("RESULT", JObj [("STATUS", JNum (NInt 0))]);
    ("STATISTICAL_DATA", JObj [
       ("DATA_INF", JObj [("VALUE", JArr [sample_row])])])])].

(** Status 0 without a value list. *)
Definition sample_empty : json :=
  JObj [("GET_STATS_DATA", JObj [
    ("RESULT", JObj [("STATUS", JNum (NInt 0))]);
    ("STATISTICAL_DATA", JObj [("CLASS_INF", sample_class_inf)])])].

(** Status 0 with a value list that holds no row. *)
Definition sample_zero_rows : json :=
  JObj [("GET_STATS_DATA", JObj [
    ("RESULT", JObj [("STATUS", JNum (NInt 0))]);
    ("STATISTICAL_DATA", JObj [("DATA_INF", JObj [("VALUE", JArr [])])])])].

(** Status 1: no matching data. *)
Definition sample_api_error : json :=
  JObj [("GET_STATS_DATA", JObj [
    ("RESULT", JObj [("STATUS", JNum (NInt 1)); ("ERROR_MSG", JStr "該当データなし")])])].

Definition sample_fetch (code : string) : response :=
  if String.eqb code "010121010" then Body sample_success
  else if String.eqb code "resume" then Body sample_api_error
  else TransportFailure.

(** The uploaded table of the scenario: two codes, the first one twice. *)
Definition sample_hscode : DataFrame :=
  {| columns := ["HSコード"; "品目"];
     rows := [ {[ "HSコード" := CStr "010121010"; "品目" := CStr "馬" ]};
               {[ "HSコード" := CStr "resume"; "品目" := CStr "再開" ]};
               {[ "HSコード" := CStr "010121010"; "品目" := CStr "馬（重複）" ]} ] |}.


(** The frame of the accumulated sample rows and the lookup tables of
    the sample response. *)
Definition sample_df : DataFrame :=
  match frame_of_records [sample_row; sample_row] with
  | Some raw => rename_columns rename_values raw
  | None => empty_frame []
  end.

Definition sample_tables : lookup_tables :=
  match @read_lookup_tables plain_pandas sample_success with
  | Some (inr tables) => tables
  | _ => {| df_cat02_shrink := empty_frame []; df_zeikan_shrink := empty_frame [];
            df_country_shrink := empty_frame [] |}
  end.


(** A service whose only response has value rows but no classification
    section. *)
Definition no_metadata_fetch (code : string) : response :=
  if String.eqb code "010121010" then Body sample_no_metadata
  else Body sample_api_error.

Definition sample_raw : DataFrame :=
  match frame_of_records [sample_row] with
  | Some raw => raw
  | None => empty_frame []
  end.

(** A response with two value rows whose category table names one
    category with a month number beyond 64 bits and the other with a
    denied name. *)
Definition overflow_success : json :=
  JObj [("GET_STATS_DATA", JObj [
    ("RESULT", JObj [("STATUS", JNum (NInt 0))]);
    ("STATISTICAL_DATA", JObj [
       ("CLASS_INF", JObj [("CLASS_OBJ", JArr [
          JObj [("@id", JStr "cat02");
                ("CLASS", JArr [
                   JObj [("@code", JStr "110"); ("@name", JStr "99999999999999999999_輸出");
                         ("@parentCode", JStr "100")];
                   JObj [("@code", JStr "100"); ("@name", JStr "合計_金額");
                         ("@parentCode", JStr "000")]])];
          JObj [("@id", JStr "cat03"); ("CLASS", JArr [class_entry "100" "東京"])];
          JObj [("@id", JStr "area"); ("CLASS", JArr [class_entry "50103" "103_大韓民国"])]])]);
       ("DATA_INF", JObj [("VALUE", JArr [
          sample_row;
          JObj [("@tab", JStr "1"); ("@cat01", JStr "010121010"); ("@cat02", JStr "100");
                ("@cat03", JStr "100"); ("@area", JStr "50103");
                ("@time", JStr "2023000000"); ("@unit", JStr "KG"); ("$", JStr "99")]])])])])].

Definition overflow_fetch (code : string) : response :=
  if String.eqb code "010121010" then Body overflow_success
  else Body sample_api_error.

(** The frame that enters the shaping block in the run on
    [overflow_fetch]. *)
Definition overflow_merged : DataFrame :=
  let st := fetch_loop overflow_fetch ["010121010"] init_state in
  match frame_of_records (data_list st) with
  | Some raw =>
      match @resolve plain_pandas (rename_columns rename_values raw) (result st)
              sample_hscode with
      | Some (inr df_complete) => df_complete
      | _ => empty_frame []
      end
  | None => empty_frame []
  end.

(** ** Vocabulary of the properties *)

(** The test of line 179 can be evaluated on the envelope. *)
Definition retainable (j : json) : Prop :=
  exists b : bool, metadata_missing j = inr b.

(** The outcome whose aggregation the loop body performs on a body that
    follows the contract: as [classify], but a value list without rows is
    aggregated as a success (the test of line 124 is on the presence of
    the [VALUE] entry). *)
Definition performed (j : json) : Outcome :=
  match envelope_status j with
  | None => MalformedResponse
  | Some status =>
      if py_eq_zero status then
        match value_rows j with
        | Some rows => Success rows j
        | None => EmptyResult
        end
      else ApiError status
  end.

(** A response with status 0 whose value list holds no row. *)
Definition empty_value_list (r : response) : bool :=
  match r with
  | Body j =>
      match envelope_status j, value_rows j with
      | Some status, Some [] => py_eq_zero status
      | _, _ => false
      end
  | _ => false
  end.


Definition null_statistical_data : json :=
  JObj [("GET_STATS_DATA", JObj [
    ("RESULT", JObj [("STATUS", JNum (NInt 0))]);
    ("STATISTICAL_DATA", JNull)])].

(** A state that retains the sample response. *)
Definition retaining_state : loop_state :=
  {| data_list := [sample_row]; result := Some sample_success;
     processed_count := 1; error_count := 0; skipped_count := 0 |}.

(** The flat key-to-scalar mappings of the data model: records of
    texts, numbers and nulls. *)
Definition is_scalar (v : json) : bool :=
  match v with
  | JNull | JStr _ | JNum _ => true
  | _ => false
  end.

Definition flat_record (j : json) : bool :=
  match j with
  | JObj fields => forallb (fun kv => is_scalar (snd kv)) fields
  | _ => false
  end.

(** What a classification table may be built from within the frame
    model: a list of flat records, a dict without nested values, or a
    scalar. *)
Definition table_source (v : json) : bool :=
  match v with
  | JArr recs => forallb flat_record recs
  | JObj fields =>
      forallb (fun kv => match snd kv with JArr _ | JObj _ => false | _ => true end) fields
  | _ => true
  end.

(** The classification objects of an envelope (line 183). *)
Definition class_objs_of (envelope : json) : res (list json) :=
  (g <- py_getitem envelope "GET_STATS_DATA" ;;
   sd <- py_getitem g "STATISTICAL_DATA" ;;
   ci <- py_getitem sd "CLASS_INF" ;;
   co <- py_getitem ci "CLASS_OBJ" ;;
   py_iter co)%res.

(** Every [CLASS] entry of the envelope is a table source. *)
Definition flat_classes (envelope : json) : Prop :=
  forall objs obj v,
    class_objs_of envelope = ok objs ->
    obj ∈ objs ->
    py_getitem obj "CLASS" = ok v ->
    table_source v = true.

(** A response whose value list holds a record and a text, and a
    service that answers with it. *)
Definition mixed_rows_success : json :=
  JObj [("GET_STATS_DATA", JObj [
    ("RESULT", JObj [("STATUS", JNum (NInt 0))]);
    ("STATISTICAL_DATA", JObj [
       ("CLASS_INF", sample_class_inf);
       ("DATA_INF", JObj [("VALUE", JArr [sample_row; JStr "x"])])])])].

Definition mixed_fetch (code : string) : response := Body mixed_rows_success.

Definition counters_sum (s : loop_state) : nat :=
  processed_count s + skipped_count s + error_count s.


(** The texts among a list of cells. *)
Definition texts (l : list cell) : list string :=
  omap (fun c => match c with CStr s => Some s | _ => None end) l.

Definition text_or_null (c : cell) : Prop :=
  match c with
  | CStr _ | CNull _ => True
  | _ => False
  end.

Definition nonblank (s : string) : bool := negb (String.eqb (strip s) "").

(** What the loop keeps true of its variables: rows were only ever
    appended together with an envelope, and the retained envelope is one
    on which the test of line 179 can be evaluated. *)
Definition loop_invariant (st : loop_state) : Prop :=
  (data_list st <> [] -> result st <> None) /\
  (forall j, result st = Some j -> retainable j).

(** The frame [df'] has the rows of [df] in number and no column that
    [df] lacks. *)
Definition no_new (df df' : DataFrame) : Prop :=
  nrows df' = nrows df /\
  (forall c, has_column c df' = true -> has_column c df = true).

(** A statement that neither removes rows nor adds columns, whether it
    raises or not. *)
Definition stable (m : cmd DataFrame unit) : Prop :=
  forall df, no_new df (snd (m df)).

(** The frame at line 260: rows without a name or with a denied name
    removed, the columns [月] and [区分] set. *)
Definition named_stage `{Pandas} (df : DataFrame) : DataFrame :=
  split_name_columns (drop_excluded (filter_rows (notna_all ["区分名"]) df)).

(** The month number of a row as a function of its [区分名] cell. *)
Definition month_of_name `{Pandas} (name : cell) : res cell :=
  astype_Int64 (extract_number (CStr (fst (split_once (astype_str name))))).


(** ** Vocabulary of the further properties *)

(** The rows that the pass for a response appends. *)
Definition rows_appended (r : response) : list json :=
  data_list (iteration r init_state).

(** The counter that the pass for a response increments. *)
Definition bumped (r : response) : counter :=
  if Nat.eqb (processed_count (iteration r init_state)) 1 then Processed
  else if Nat.eqb (skipped_count (iteration r init_state)) 1 then Skipped
  else Errored.

Definition counter_eqb (a b : counter) : bool :=
  match a, b with
  | Processed, Processed | Skipped, Skipped | Errored, Errored => true
  | _, _ => false
  end.

(** The codes of a list whose pass increments the counter [c]. *)
Definition codes_with (c : counter) (fetch : string -> response) (codes : list string)
    : list string :=
  List.filter (fun code => counter_eqb (bumped (fetch code)) c) codes.

(** The body of a response, when it has one. *)
Definition body_of (r : response) : option json :=
  match r with
  | Body j => Some j
  | _ => None
  end.

(** The table of the scenario run. *)
Definition scenario_table : DataFrame :=
  match @run plain_pandas sample_hscode sample_fetch with
  | Some (Completed table _ _ _) => table
  | _ => empty_frame []
  end.

(** The label a column has after line 168. *)
Definition long_name (c : string) : string := default c (assoc c rename_values).

(** The cell that [pd.DataFrame] builds for the key [k] of a record. *)
Definition record_cell (k : string) (fields : list (string * json)) : cell :=
  match dict_get k fields with
  | Some v => default (CNull NaN) (scalar_cell v)
  | None => CNull NaN
  end.

(** The parts of a left join (see [merge_left]): the columns both
    frames have besides the key, the labels of the left and of the right
    columns in the result, the right columns that are added, and the
    right rows that match a left row. *)
Definition shared_label (left right : DataFrame) (key c : string) : bool :=
  negb (String.eqb c key) && has_column c left && has_column c right.

Definition left_label (left right : DataFrame) (key c : string) : string :=
  if shared_label left right key c then c ++ "_x" else c.

Definition right_label (left right : DataFrame) (key c : string) : string :=
  if shared_label left right key c then c ++ "_y" else c.

Definition added_columns (right : DataFrame) (key : string) : list string :=
  List.filter (fun c => negb (String.eqb c key)) (columns right).

Definition matches (right : DataFrame) (key : string) (l : gmap string cell)
    : list (gmap string cell) :=
  List.filter (fun r => key_eq (cell_at key l) (cell_at key r)) (rows right).

(** The row of the result for a left row and the right row joined to
    it, if any. *)
Definition joined_row (left right : DataFrame) (key : string)
    (l : gmap string cell) (r : option (gmap string cell)) : gmap string cell :=
  list_to_map
    (map (fun c => (left_label left right key c, cell_at c l)) (columns left) ++
     map (fun c => (right_label left right key c,
                    match r with
                    | Some r => cell_at c r
                    | None => CNull NaN
                    end)) (added_columns right key))%list.

(** The rows of the result that come from one left row. *)
Definition rows_for (left right : DataFrame) (key : string) (l : gmap string cell)
    : list (gmap string cell) :=
  match matches right key l with
  | [] => [joined_row left right key l None]
  | found => map (fun r => joined_row left right key l (Some r)) found
  end.

Definition merged_columns (left right : DataFrame) (key : string) : list string :=
  (map (left_label left right key) (columns left) ++
   map (right_label left right key) (added_columns right key))%list.

(** Line 230: the item labels of the uploaded table, as texts, one row
    for each code. *)
Definition label_table `{Pandas} (df_hscode : DataFrame) : res DataFrame :=
  (labels <- select ["HSコード"; "品目"] df_hscode ;;
   drop_duplicates "HSコード" (frame_astype_str labels))%res.

(** The first row of the uploaded table whose code prints as [code]. *)
Definition first_with_code `{Pandas} (code : string) (df_hscode : DataFrame)
    : option (gmap string cell) :=
  List.find (fun r => String.eqb code (astype_str (cell_at "HSコード" r))) (rows df_hscode).

(** The rows of a table whose key is the text [code]. *)
Definition rows_with_key (c code : string) (t : DataFrame) : list (gmap string cell) :=
  List.filter (fun r => key_eq (CStr code) (cell_at c r)) (rows t).

(** Whether lines 251-253 keep a row: its [区分名] is neither missing nor
    on the deny list. *)
Definition keeps_name (r : gmap string cell) : bool :=
  negb (isna (cell_at "区分名" r)) && negb (isin exclude_values (cell_at "区分名" r)).

(** A statement that adds no row, whether it raises or not. *)
Definition shrinks (m : cmd DataFrame unit) : Prop :=
  forall df, nrows (snd (m df)) <= nrows df.

(** A statement that leaves the column labels as they are, whether it
    raises or not. *)
Definition keeps_columns (m : cmd DataFrame unit) : Prop :=
  forall df, columns (snd (m df)) = columns df.

(** A statement that, when it completes, leaves the labels of the final
    order that the frame had, in that order. *)
Definition orders_columns (k : cmd DataFrame unit) : Prop :=
  forall df out, k df = (ok tt, out) ->
    columns out = List.filter (fun c => has_column c df) final_cols_order.

(** Whether the shaped frame has the column [c], from the columns of the
    frame that enters the block: the columns [月] and [区分] come with a
    [区分名] column, and [年月] with [区分名] and [年]. *)
Definition shaped_column (df : DataFrame) (c : string) : bool :=
  has_column c df ||
  has_column "区分名" df &&
    (String.eqb c "月" || String.eqb c "区分" ||
     String.eqb c "年月" && has_column "年" df).

(** Every row of the frame has a missing value in column [c]. *)
Definition all_missing (c : string) (df : DataFrame) : Prop :=
  forall r, r ∈ rows df -> isna (cell_at c r) = true.

(** The label that line 231 joins to a code cell: the [品目] text of the
    first uploaded row with that code, NaN when there is none. *)
Definition label_of `{Pandas} (df_hscode : DataFrame) (code : cell) : cell :=
  match code with
  | CStr s =>
      match first_with_code s df_hscode with
      | Some r => CStr (astype_str (cell_at "品目" r))
      | None => CNull NaN
      end
  | _ => CNull NaN
  end.

(** Line 41: the period code sent to the service for a year. *)
Definition cd_time (selected_year : Z) : string :=
  str_of_int selected_year ++ "000000".

(** Line 224 on one period code: its first four characters. *)
Definition year_text (code : string) : string := str_prefix 4 code.

Fixpoint years_from (first : Z) (count : nat) : list Z :=
  match count with
  | O => []
  | S n => first :: years_from (first + 1)%Z n
  end.

(** Whether the period code of a year has ten characters and its first
    four are the numeral of the year, which [int] reads back. *)
Definition gives_year_back (y : Z) : bool :=
  String.eqb (year_text (cd_time y)) (str_of_int y) &&
  match int_of_str (year_text (cd_time y)) with
  | Some z => Z.eqb z y
  | None => false
  end &&
  Nat.eqb (String.length (cd_time y)) 10.

(** The years from [first] to [last] whose period code does not give the
    year back. *)
Definition years_lost (first last : Z) : list Z :=
  List.filter (fun y => negb (gives_year_back y))
              (years_from first (Z.to_nat (last - first + 1))).

(** ** Frames of the scenario *)

Definition frame_or_empty (r : res DataFrame) : DataFrame :=
  match r with
  | inr df => df
  | inl _ => empty_frame []
  end.

(** The value rows joined with the uploaded table as it is, whose first
    code occurs twice, and with the category table. *)
Definition sample_join : DataFrame :=
  frame_or_empty (@merge_left plain_pandas sample_df sample_hscode "HSコード").

Definition sample_categories : DataFrame :=
  frame_or_empty (@merge_left plain_pandas sample_df (df_cat02_shrink sample_tables)
                    "区分コード").

Definition sample_labels : DataFrame :=
  frame_or_empty (@label_table plain_pandas sample_hscode).

Definition sample_merged : DataFrame :=
  frame_or_empty (@merge_all plain_pandas sample_df sample_tables sample_hscode).

(** A response like [sample_success] whose classification section has
    no category table. *)
Definition no_category_success : json :=
  JObj [("GET_STATS_DATA", JObj [
    ("RESULT", JObj [("STATUS", JNum (NInt 0))]);
    ("STATISTICAL_DATA", JObj [
       ("CLASS_INF", JObj [("CLASS_OBJ", JArr [
          JObj [("@id", JStr "cat03"); ("CLASS", JArr [class_entry "100" "東京"])];
          JObj [("@id", JStr "area"); ("CLASS", JArr [class_entry "50103" "103_大韓民国"])]])]);
       ("DATA_INF", JObj [("VALUE", JArr [sample_row])])])])].

Definition no_category_tables : lookup_tables :=
  match @read_lookup_tables plain_pandas no_category_success with
  | Some (inr tables) => tables
  | _ => {| df_cat02_shrink := empty_frame []; df_zeikan_shrink := empty_frame [];
            df_country_shrink := empty_frame [] |}
  end.

Definition no_category_merged : DataFrame :=
  frame_or_empty (@merge_all plain_pandas sample_df no_category_tables sample_hscode).

(** An uploaded table without labels. *)
Definition codes_only : DataFrame :=
  {| columns := ["HSコード"];
     rows := [ {[ "HSコード" := CStr "010121010" ]} ] |}.

(** The codes joined with the uploaded table, and a frame of one name. *)
Definition codes_join : DataFrame :=
  frame_or_empty (@merge_left plain_pandas codes_only sample_hscode "HSコード").

Definition names_only : DataFrame :=
  {| columns := ["区分名"];
     rows := [ {[ "区分名" := CStr "01_輸出" ]} ] |}.

(** ** Vocabulary of the finished table and of the country table *)

(** The value that lines 279-285 give a cell of column [c]: the value
    column becomes a number, the three code columns become texts. *)
Definition finished_cell `{Pandas} (c : string) (v : cell) : cell :=
  if String.eqb c "値（金額、数量）" then to_numeric v
  else if String.eqb c "HSコード" || String.eqb c "国コード" || String.eqb c "税関コード"
       then CStr (astype_str v)
       else v.

(** A cell [v'] of column [c] after the finishing block (lines 275-300)
    and the cell [v] it comes from: a [年月] cell is the date read from
    [v], or [v] itself when line 290 raises. *)
Definition finished `{Pandas} (c : string) (v v' : cell) : Prop :=
  if String.eqb c "年月" then v' = v \/ to_datetime v = Some v'
  else v' = finished_cell c v.

(** A statement that keeps every row in its place; a cell of a column
    that the frame has afterwards is related by [P] to the cell it
    was. *)
Definition cellwise (P : string -> cell -> cell -> Prop) (m : cmd DataFrame unit) : Prop :=
  forall df i r,
    rows df !! i = Some r ->
    exists r', rows (snd (m df)) !! i = Some r' /\
               forall c, has_column c (snd (m df)) = true -> P c (cell_at c r) (cell_at c r').

(** [P] followed by [Q]. *)
Definition then_cell (P Q : string -> cell -> cell -> Prop) (c : string) (v v'' : cell)
    : Prop :=
  exists v', P c v v' /\ Q c v' v''.

(** The cell is what it was. *)
Definition same_cell (c : string) (v v' : cell) : Prop := v' = v.

(** The cell of column [c0] is [g] of what it was, the others are what
    they were. *)
Definition set_cell (c0 : string) (g : cell -> cell) (c : string) (v v' : cell) : Prop :=
  if String.eqb c c0 then v' = g v else v' = v.

(** A response without metadata whose one value row carries a field
    [区分名] with a denied name. *)
Definition named_no_metadata : json :=
  JObj [("GET_STATS_DATA", JObj [
    ("RESULT", JObj [("STATUS", JNum (NInt 0))]);
    ("STATISTICAL_DATA", JObj [
       ("DATA_INF", JObj [("VALUE", JArr [
          JObj [("@cat01", JStr "010121010"); ("区分名", JStr "合計_金額");
                ("$", JStr "12345")]])])])])].

Definition named_fetch (code : string) : response := Body named_no_metadata.

(** The label a column of the country table has after line 211. *)
Definition country_label (c : string) : string :=
  default c (assoc c [("@code", "国コード"); ("@name", "国名")]).

(** The country table as lines 208-212 build it, before line 214 cuts
    the names. *)
Definition country_source (class_objs : list json) : option (res DataFrame) :=
  lookup_table class_objs "area" [("@code", "国コード"); ("@name", "国名")]
    ["国コード"; "国名"] id.

(** * Properties *)

(** ** The scenario of section 8 *)

(** Codes 010121010 (one row, category 01_輸出, value 12345) and resume
    (status 1): one processed, none skipped, one errored, and one shaped
    row with year 2023, month 01, year-month 2023-01-01, category 輸出
    and value 12345. *)
Example scenario_run :
  match @run plain_pandas sample_hscode sample_fetch with
  | Some (Completed table 1 0 1) =>
      columns table = final_cols_order /\
      map (fun r => map (fun c => cell_at c r) ["年"; "月"; "年月"; "区分"; "値（金額、数量）"])
          (rows table) =
      [[CNum (NInt 2023); CStr "01"; CDate 2023 1 1; CStr "輸出"; CNum (NInt 12345)]]
  | _ => False
  end.
Proof. vm_compute. by split. Qed.

(** ** Texts *)

(** Characters, white space and digits are those of Unicode: the
    ideographic space is stripped, full-width and Arabic-Indic digits
    are digits of the pattern of line 260 and of the reading of
    integers, which also takes a sign and single underscores between
    digits; the separators 28 to 31 are stripped by [strip] and refused
    by the reading of integers. *)
Example strings_samples :
  chars "a　１" = ["a"; "　"; "１"] /\
  strip "　 123　" = "123" /\
  strip "　" = "" /\
  strip " 1 2 " = "1 2" /\
  extract_digits "a１２b3" = Some "１２" /\
  extract_digits "01月" = Some "01" /\
  extract_digits "月" = None /\
  int_of_str "１２" = Some 12%Z /\
  int_of_str " +7 " = Some 7%Z /\
  int_of_str "-٣_٤" = Some (-34)%Z /\
  int_of_str "1__0" = None /\
  int_of_str "5_" = None /\
  int_of_str "" = None /\
  int_of_str (String (ascii_of_nat 28) "5") = None /\
  strip (String (ascii_of_nat 28) "5") = "5" /\
  int_of_str "𝟏𝟐" = Some 12%Z /\
  str_prefix 4 "２０２３000000" = "２０２３" /\
  str_prefix 4 "2023000000" = "2023".
Proof. vm_compute. repeat split. Qed.

(** ** The fetch loop *)

(** Single passes of the loop body: a status 0 without value list is
    skipped; a value list without rows still counts as processed and
    replaces the retained envelope; a body that is a list is skipped as
    malformed; a body that is a number ends in the catch-all handler. *)
Example iteration_samples :
  iteration (Body sample_empty) init_state = incr_skipped init_state /\
  iteration (Body sample_zero_rows) init_state =
    {| data_list := []; result := Some sample_zero_rows;
       processed_count := 1; error_count := 0; skipped_count := 0 |} /\
  iteration (Body (JArr [])) init_state = incr_skipped init_state /\
  iteration (Body (JNum (NInt 5))) init_state = incr_error init_state /\
  iteration NotJson init_state = incr_error init_state.
Proof. by repeat split. Qed.

Lemma append_rows_run (rows : list json) (s : loop_state) :
  append_rows rows s =
  (ok tt, {| data_list := data_list s ++ rows; result := result s;
             processed_count := processed_count s; error_count := error_count s;
             skipped_count := skipped_count s |}).
Proof.
  revert s. induction rows as [|row rows IH]; intros s; simpl.
  - unfold cret. rewrite app_nil_r. by destruct s.
  - unfold cbind, update. rewrite IH. simpl. by rewrite <- app_assoc.
Qed.

(** On a contract-shaped body the loop body is the aggregator applied to
    the outcome it performs. *)
Lemma iteration_performed (j : json) (s : loop_state) :
  contract_shaped j = true ->
  iteration (Body j) s = aggregate (performed j) s.
Proof.
  intros Hshape.
  destruct j as [| | | |?|top]; try discriminate.
  unfold contract_shaped in Hshape. simpl in Hshape.
  unfold iteration, try_body, performed, envelope_status, value_rows, cbind, eval.
  simpl.
  destruct (dict_get "GET_STATS_DATA" top) as [env|] eqn:Henv; simpl in *; [|done].
  destruct env as [| | | |?|env]; try discriminate. simpl in *.
  unfold status_missing, py_or, py_not, has_value, py_and. simpl.
  destruct (dict_get "RESULT" env) as [r|] eqn:Hr; simpl in *; [|done].
  destruct r as [| | | |?|r]; try discriminate. simpl in *.
  destruct (dict_get "STATUS" r) as [st|] eqn:Hst; simpl; [|done].
  destruct (py_eq_zero st) eqn:Hzero; simpl.
  - destruct (dict_get "STATISTICAL_DATA" env) as [sd|] eqn:Hsd; simpl in *.
    + destruct sd as [| | | |?|sd]; try discriminate. simpl in *.
      destruct (dict_get "DATA_INF" sd) as [di|] eqn:Hdi; simpl in *.
      * destruct di as [| | | |?|di]; try discriminate. simpl in *.
        destruct (dict_get "VALUE" di) as [v|] eqn:Hv; simpl in *.
        -- destruct v as [| | | |rows|?]; try discriminate. simpl.
           unfold cbind. rewrite append_rows_run. reflexivity.
        -- by destruct (dict_get "ERROR_MSG" r).
      * by destruct (dict_get "ERROR_MSG" r).
    + by destruct (dict_get "ERROR_MSG" r).
  - by destruct (dict_get "ERROR_MSG" r).
Qed.

(** A body with status 0 and a value list is aggregated as a success,
    whatever else it holds. *)
Lemma iteration_value_list (j status : json) (rows : list json) (s : loop_state) :
  envelope_status j = Some status ->
  py_eq_zero status = true ->
  value_rows j = Some rows ->
  iteration (Body j) s = aggregate (Success rows j) s.
Proof.
  unfold envelope_status, value_rows, field.
  destruct j as [| | | |?|top]; try discriminate.
  destruct (dict_get "GET_STATS_DATA" top) as [env|] eqn:Henv; [|done].
  destruct env as [| | | |?|env]; try discriminate.
  destruct (dict_get "RESULT" env) as [r|] eqn:Hr; [|done].
  destruct r as [| | | |?|r]; try discriminate.
  intros Hst Hzero.
  destruct (dict_get "STATISTICAL_DATA" env) as [sd|] eqn:Hsd; [|done].
  destruct sd as [| | | |?|sd]; try discriminate.
  destruct (dict_get "DATA_INF" sd) as [di|] eqn:Hdi; [|done].
  destruct di as [| | | |?|di]; try discriminate.
  destruct (dict_get "VALUE" di) as [v|] eqn:Hv; [|done].
  destruct v as [| | | |items|?]; try discriminate. intros [= <-].
  unfold iteration, try_body, cbind, eval, status_missing, py_or, py_not, has_value,
    py_and. simpl. rewrite Henv. simpl. rewrite Hr. simpl. rewrite Hst. simpl.
  rewrite Hzero, Hsd. simpl. rewrite Hdi. simpl. rewrite Hv. simpl.
  unfold cbind. rewrite append_rows_run. reflexivity.
Qed.

(** The outcome of 4.2 and the outcome the loop body performs differ
    only on a value list without rows. *)
Lemma classify_performed (j : json) :
  empty_value_list (Body j) = false -> classify j = performed j.
Proof.
  unfold empty_value_list, classify, performed.
  destruct (envelope_status j) as [status|]; [|done].
  destruct (py_eq_zero status); [|done].
  by destruct (value_rows j) as [[|row rows]|].
Qed.

Ltac case_scrutinee :=
  match goal with
  | |- context [match ?x with _ => _ end] => destruct x eqn:?
  end.

Lemma value_path_retainable (j g v : json) :
  py_in "GET_STATS_DATA" j = inr true ->
  py_getitem j "GET_STATS_DATA" = inr g ->
  (sd <- py_getitem g "STATISTICAL_DATA" ;;
   di <- py_getitem sd "DATA_INF" ;;
   py_getitem di "VALUE")%res = inr v ->
  retainable j.
Proof.
  intros Hin Hg Hv. unfold retainable, metadata_missing, py_or, py_not.
  rewrite Hin, Hg. simpl.
  destruct g as [| | | |?|g]; try discriminate. simpl in *.
  destruct (dict_get "STATISTICAL_DATA" g) as [sd|]; [|discriminate]. simpl in *.
  destruct sd as [| | | |?|sd]; try discriminate. simpl.
  destruct (dict_get "CLASS_INF" sd); simpl; eauto.
Qed.

(** Whatever the response, the [try] body either raises before any
    variable is written, or takes exactly one of its three exits. *)
Lemma try_body_cases (r : response) (s : loop_state) :
  (exists e, try_body r s = (inl e, s)) \/
  try_body r s = (ok tt, incr_skipped s) \/
  try_body r s = (ok tt, incr_error s) \/
  (exists j rows, r = Body j /\ retainable j /\
                  try_body r s = (ok tt, aggregate (Success rows j) s)).
Proof.
  unfold try_body, cbind, eval, update.
  destruct r as [| |j]; simpl; [by left; eexists .. |].
  repeat (first [rewrite append_rows_run | case_scrutinee]; simpl);
    simplify_eq; eauto 10.
  do 3 right. eexists _, _. split; [done|]. split; [|done].
  destruct b; [|done]. eauto using value_path_retainable.
Qed.

Lemma iteration_cases (r : response) (s : loop_state) :
  iteration r s = incr_skipped s \/
  iteration r s = incr_error s \/
  (exists j rows, r = Body j /\ retainable j /\
                  iteration r s = aggregate (Success rows j) s).
Proof.
  unfold iteration.
  destruct (try_body_cases r s) as [[e ->]|[->|[->|(j & rows & -> & Hj & ->)]]]; simpl.
  - right; left. by destruct e.
  - by left.
  - by right; left.
  - right; right. by exists j, rows.
Qed.

Lemma iteration_sum (r : response) (s : loop_state) :
  counters_sum (iteration r s) = S (counters_sum s).
Proof.
  unfold counters_sum.
  destruct (iteration_cases r s) as [->|[->|(j & rows & _ & _ & ->)]]; simpl; lia.
Qed.

Lemma fetch_loop_sum (fetch : string -> response) (codes : list string) (s : loop_state) :
  counters_sum (fetch_loop fetch codes s) = counters_sum s + length codes.
Proof.
  unfold fetch_loop. revert s.
  induction codes as [|code codes IH]; intros s; simpl; [lia|].
  rewrite IH, iteration_sum. lia.
Qed.

Lemma decode_iteration (r : response) (o : Outcome) (s : loop_state) :
  decode r = Some o -> empty_value_list r = false -> iteration r s = aggregate o s.
Proof.
  destruct r as [| |j]; simpl.
  - by intros [= <-].
  - by intros [= <-].
  - destruct (contract_shaped j) eqn:Hshape; [|done].
    intros [= <-] Hrows. rewrite (classify_performed j Hrows).
    by apply iteration_performed.
Qed.

(** A pass on a value list without rows: nothing is appended, the
    envelope is retained and [processed_count] grows. *)
Lemma iteration_empty_value_list (r : response) (s : loop_state) :
  empty_value_list r = true ->
  exists j, r = Body j /\
    iteration r s =
    {| data_list := data_list s; result := Some j;
       processed_count := S (processed_count s);
       error_count := error_count s; skipped_count := skipped_count s |}.
Proof.
  destruct r as [| |j]; [done..|]. cbn [empty_value_list].
  destruct (envelope_status j) as [status|] eqn:Hstatus; [|done].
  destruct (value_rows j) as [[|row rows]|] eqn:Hrows; [|done..].
  intros Hzero. exists j. split; [done|].
  rewrite (iteration_value_list j status [] s Hstatus Hzero Hrows).
  simpl. by rewrite app_nil_r.
Qed.

(** The rows a decoded call appends. *)
Lemma decode_rows (r : response) (o : Outcome) (s : loop_state) :
  decode r = Some o ->
  data_list (iteration r s) =
  (data_list s ++ match o with Success rows _ => rows | _ => [] end)%list.
Proof.
  intros Hdec. destruct (empty_value_list r) eqn:Hempty.
  - destruct (iteration_empty_value_list r s Hempty) as (j & -> & ->).
    cbn [data_list]. revert Hdec Hempty. cbn [decode empty_value_list].
    destruct (contract_shaped j); [|done]. intros [= <-]. unfold classify.
    destruct (envelope_status j) as [status|]; [|done].
    destruct (value_rows j) as [[|row rows]|]; [|done..].
    intros ->. by rewrite app_nil_r.
  - rewrite (decode_iteration r o s Hdec Hempty).
    destruct o; simpl; by rewrite ?app_nil_r.
Qed.




(** C2, as the loop classifies: for a response whose envelope status
    is 0, the call is aggregated as a success (all rows of the value
    list appended, the envelope retained, processed incremented) when
    the envelope carries a value list, also one without rows, which 4.2
    calls an EmptyResult; when the response follows the contract and
    carries no value list, skipped is incremented, nothing is appended
    and the retained envelope is kept; so on the contract processed is
    incremented exactly when the value list is present. *)
Theorem C2_success_status_classification (j status : json) (s : loop_state) :
  envelope_status j = Some status ->
  py_eq_zero status = true ->
  (forall rows, value_rows j = Some rows ->
     iteration (Body j) s =
     {| data_list := data_list s ++ rows; result := Some j;
        processed_count := S (processed_count s);
        error_count := error_count s; skipped_count := skipped_count s |}) /\
  (forall row rows, value_rows j = Some (row :: rows) ->
     classify j = Success (row :: rows) j) /\
  (value_rows j = Some [] -> classify j = EmptyResult) /\
  (contract_shaped j = true ->
   value_rows j = None ->
   classify j = EmptyResult /\
   iteration (Body j) s =
   {| data_list := data_list s; result := result s;
      processed_count := processed_count s;
      error_count := error_count s; skipped_count := S (skipped_count s) |}) /\
  (contract_shaped j = true ->
   (processed_count (iteration (Body j) s) = S (processed_count s) <->
    value_rows j <> None)).
Proof.
  intros Hstatus Hzero.
  split; [|split; [|split; [|split]]].
  - intros rows Hrows. by rewrite (iteration_value_list j status rows s).
  - intros row rows Hrows. unfold classify. by rewrite Hstatus, Hzero, Hrows.
  - intros Hrows. unfold classify. by rewrite Hstatus, Hzero, Hrows.
  - intros Hshape Hrows. split.
    + unfold classify. by rewrite Hstatus, Hzero, Hrows.
    + rewrite (iteration_performed j s Hshape). unfold performed.
      by rewrite Hstatus, Hzero, Hrows.
  - intros Hshape. rewrite (iteration_performed j s Hshape). unfold performed.
    rewrite Hstatus, Hzero.
    destruct (value_rows j) as [rows|]; simpl; [done|]. split; [lia|done].
Qed.

Lemma C2_success_status_classification_witness :
  iteration (Body sample_success) init_state =
  {| data_list := [sample_row]; result := Some sample_success;
     processed_count := 1; error_count := 0; skipped_count := 0 |}.
Proof.
  exact (proj1 (C2_success_status_classification sample_success (JNum (NInt 0))
           init_state eq_refl eq_refl) [sample_row] eq_refl).
Defined.

(** C2 as stated fails: a response with status 0 and a value list
    without rows has no value rows, so it is an EmptyResult, yet the
    loop increments processed and retains its envelope instead of
    incrementing skipped.  (Outside the contract, status 0 with a
    statistical-data section that is not an object is an EmptyResult
    too, and the loop counts it as errored.) *)
Lemma C2_counterexample :
  (envelope_status sample_zero_rows = Some (JNum (NInt 0)) /\
   value_rows sample_zero_rows = Some [] /\
   classify sample_zero_rows = EmptyResult /\
   iteration (Body sample_zero_rows) retaining_state =
     {| data_list := [sample_row]; result := Some sample_zero_rows;
        processed_count := 2; error_count := 0; skipped_count := 0 |}) /\
  (classify null_statistical_data = EmptyResult /\
   iteration (Body null_statistical_data) init_state = incr_error init_state).
Proof. by repeat split. Qed.

(** A pass that does not increment [processed_count] writes neither the
    row list nor the retained envelope. *)
Lemma iteration_keeps_rows (r : response) (s : loop_state) :
  processed_count (iteration r s) = processed_count s ->
  data_list (iteration r s) = data_list s.
Proof.
  destruct (iteration_cases r s) as [->|[->|(j & rows & _ & _ & ->)]]; simpl;
    [done|done|lia].
Qed.

(** C10, as the loop writes: a pass of the loop that does not take
    the success branch (processed is not incremented: malformed
    envelope, missing status, no value list, non-zero status, transport
    failure, undecodable body or any other exception) leaves the
    cumulative record list and the retained envelope as they were, and
    adds one to exactly one of the skipped and errored counters.  Such
    is every call whose response follows the contract and whose outcome
    is not a success, unless the response has status 0 and a value list
    without rows: that call appends nothing, but it replaces the
    retained envelope and adds one to processed. *)
Theorem C10_non_success_frame (r : response) (s : loop_state) :
  (processed_count (iteration r s) = processed_count s ->
   data_list (iteration r s) = data_list s /\
   result (iteration r s) = result s /\
   ((skipped_count (iteration r s) = S (skipped_count s) /\
     error_count (iteration r s) = error_count s) \/
    (skipped_count (iteration r s) = skipped_count s /\
     error_count (iteration r s) = S (error_count s)))) /\
  (forall o : Outcome,
     decode r = Some o ->
     bucket o <> Processed ->
     empty_value_list r = false ->
     processed_count (iteration r s) = processed_count s) /\
  (empty_value_list r = true ->
   exists j, r = Body j /\
     (forall o, decode r = Some o -> o = EmptyResult) /\
     iteration r s =
     {| data_list := data_list s; result := Some j;
        processed_count := S (processed_count s);
        error_count := error_count s; skipped_count := skipped_count s |}).
Proof.
  split; [|split].
  - destruct (iteration_cases r s) as [->|[->|(j & rows & _ & _ & ->)]]; simpl.
    + auto.
    + auto.
    + lia.
  - intros o Hdec Hbucket Hrows. rewrite (decode_iteration r o s Hdec Hrows).
    by destruct o.
  - intros Hempty.
    destruct (iteration_empty_value_list r s Hempty) as (j & -> & Hpass).
    exists j. split; [done|]. split; [|done].
    intros o. revert Hempty. cbn [decode empty_value_list]. unfold classify.
    destruct (contract_shaped j); [|done].
    destruct (envelope_status j) as [status|]; [|done].
    destruct (value_rows j) as [[|row rows]|]; [|done..].
    intros ->. by intros [= <-].
Qed.

Lemma C10_non_success_frame_witness :
  data_list (iteration (Body (JNum (NInt 5))) init_state) = [] /\
  result (iteration (Body (JNum (NInt 5))) init_state) = None.
Proof.
  pose proof (proj1 (C10_non_success_frame (Body (JNum (NInt 5))) init_state) eq_refl) as H.
  exact (conj (proj1 H) (proj1 (proj2 H))).
Defined.

(** C10 as stated fails: a pass with status 0 and a value list without
    rows (a success without value rows, an EmptyResult) replaces the
    retained envelope. *)
Lemma C10_counterexample :
  decode (Body sample_zero_rows) = Some EmptyResult /\
  result retaining_state = Some sample_success /\
  result (iteration (Body sample_zero_rows) retaining_state) = Some sample_zero_rows /\
  data_list (iteration (Body sample_zero_rows) retaining_state) = data_list retaining_state /\
  processed_count (iteration (Body sample_zero_rows) retaining_state) = 2 /\
  skipped_count (iteration (Body sample_zero_rows) retaining_state) = 0.
Proof. by repeat split. Qed.

(** ** The HS-code reader *)

Lemma existsb_key_eq_text (s : string) (seen : list cell) :
  existsb (key_eq (CStr s)) seen = existsb (String.eqb s) (texts seen).
Proof.
  induction seen as [|c seen IH]; [done|].
  destruct c; simpl; try done. by rewrite IH.
Qed.

Lemma valid_codes_texts (seen col : list cell) :
  Forall text_or_null col ->
  valid_codes (uniq_by key_eq seen col) =
  ok (List.filter nonblank (uniq_by String.eqb (texts seen) (texts col))).
Proof.
  intros Hcol. revert seen.
  induction Hcol as [|c col Hc _ IH]; intros seen; [done|].
  destruct c as [k|s| |]; try done.
  - (* a missing value: kept or not by [unique], dropped by the filter *)
    cbn [uniq_by texts omap].
    destruct (existsb (key_eq (CNull k)) seen).
    + apply IH.
    + cbn [valid_codes keep_code rbind]. by rewrite (IH (CNull k :: seen)).
  - cbn [uniq_by]. rewrite existsb_key_eq_text.
    change (texts (CStr s :: col)) with (s :: texts col). cbn [uniq_by].
    destruct (existsb (String.eqb s) (texts seen)).
    + apply IH.
    + cbn [valid_codes keep_code rbind]. rewrite (IH (CStr s :: seen)).
      change (texts (CStr s :: seen)) with (s :: texts seen).
      cbn [List.filter]. unfold nonblank at 2. by destruct (negb _).
Qed.

Lemma existsb_eqb_elem (s : string) (l : list string) :
  existsb (String.eqb s) l = true <-> s ∈ l.
Proof.
  rewrite existsb_exists, list_elem_of_In. split.
  - intros (x & Hx & Heq). apply String.eqb_eq in Heq. by subst.
  - intros Hin. exists s. split; [done|]. apply String.eqb_refl.
Qed.

Lemma uniq_by_text_spec (seen l : list string) :
  NoDup (uniq_by String.eqb seen l) /\
  (forall x, x ∈ uniq_by String.eqb seen l <-> x ∈ l /\ x ∉ seen).
Proof.
  revert seen. induction l as [|a l IH]; intros seen; simpl.
  - split; [constructor|]. intros x. split; [by intros ?%elem_of_nil|].
    by intros [?%elem_of_nil _].
  - destruct (existsb (String.eqb a) seen) eqn:Hseen.
    + apply existsb_eqb_elem in Hseen.
      destruct (IH seen) as [Hnd Hin]. split; [done|].
      intros x. rewrite Hin, elem_of_cons. naive_solver.
    + assert (a ∉ seen) as Ha.
      { intros Hin%existsb_eqb_elem. congruence. }
      destruct (IH (a :: seen)) as [Hnd Hin]. split.
      * constructor; [|done]. rewrite Hin. rewrite elem_of_cons. naive_solver.
      * intros x. rewrite elem_of_cons, Hin, !elem_of_cons.
        destruct (decide (x = a)); naive_solver.
Qed.

Lemma elem_of_texts (s : string) (l : list cell) : s ∈ texts l <-> CStr s ∈ l.
Proof.
  unfold texts. rewrite list_elem_of_omap. split.
  - intros (c & Hc & Heq). destruct c; naive_solver.
  - intros Hin. by exists (CStr s).
Qed.

(** The reader on a column of texts and missing values: the codes are
    the distinct texts that are not blank, as read. *)
Lemma hs_codes_of_spec (col : list cell) :
  Forall text_or_null col ->
  exists codes,
    hs_codes_of col = ok codes /\
    NoDup codes /\
    (forall s, s ∈ codes <-> CStr s ∈ col /\ strip s <> "").
Proof.
  intros Hcol. unfold hs_codes_of. rewrite (valid_codes_texts [] col Hcol).
  eexists. split; [reflexivity|].
  destruct (uniq_by_text_spec (texts []) (texts col)) as [Hnd Hin].
  split.
  - apply NoDup_ListNoDup, List.NoDup_filter, NoDup_ListNoDup, Hnd.
  - intros s. rewrite list_elem_of_In, filter_In, <- list_elem_of_In, Hin.
    rewrite elem_of_texts. unfold nonblank. rewrite negb_true_iff, String.eqb_neq.
    simpl. split; [naive_solver|]. intros [? ?]. split; [|done].
    split; [done|]. by intros ?%elem_of_nil.
Qed.

Lemma finish_stop_reason `{Pandas} (st : loop_state) (df_hscode : DataFrame)
    (reason : stop_reason) :
  finish st df_hscode = Some (Stopped reason) ->
  reason = NoData /\ data_list st = [].
Proof.
  unfold finish. destruct (data_list st) as [|row rest]; [by intros [= <-]|].
  destruct (pd_DataFrame _) as [[?|?]|]; [done| |done].
  by destruct (resolve _ _ _) as [[?|?]|].
Qed.

(** A cell that holds an ideographic space only is blank; a column of
    such cells leaves no code and the run stops. *)
Example reader_samples :
  hs_codes_of [CStr "　"; CStr " 123"; CNull NaN; CStr "123"; CStr " 123"] =
    ok [" 123"; "123"] /\
  @run plain_pandas
     {| columns := ["HSコード"]; rows := [ {[ "HSコード" := CStr "　" ]} ] |}
     sample_fetch = Some (Stopped NoValidCodes).
Proof. by vm_compute. Qed.

(** C4, as the reader is written: on a column of texts and missing
    values (the column is read with dtype str) the codes handed to the
    loop are the distinct texts of the column that are not blank, each
    exactly once and as read (not trimmed); the run stops with the
    invalid-input message exactly when no such text remains. *)
Theorem C4_reader_distinct_as_read `{Pandas} (df_hscode : DataFrame)
    (fetch : string -> response) :
  has_column "HSコード" df_hscode = true ->
  Forall text_or_null (column "HSコード" df_hscode) ->
  exists codes,
    hs_codes_of (column "HSコード" df_hscode) = ok codes /\
    NoDup codes /\
    (forall s, s ∈ codes <->
               CStr s ∈ column "HSコード" df_hscode /\ strip s <> "") /\
    (codes = [] <-> run df_hscode fetch = Some (Stopped NoValidCodes)).
Proof.
  intros Hcol Htexts.
  destruct (hs_codes_of_spec _ Htexts) as (codes & Hcodes & Hnd & Hin).
  exists codes. do 3 (split; [done|]).
  unfold run. rewrite Hcol, Hcodes. simpl.
  destruct codes as [|code codes]; [done|].
  split; [done|]. intros Hstop. by apply finish_stop_reason in Hstop as [? _].
Qed.

Lemma C4_reader_distinct_as_read_witness :
  exists codes,
    hs_codes_of (column "HSコード" sample_hscode) = ok codes /\
    NoDup codes /\
    (forall s, s ∈ codes <->
               CStr s ∈ column "HSコード" sample_hscode /\ strip s <> "") /\
    (codes = [] <->
     @run plain_pandas sample_hscode sample_fetch = Some (Stopped NoValidCodes)).
Proof.
  apply (@C4_reader_distinct_as_read plain_pandas sample_hscode sample_fetch).
  - reflexivity.
  - vm_compute. repeat constructor.
Defined.

(** C4 as stated fails: two codes that differ only in surrounding white
    space are both kept, untrimmed, so the codes are not unique after
    trimming and the trimmed identifier occurs twice. *)
Lemma C4_counterexample :
  hs_codes_of [CStr "123"; CStr " 123"] = ok ["123"; " 123"] /\
  map strip ["123"; " 123"] = ["123"; "123"] /\
  ~ NoDup (map strip ["123"; " 123"]).
Proof.
  split; [reflexivity|]. split; [reflexivity|].
  intros Hnd. apply NoDup_cons in Hnd as [Hnotin _].
  apply Hnotin. simpl. left.
Qed.

(** ** The country names *)

Lemma split_once_tail (s : string) : snd (split_once s) = after_first_underscore s.
Proof.
  induction s as [|c s IH]; [done|]. simpl.
  destruct (Ascii.eqb c underscore); [done|].
  by destruct (split_once s).
Qed.

Lemma split_once_prefixed (pre post : string) :
  has_underscore pre = false ->
  split_once (pre ++ "_" ++ post) = (pre, Some post).
Proof.
  induction pre as [|c pre IH]; [done|]. simpl.
  destruct (Ascii.eqb c underscore); [done|]. simpl.
  intros Hpre. by rewrite (IH Hpre).
Qed.

Lemma country_name_after `{Pandas} (c : cell) :
  country_name c =
  match after_first_underscore (astype_str c) with
  | Some name => CStr name
  | None => CNull NaN
  end.
Proof.
  unfold country_name, split_list. rewrite <- split_once_tail.
  by destruct (split_once (astype_str c)) as [head [tail|]].
Qed.

(** ** The joins *)

Lemma res_map_length {A B} (f : A -> res B) (l : list A) (vs : list B) :
  res_map f l = inr vs -> length vs = length l.
Proof.
  revert vs. induction l as [|x l IH]; intros vs; simpl.
  - by intros [= <-].
  - destruct (f x) as [e|y]; [done|]. simpl.
    destruct (res_map f l) as [e|ys]; [done|]. simpl.
    intros [= <-]. simpl. by rewrite (IH ys).
Qed.

Lemma assign_res_nrows (c : string) (f : gmap string cell -> res cell)
    (df df' : DataFrame) :
  assign_res c f df = inr df' -> nrows df' = nrows df.
Proof.
  unfold assign_res, nrows.
  destruct (res_map f (rows df)) as [e|vals] eqn:Hvals; [done|].
  simpl. intros [= <-]. simpl.
  rewrite length_zip_with, (res_map_length _ _ _ Hvals). lia.
Qed.

Lemma assign_nrows (c : string) (f : gmap string cell -> cell) (df : DataFrame) :
  nrows (assign c f df) = nrows df.
Proof. unfold nrows, assign. simpl. by rewrite length_map. Qed.

(** A left join with a table of deduplicated keys gives one row for each
    left row. *)
Lemma merge_left_nrows `{Pandas} (left right merged : DataFrame) (key : string) :
  single_match right key ->
  merge_left left right key = inr merged ->
  nrows merged = nrows left.
Proof.
  intros Hsingle. unfold merge_left.
  destruct (negb (has_column key left && has_column key right)); [done|].
  destruct (negb (keys_mergeable _ _)); [done|].
  destruct (negb (no_dup_labels _)); [done|].
  intros [= <-]. unfold nrows. simpl.
  induction (rows left) as [|l ls IH]; [done|].
  simpl. rewrite length_app, IH.
  specialize (Hsingle (cell_at key l)).
  destruct (List.filter _ (rows right)) as [|r1 [|r2 rs]]; simpl in *; lia.
Qed.

Lemma list_to_map_keyed (f : string -> cell) (cols : list string) (c : string) :
  (list_to_map (map (fun c => (c, f c)) cols) : gmap string cell) !! c =
  if existsb (String.eqb c) cols then Some (f c) else None.
Proof.
  induction cols as [|a cols IH]; [done|].
  simpl. destruct (String.eqb_spec c a) as [<-|Hne]; simpl.
  - by rewrite lookup_insert_eq.
  - by rewrite lookup_insert_ne.
Qed.

Lemma first_per_key_single (c : string) (k : cell) (l : list (gmap string cell))
    (seen : list cell) :
  Forall (fun r => exists s, cell_at c r = CStr s) l ->
  length (List.filter (fun r => key_eq k (cell_at c r)) (first_per_key c seen l)) <=
  if existsb (key_eq k) seen then 0 else 1.
Proof.
  intros Htext. revert seen.
  induction Htext as [|r l [s Hs] _ IH]; intros seen; simpl.
  - destruct (existsb _ seen); lia.
  - rewrite Hs.
    destruct (existsb (key_eq (CStr s)) seen) eqn:Hseen; [apply IH|].
    simpl. rewrite Hs.
    specialize (IH (CStr s :: seen)). simpl in IH.
    destruct (key_eq k (CStr s)) eqn:Hk; simpl in *.
    + destruct k as [|t| |]; try done. simpl in Hk.
      apply String.eqb_eq in Hk as ->. rewrite Hseen. lia.
    + done.
Qed.

(** The label table that the code deduplicates has deduplicated keys. *)
Lemma label_table_single `{Pandas} (labels dedup : DataFrame) :
  drop_duplicates "HSコード" (frame_astype_str labels) = inr dedup ->
  single_match dedup "HSコード".
Proof.
  unfold drop_duplicates.
  destruct (has_column "HSコード" (frame_astype_str labels)) eqn:Hcol; [|done].
  intros [= <-] k. cbn [rows].
  etrans; [apply (first_per_key_single _ k _ [])|done].
  apply Forall_forall. intros r Hr.
  unfold frame_astype_str in Hr. cbn [rows] in Hr.
  apply list_elem_of_In, in_map_iff in Hr as (r0 & <- & _).
  unfold cell_at. rewrite list_to_map_keyed.
  unfold has_column, frame_astype_str in Hcol. cbn [columns] in Hcol.
  rewrite Hcol. by eexists.
Qed.

Lemma merge_all_nrows `{Pandas} (df merged : DataFrame) (tables : lookup_tables)
    (df_hscode : DataFrame) :
  single_match (df_cat02_shrink tables) "区分コード" ->
  single_match (df_zeikan_shrink tables) "税関コード" ->
  single_match (df_country_shrink tables) "国コード" ->
  merge_all df tables df_hscode = inr merged ->
  nrows merged = nrows df.
Proof.
  intros Hcat Hzei Hcountry. unfold merge_all.
  destruct (merge_left df _ _) as [?|m1] eqn:H1; [done|]. simpl.
  destruct (merge_left m1 _ _) as [?|m2] eqn:H2; [done|]. simpl.
  destruct (merge_left m2 _ _) as [?|m3] eqn:H3; [done|]. simpl.
  destruct (require_column "年コード" m3); [done|]. simpl.
  destruct (assign_res "年" _ _) as [?|m3'] eqn:Hyear; [done|]. simpl.
  destruct (require_column "HSコード" m3'); [done|]. simpl.
  destruct (select _ df_hscode) as [?|labels]; [done|]. simpl.
  destruct (drop_duplicates _ _) as [?|dedup] eqn:Hdedup; [done|]. simpl.
  intros H4.
  rewrite (merge_left_nrows _ _ _ _ (label_table_single _ _ Hdedup) H4).
  rewrite assign_nrows, (assign_res_nrows _ _ _ _ Hyear), assign_nrows.
  rewrite (merge_left_nrows _ _ _ _ Hcountry H3).
  rewrite (merge_left_nrows _ _ _ _ Hzei H2).
  apply (merge_left_nrows _ _ _ _ Hcat H1).
Qed.

(** A table whose key column holds distinct texts has deduplicated keys. *)
Lemma single_match_texts (t : DataFrame) (c : string) (keys : list string) :
  column c t = map CStr keys ->
  NoDup keys ->
  single_match t c.
Proof.
  unfold column, single_match. intros Hcol Hnd k.
  assert (length (List.filter (key_eq k) (map (cell_at c) (rows t))) <= 1) as Hle.
  { rewrite Hcol. clear Hcol.
    destruct k as [k0|s|n|y m d];
      [clear Hnd; induction keys; simpl; auto| |clear Hnd; induction keys; simpl; auto..].
    induction Hnd as [|key keys Hnotin _ IH]; simpl; [lia|].
    destruct (String.eqb_spec s key) as [->|Hne]; simpl; [|done].
    assert (List.filter (key_eq (CStr key)) (map CStr keys) = []) as ->; [|simpl; lia].
    clear IH. induction keys as [|key' keys IH]; [done|]. simpl.
    apply not_elem_of_cons in Hnotin as [Hab Hnotin].
    destruct (String.eqb_spec key key'); [done|]. by apply IH. }
  revert Hle. generalize (rows t). intros l.
  induction l as [|r l IH]; simpl; [lia|].
  destruct (key_eq k (cell_at c r)); simpl.
  - intros Hle.
    assert (length (List.filter (key_eq k) (map (cell_at c) l)) = 0) as H0 by lia.
    assert (length (List.filter (fun r => key_eq k (cell_at c r)) l) <= 1) as IH'
      by (apply IH; lia).
    assert (length (List.filter (fun r => key_eq k (cell_at c r)) l) =
            length (List.filter (key_eq k) (map (cell_at c) l))) as Heq.
    { clear. induction l as [|x l IHl]; [done|]. simpl.
      destruct (key_eq k (cell_at c x)); simpl; by rewrite IHl. }
    lia.
  - apply IH.
Qed.

(** C5: with lookup tables of deduplicated keys, the frame that leaves
    the join step (the three classification left joins and the left join
    with the item labels, which the code deduplicates on the code column
    first) has as many rows as the frame that enters it. *)
Theorem C5_joins_preserve_row_count `{Pandas} (df : DataFrame)
    (tables : lookup_tables) (df_hscode : DataFrame) :
  single_match (df_cat02_shrink tables) "区分コード" ->
  single_match (df_zeikan_shrink tables) "税関コード" ->
  single_match (df_country_shrink tables) "国コード" ->
  nrows (join_step df tables df_hscode) = nrows df.
Proof.
  intros Hcat Hzei Hcountry. unfold join_step.
  destruct (merge_all df tables df_hscode) as [e|merged] eqn:Hmerge; [done|].
  by apply (merge_all_nrows df merged tables df_hscode).
Qed.

Lemma C5_joins_preserve_row_count_witness :
  nrows (@join_step plain_pandas sample_df sample_tables sample_hscode) = nrows sample_df.
Proof.
  apply (@C5_joins_preserve_row_count plain_pandas sample_df sample_tables sample_hscode).
  - apply (single_match_texts _ _ ["110"; "100"]); [by vm_compute|].
    refine (bool_decide_unpack _ _). by vm_compute.
  - apply (single_match_texts _ _ ["100"]); [by vm_compute|].
    refine (bool_decide_unpack _ _). by vm_compute.
  - apply (single_match_texts _ _ ["50103"]); [by vm_compute|].
    refine (bool_decide_unpack _ _). by vm_compute.
Defined.

(** ** After the loop *)

Lemma iteration_invariant (r : response) (s : loop_state) :
  loop_invariant s -> loop_invariant (iteration r s).
Proof.
  intros [Hrows Hres].
  destruct (iteration_cases r s) as [->|[->|(j & rows & _ & Hj & ->)]];
    split; simpl; auto.
  intros j' [= <-]. exact Hj.
Qed.

Lemma fetch_loop_invariant (fetch : string -> response) (codes : list string)
    (s : loop_state) :
  loop_invariant s -> loop_invariant (fetch_loop fetch codes s).
Proof.
  unfold fetch_loop. revert s.
  induction codes as [|code codes IH]; intros s Hs; simpl; [done|].
  by apply IH, iteration_invariant.
Qed.

Lemma init_state_invariant : loop_invariant init_state.
Proof. by split. Qed.

(** A loop in which no pass succeeds accumulates nothing. *)
Lemma fetch_loop_no_success (fetch : string -> response) (codes : list string)
    (s : loop_state) :
  (forall code s', code ∈ codes ->
     processed_count (iteration (fetch code) s') = processed_count s') ->
  data_list (fetch_loop fetch codes s) = data_list s.
Proof.
  unfold fetch_loop. revert s.
  induction codes as [|code codes IH]; intros s Hnone; simpl; [done|].
  rewrite IH.
  - apply iteration_keeps_rows. apply Hnone. left.
  - intros code' s' Hin. apply Hnone. by right.
Qed.

(** The only exception that leaves the run after the loop is the one
    of the frame constructor. *)
Lemma finish_uncaught `{Pandas} (st : loop_state) (df_hscode : DataFrame) (e : exn) :
  loop_invariant st -> finish st df_hscode = Some (Uncaught e) ->
  e = AttributeError /\ constructor_raises (data_list st) = true.
Proof.
  intros [_ Hres]. unfold finish.
  destruct (data_list st) as [|row rest]; [done|].
  unfold pd_DataFrame.
  destruct (constructor_raises (row :: rest)); [by intros [= <-]|].
  destruct (frame_of_records _) as [raw|]; [|done].
  unfold resolve. destruct (result st) as [envelope|]; [|done].
  destruct (Hres envelope eq_refl) as [b ->].
  destruct b; [done|].
  by destruct (read_lookup_tables envelope) as [[?|?]|].
Qed.

Lemma record_row_flat (fields : list (string * json)) :
  forallb (fun kv => is_scalar (snd kv)) fields = true -> is_Some (record_row fields).
Proof.
  induction fields as [|[k v] fields IH]; [by eexists|].
  cbn [forallb snd record_row]. intros [Hv Hrest]%andb_true_iff.
  destruct (IH Hrest) as [r ->]. by destruct v.
Qed.

Lemma frame_of_records_flat (recs : list json) :
  forallb flat_record recs = true ->
  constructor_raises recs = false /\ is_Some (frame_of_records recs).
Proof.
  intros Hflat. rewrite forallb_forall in Hflat. split.
  - destruct recs as [|[| | | | |fields] rest]; try done. cbn [constructor_raises].
    destruct (existsb _ rest) eqn:Hany; [|done].
    apply existsb_exists in Hany as (j & Hj & Hobj).
    assert (flat_record j = true) as Hflatj by (apply Hflat; by right).
    by destruct j.
  - unfold frame_of_records.
    assert (is_Some (mapM record recs)) as [rs ->]; [|by eexists].
    apply mapM_is_Some, Forall_forall. intros j Hj%list_elem_of_In%Hflat.
    destruct j as [| | | | |fields]; try done. unfold compose. cbn [record].
    by destruct (record_row_flat fields Hj) as [r ->].
Qed.

Lemma frame_of_records_no_raise (recs : list json) (raw : DataFrame) :
  frame_of_records recs = Some raw -> constructor_raises recs = false.
Proof.
  unfold frame_of_records.
  destruct (mapM record recs) as [rs|] eqn:Hrs; [|done]. intros _.
  apply mapM_Some in Hrs.
  destruct recs as [|[| | | | |fields] rest]; try done. cbn [constructor_raises].
  destruct (existsb _ rest) eqn:Hany; [|done].
  apply existsb_exists in Hany as (j & Hj & Hobj).
  apply Forall2_cons_inv_l in Hrs as (? & ? & _ & Hrest & _).
  apply list_elem_of_In, list_elem_of_lookup in Hj as [i Hi].
  destruct (Forall2_lookup_l _ _ _ _ _ Hrest Hi) as (? & _ & Hrec).
  by destruct j.
Qed.

Lemma find_class_elem (id : string) (objs : list json) (obj : json) :
  find_class id objs = ok (Some obj) -> obj ∈ objs.
Proof.
  induction objs as [|o objs IH]; [done|]. cbn [find_class].
  destruct (py_getitem o "@id") as [?|v]; [done|]. cbn [rbind].
  destruct (json_is_str id v).
  - intros [= <-]. by left.
  - intros Hfound. right. by apply IH.
Qed.

Lemma DataFrame_of_source (v : json) :
  table_source v = true -> DataFrame_of v <> None.
Proof.
  destruct v as [| | | |recs|fields]; try done.
  - destruct recs as [|rec recs]; [done|]. cbn [table_source DataFrame_of].
    intros [Hraise [raw Hraw]]%frame_of_records_flat.
    unfold pd_DataFrame. by rewrite Hraise, Hraw.
  - destruct fields as [|kv fields]; [done|].
    unfold table_source, DataFrame_of. by intros ->.
Qed.

Lemma lookup_table_total (class_objs : list json) (id : string)
    (names : list (string * string)) (cols : list string)
    (finish : DataFrame -> DataFrame) :
  (forall obj v, obj ∈ class_objs -> py_getitem obj "CLASS" = ok v ->
                 table_source v = true) ->
  lookup_table class_objs id names cols finish <> None.
Proof.
  intros Hflat. unfold lookup_table.
  destruct (find_class id class_objs) as [e|[obj|]] eqn:Hfind; [done| |done].
  apply find_class_elem in Hfind.
  destruct (py_in "CLASS" obj) as [e|[|]]; [done| |done].
  destruct (py_getitem obj "CLASS") as [e|v] eqn:Hv; [done|].
  pose proof (DataFrame_of_source v (Hflat obj v Hfind Hv)) as Hsome.
  by destruct (DataFrame_of v).
Qed.

Lemma read_lookup_tables_total `{Pandas} (envelope : json) :
  flat_classes envelope -> read_lookup_tables envelope <> None.
Proof.
  intros Hflat. unfold read_lookup_tables, flat_classes, class_objs_of in *.
  destruct (_ : res (list json)) as [e|class_objs]; [done|].
  specialize (Hflat class_objs).
  assert (forall obj v, obj ∈ class_objs -> py_getitem obj "CLASS" = ok v ->
                        table_source v = true) as Hobjs by eauto.
  pose proof (lookup_table_total class_objs "cat02"
                [("@code", "区分コード"); ("@name", "区分名"); ("@parentCode", "親コード")]
                ["区分コード"; "区分名"; "親コード"] id Hobjs) as H1.
  destruct (lookup_table class_objs "cat02" _ _ _) as [[e|cat02]|]; [done| |done].
  pose proof (lookup_table_total class_objs "cat03"
                [("@code", "税関コード"); ("@name", "税関")]
                ["税関コード"; "税関"] id Hobjs) as H2.
  destruct (lookup_table class_objs "cat03" _ _ _) as [[e|zeikan]|]; [done| |done].
  pose proof (lookup_table_total class_objs "area"
                [("@code", "国コード"); ("@name", "国名")]
                ["国コード"; "国名"]
                (assign "国名" (fun r => country_name (cell_at "国名" r))) Hobjs) as H3.
  by destruct (lookup_table class_objs "area" _ _ _) as [[e|country]|].
Qed.

(** Within the data model the run after the loop always ends with a
    table. *)
Lemma finish_total `{Pandas} (st : loop_state) (df_hscode : DataFrame) :
  loop_invariant st ->
  data_list st <> [] ->
  forallb flat_record (data_list st) = true ->
  (forall envelope, result st = Some envelope -> flat_classes envelope) ->
  exists table,
    finish st df_hscode =
    Some (Completed table (processed_count st) (skipped_count st) (error_count st)).
Proof.
  intros [_ Hres] Hrows [Hraise [raw Hraw]]%frame_of_records_flat Hclasses.
  unfold finish. destruct (data_list st) as [|row rest]; [done|].
  unfold pd_DataFrame. rewrite Hraise, Hraw.
  unfold resolve. destruct (result st) as [envelope|]; [|by eexists].
  destruct (Hres envelope eq_refl) as [b ->].
  destruct b; [by eexists|].
  pose proof (read_lookup_tables_total envelope (Hclasses envelope eq_refl)) as Hsome.
  destruct (read_lookup_tables envelope) as [[?|?]|]; [by eexists..|done].
Qed.

(** C3, as the run goes on after the loop: when the cumulative record
    list is empty after the loop (in particular when no pass of the loop
    succeeded) the run stops with the no-data message and produces no
    table, and no other stop follows the loop.  A run that goes past
    this test ends with a table and the three counters, or with the
    exception of the frame constructor of line 167, which no handler
    encloses, when the list holds a record and an element that is not a
    record; within the data model (the accumulated rows are flat
    records, the classification tables lists of flat records) it always
    ends with a table. *)
Theorem C3_no_data_is_the_only_stop `{Pandas} (fetch : string -> response)
    (codes : list string) (df_hscode : DataFrame) :
  let st := fetch_loop fetch codes init_state in
  (data_list st = [] -> finish st df_hscode = Some (Stopped NoData)) /\
  ((forall code s, code ∈ codes ->
      processed_count (iteration (fetch code) s) = processed_count s) ->
   finish st df_hscode = Some (Stopped NoData)) /\
  (forall outcome, finish st df_hscode = Some outcome ->
     (outcome = Stopped NoData /\ data_list st = []) \/
     (exists table,
        outcome = Completed table (processed_count st) (skipped_count st)
                    (error_count st) /\
        data_list st <> []) \/
     (outcome = Uncaught AttributeError /\
      constructor_raises (data_list st) = true)) /\
  (data_list st <> [] ->
   forallb flat_record (data_list st) = true ->
   (forall envelope, result st = Some envelope -> flat_classes envelope) ->
   exists table,
     finish st df_hscode =
     Some (Completed table (processed_count st) (skipped_count st) (error_count st))).
Proof.
  intros st.
  pose proof (fetch_loop_invariant fetch codes init_state init_state_invariant) as Hinv.
  fold st in Hinv.
  assert (forall l, data_list st = l -> l = [] ->
                    finish st df_hscode = Some (Stopped NoData)) as Hempty.
  { intros l Hl ->. unfold finish. by rewrite Hl. }
  split; [by eauto|]. split; [|split].
  - intros Hnone. apply (Hempty _ eq_refl).
    unfold st. by rewrite fetch_loop_no_success.
  - intros outcome Hfinish.
    destruct outcome as [reason|e|table p k e].
    + left. apply finish_stop_reason in Hfinish as [-> ?]. done.
    + right; right. by apply finish_uncaught in Hfinish as [-> ?].
    + right; left. exists table. revert Hfinish. unfold finish.
      destruct (data_list st) as [|row rest]; [done|].
      destruct (pd_DataFrame _) as [[?|?]|]; [done| |done].
      destruct (resolve _ _ _) as [[?|?]|]; [done| |done].
      by intros [= <- <- <- <-].
  - by apply finish_total.
Qed.

Lemma C3_no_data_is_the_only_stop_witness :
  @finish plain_pandas (fetch_loop sample_fetch ["resume"; "x"] init_state) sample_hscode =
  Some (Stopped NoData) /\
  exists table,
    @finish plain_pandas (fetch_loop sample_fetch ["010121010"; "resume"] init_state)
      sample_hscode = Some (Completed table 1 0 1).
Proof.
  split.
  - exact (proj1 (@C3_no_data_is_the_only_stop plain_pandas sample_fetch ["resume"; "x"]
                    sample_hscode) eq_refl).
  - apply (proj2 (proj2 (proj2 (@C3_no_data_is_the_only_stop plain_pandas sample_fetch
                                  ["010121010"; "resume"] sample_hscode)))).
    + by vm_compute.
    + reflexivity.
    + intros envelope [= <-] objs obj v [= <-] Hobj Hv.
      repeat (apply elem_of_cons in Hobj as [->|Hobj];
              [by injection Hv as <-|]).
      by apply elem_of_nil in Hobj.
Defined.

(** C3 as stated fails: the no-data stop is not the only way a run ends
    without a table after the loop.  On a response whose value list
    holds a record and a text, the loop succeeds (one code processed)
    and the frame constructor of line 167 raises outside every
    handler. *)
Lemma C3_counterexample :
  processed_count (fetch_loop mixed_fetch ["010121010"] init_state) = 1 /\
  data_list (fetch_loop mixed_fetch ["010121010"] init_state) = [sample_row; JStr "x"] /\
  contract_shaped mixed_rows_success = true /\
  @run plain_pandas sample_hscode mixed_fetch = Some (Uncaught AttributeError).
Proof. by vm_compute. Qed.

(** ** The shaping block *)

Lemma has_column_assign (c c' : string) (f : gmap string cell -> cell) (df : DataFrame) :
  has_column c (assign c' f df) = has_column c df || String.eqb c c'.
Proof.
  unfold has_column at 1, assign. cbn [columns].
  destruct (has_column c' df) eqn:Hc'.
  - fold (has_column c df).
    destruct (String.eqb_spec c c') as [->|_]; [by rewrite Hc'|by rewrite orb_false_r].
  - rewrite existsb_app. simpl. by rewrite orb_false_r.
Qed.

Lemma has_column_drop (c : string) (cols : list string) (df : DataFrame) :
  has_column c (drop_columns cols df) =
  has_column c df && negb (existsb (String.eqb c) cols).
Proof.
  unfold has_column, drop_columns. cbn [columns].
  induction (columns df) as [|a l IH]; [done|]. simpl.
  destruct (existsb (String.eqb a) cols) eqn:Ha; simpl; rewrite IH.
  - destruct (String.eqb_spec c a) as [->|_]; [|done].
    rewrite Ha. simpl. by rewrite andb_false_r.
  - destruct (String.eqb_spec c a) as [->|_]; [|done]. by rewrite Ha.
Qed.

Lemma has_column_select (c : string) (cols : list string) (df df' : DataFrame) :
  select cols df = inr df' -> has_column c df' = existsb (String.eqb c) cols.
Proof.
  unfold select. destruct (forallb _ cols); [|done]. by intros [= <-].
Qed.

Lemma no_new_refl (df : DataFrame) : no_new df df.
Proof. by split. Qed.

Lemma no_new_trans (a b c : DataFrame) : no_new a b -> no_new b c -> no_new a c.
Proof. intros [Hn1 Hc1] [Hn2 Hc2]. split; [congruence|auto]. Qed.

Lemma stable_seq (m k : cmd DataFrame unit) :
  stable m -> stable k -> stable (m ;;; k)%cmd.
Proof.
  intros Hm Hk df. unfold cbind. specialize (Hm df).
  destruct (m df) as [[e|[]] df']; [done|].
  eapply no_new_trans; [exact Hm|apply Hk].
Qed.

Lemma stable_drop (cols : list string) : stable (update (drop_columns cols)).
Proof.
  intros df. split; simpl.
  - unfold nrows. simpl. by rewrite length_map.
  - intros c. rewrite has_column_drop. by intros [? _]%andb_true_iff.
Qed.

Lemma stable_when_assign (c : string) (f : gmap string cell -> cell) :
  stable (when_column c (update (assign c f))).
Proof.
  intros df. unfold when_column, cbind, get. simpl.
  destruct (has_column c df) eqn:Hc; [|apply no_new_refl]. simpl.
  split; [apply assign_nrows|].
  intros c'. rewrite has_column_assign.
  intros [?|Heq%String.eqb_eq]%orb_true_iff; [done|by subst].
Qed.

Lemma stable_when_assign_res (c : string) (f : gmap string cell -> res cell) :
  stable (when_column c (rebind (assign_res c f))).
Proof.
  intros df. unfold when_column, cbind, get, rebind. simpl.
  destruct (has_column c df) eqn:Hc; [|apply no_new_refl].
  destruct (assign_res c f df) as [e|df'] eqn:Hassign; [apply no_new_refl|]. simpl.
  split; [by apply (assign_res_nrows c f)|].
  unfold assign_res in Hassign. destruct (res_map f (rows df)); [done|].
  simpl in Hassign. injection Hassign as <-.
  unfold has_column at 1. cbn [columns]. by rewrite Hc.
Qed.

Lemma stable_select_existing (cols : list string) :
  stable (df <- get ;;
          rebind (select (List.filter (fun c => has_column c df) cols)))%cmd.
Proof.
  intros df. unfold cbind, get, rebind. simpl.
  destruct (select _ df) as [e|df'] eqn:Hsel; [apply no_new_refl|]. simpl.
  split.
  - unfold select in Hsel. destruct (forallb _ _); [|done].
    injection Hsel as <-. unfold nrows. simpl. by rewrite length_map.
  - intros c. rewrite (has_column_select c _ _ _ Hsel).
    rewrite existsb_exists. intros (c' & Hin & ->%String.eqb_eq).
    by apply filter_In in Hin as [_ ?].
Qed.

Lemma finishing_stable `{Pandas} : stable finishing_block.
Proof.
  unfold finishing_block, astype_str_column.
  repeat (apply stable_seq;
          [first [apply stable_drop | apply stable_when_assign
                 | apply stable_when_assign_res]|]).
  apply stable_select_existing.
Qed.

Lemma year_month_block_ok `{Pandas} (df : DataFrame) :
  fst (year_month_block df) = ok tt.
Proof.
  cbv [year_month_block cbind get rebind update ok cret].
  destruct (has_column "年" df && has_column "月数値" df) eqn:Hcols; [|done].
  unfold dropna at 1. cbn [forallb]. rewrite andb_true_r, Hcols.
  cbv [ok]. set (df1 := assign "年月" _ _).
  unfold dropna. cbn [forallb]. rewrite andb_true_r.
  unfold df1. rewrite has_column_assign, String.eqb_refl, orb_true_r. done.
Qed.

(** The block of lines 251-273 either stops at line 260, with the frame
    as it is there, or runs to its end and leaves no [区分名] column. *)
Lemma category_block_cases `{Pandas} (df : DataFrame) :
  has_column "区分名" df = true ->
  match assign_res "月数値" month_number (named_stage df) with
  | inl e => category_block df = (inl e, named_stage df)
  | inr _ => exists df', category_block df = (ok tt, df') /\
                         has_column "区分名" df' = false
  end.
Proof.
  intros Hcol. cbv [category_block cbind rebind update ok].
  unfold dropna. cbn [forallb]. rewrite !andb_true_r, !Hcol. cbv [ok].
  change (split_name_columns (drop_excluded (filter_rows (notna_all ["区分名"]) df)))
    with (named_stage df).
  destruct (assign_res "月数値" month_number (named_stage df)) as [e|df4] eqn:Hmonth.
  - done.
  - pose proof (year_month_block_ok df4) as Hym.
    destruct (year_month_block df4) as [[e|[]] df5]; [done|].
    eexists. split; [reflexivity|].
    rewrite has_column_drop. simpl. by rewrite andb_false_r.
Qed.

Lemma shaper_without_names `{Pandas} (df : DataFrame) :
  has_column "区分名" df = false -> no_new df (shaper df).
Proof.
  intros Hcol. cbv [shaper shaping when_column cbind get ok].
  rewrite Hcol. cbv [cret ok]. apply finishing_stable.
Qed.

Lemma shaper_raise `{Pandas} (df : DataFrame) (e : exn) :
  has_column "区分名" df = true ->
  assign_res "月数値" month_number (named_stage df) = inl e ->
  shaper df = named_stage df.
Proof.
  intros Hcol Hraise. pose proof (category_block_cases df Hcol) as Hcases.
  rewrite Hraise in Hcases.
  cbv [shaper shaping when_column cbind get ok]. by rewrite Hcol, Hcases.
Qed.

(** The shaped frame either has no [区分名] column, or is the frame of
    line 260, where the month number could not be computed. *)
Lemma shaper_cases `{Pandas} (df : DataFrame) :
  has_column "区分名" (shaper df) = false \/
  (has_column "区分名" df = true /\
   shaper df = named_stage df /\
   exists e, assign_res "月数値" month_number (named_stage df) = inl e).
Proof.
  destruct (has_column "区分名" df) eqn:Hcol.
  - pose proof (category_block_cases df Hcol) as Hcases.
    destruct (assign_res "月数値" month_number (named_stage df)) as [e|df4] eqn:Hmonth.
    + right. split; [done|]. split; [by apply (shaper_raise df e)|by exists e].
    + left. destruct Hcases as (df' & Hblock & Hgone).
      cbv [shaper shaping when_column cbind get ok]. rewrite Hcol, Hblock.
      pose proof (finishing_stable df') as [_ Hsub].
      destruct (has_column "区分名" (snd (finishing_block df'))) eqn:Hafter; [|done].
      apply Hsub in Hafter. congruence.
  - left. pose proof (shaper_without_names df Hcol) as [_ Hsub].
    destruct (has_column "区分名" (shaper df)) eqn:Hafter; [|done].
    apply Hsub in Hafter. congruence.
Qed.

Lemma res_map_map {A B C} (f : B -> res C) (g : A -> B) (l : list A) :
  res_map f (map g l) = res_map (fun x => f (g x)) l.
Proof. induction l as [|x l IH]; [done|]. simpl. by rewrite IH. Qed.

Lemma res_map_ext {A B} (f g : A -> res B) (l : list A) :
  (forall x, f x = g x) -> res_map f l = res_map g l.
Proof. intros Hfg. induction l as [|x l IH]; [done|]. simpl. by rewrite Hfg, IH. Qed.

Lemma name_cell_split `{Pandas} (r : gmap string cell) (m k : cell) :
  cell_at "区分名" (<["区分" := k]> (<["月" := m]> r)) = cell_at "区分名" r.
Proof. unfold cell_at. by rewrite !lookup_insert_ne. Qed.

Lemma month_cell_split (r : gmap string cell) (m k : cell) :
  cell_at "月" (<["区分" := k]> (<["月" := m]> r)) = m.
Proof. unfold cell_at. by rewrite lookup_insert_ne, lookup_insert_eq. Qed.

(** The month numbers of line 260 depend on the names alone. *)
Lemma month_numbers_of_names `{Pandas} (df : DataFrame) :
  res_map month_number (rows (split_name_columns df)) =
  res_map month_of_name (column "区分名" df).
Proof.
  unfold split_name_columns, assign, column. cbn [rows].
  rewrite !map_map, !res_map_map.
  destruct (rows df) as [|r0 l]; [done|].
  apply res_map_ext. intros r. unfold month_number.
  by rewrite month_cell_split.
Qed.

Lemma split_name_columns_names `{Pandas} (df : DataFrame) :
  column "区分名" (split_name_columns df) = column "区分名" df.
Proof.
  unfold split_name_columns, assign, column. cbn [rows].
  rewrite !map_map. apply map_ext. intros r. apply name_cell_split.
Qed.

Lemma filter_all {A} (p : A -> bool) (l : list A) :
  (forall x, In x l -> p x = true) -> List.filter p l = l.
Proof.
  induction l as [|x l IH]; intros Hall; [done|]. simpl.
  rewrite (Hall x (or_introl eq_refl)), IH; [done|].
  intros y Hy. apply Hall. by right.
Qed.

(** On the frame of line 260 the two filters of lines 251-253 remove
    nothing more. *)
Lemma named_stage_filtered `{Pandas} (df : DataFrame) :
  drop_excluded (filter_rows (notna_all ["区分名"]) (named_stage df)) = named_stage df.
Proof.
  set (p1 := notna_all ["区分名"]).
  set (p2 := fun r => negb (isin exclude_values (cell_at "区分名" r))).
  assert (forall r m k, p1 (<["区分" := k]> (<["月" := m]> r)) = p1 r) as Hp1.
  { intros r m k. unfold p1, notna_all. cbn [forallb]. by rewrite name_cell_split. }
  assert (forall r m k, p2 (<["区分" := k]> (<["月" := m]> r)) = p2 r) as Hp2.
  { intros r m k. unfold p2. by rewrite name_cell_split. }
  unfold drop_excluded, filter_rows. fold p2.
  destruct (named_stage df) as [cols rws] eqn:Hstage. cbn [columns rows].
  f_equal.
  assert (forall r, In r rws -> p1 r = true /\ p2 r = true) as Hkept.
  { assert (rws = rows (named_stage df)) as -> by by rewrite Hstage.
    unfold named_stage, split_name_columns, assign, drop_excluded, filter_rows.
    cbn [rows]. fold p1 p2. rewrite map_map.
    intros r (r0 & <- & Hin)%in_map_iff. rewrite Hp1, Hp2.
    apply filter_In in Hin as [Hin ?]. by apply filter_In in Hin as [_ ?]. }
  rewrite (filter_all p1); [|by intros r [? _]%Hkept].
  apply filter_all. by intros r [_ ?]%Hkept.
Qed.

(** C8: shaping a shaped frame again removes no row. *)
Theorem C8_shaper_fixed_point `{Pandas} (df : DataFrame) :
  nrows (shaper (shaper df)) = nrows (shaper df).
Proof.
  destruct (shaper_cases df) as [Hgone|(Hcol & -> & e & Hraise)].
  - apply (shaper_without_names (shaper df) Hgone).
  - assert (has_column "区分名" (named_stage df) = true) as Hcol'.
    { unfold named_stage, split_name_columns. rewrite !has_column_assign.
      unfold drop_excluded, filter_rows, has_column at 1. cbn [columns].
      fold (has_column "区分名" df). by rewrite Hcol. }
    assert (exists e', assign_res "月数値" month_number
                         (named_stage (named_stage df)) = inl e') as [e' Hagain].
    { unfold assign_res in *. unfold named_stage at 1.
      rewrite named_stage_filtered.
      rewrite month_numbers_of_names. unfold named_stage at 1.
      rewrite split_name_columns_names, <- month_numbers_of_names.
      fold (named_stage df).
      destruct (res_map month_number (rows (named_stage df))); [by eexists|done]. }
    rewrite (shaper_raise (named_stage df) e' Hcol' Hagain).
    unfold named_stage at 1. rewrite named_stage_filtered.
    unfold split_name_columns. by rewrite !assign_nrows.
Qed.

(** C9, evaluated on a run whose shaping raises at line 260 (a month
    number beyond 64 bits): the handler goes on with [df_complete] as
    lines 251-257 left it, one row short of the frame that entered the
    block and with the columns [月] and [区分] added, not with the frame
    as it was before shaping began. *)
Theorem C9_shape_failure_keeps_partial_table :
  fst (@shaping plain_pandas overflow_merged) = inl OverflowError /\
  nrows overflow_merged = 2 /\
  nrows (@shaper plain_pandas overflow_merged) = 1 /\
  has_column "月" overflow_merged = false /\
  has_column "月" (@shaper plain_pandas overflow_merged) = true /\
  @run plain_pandas sample_hscode overflow_fetch =
  Some (Completed (@shaper plain_pandas overflow_merged) 1 0 1).
Proof. vm_compute. by repeat split. Qed.

(** ** A run without metadata *)

Lemma frame_of_records_nrows (recs : list json) (raw : DataFrame) :
  frame_of_records recs = Some raw -> nrows raw = length recs.
Proof.
  unfold frame_of_records.
  destruct (mapM record recs) as [rs|] eqn:Hrs; [|done].
  intros [= <-]. unfold nrows. cbn [rows]. rewrite length_map.
  symmetry. by apply (length_mapM record).
Qed.

Lemma rename_columns_nrows (mapping : list (string * string)) (df : DataFrame) :
  nrows (rename_columns mapping df) = nrows df.
Proof. unfold nrows, rename_columns. cbn [rows]. by rewrite length_map. Qed.

Lemma lookup_map {A B} (f : A -> B) (l : list A) (i : nat) :
  map f l !! i = f <$> l !! i.
Proof. revert i. induction l as [|x l IH]; intros [|i]; simpl; auto. Qed.

Lemma dict_get_keys (k : string) (fields : list (string * json)) :
  k ∈ map fst fields <-> dict_get k fields <> None.
Proof.
  induction fields as [|[k' v] fields IH]; simpl.
  - split; [by intros ?%elem_of_nil|done].
  - rewrite elem_of_cons, IH.
    destruct (String.eqb_spec k' k) as [->|Hne]; [naive_solver|].
    split; [|by right]. intros [->|?]; done.
Qed.

Lemma record_row_lookup (fields : list (string * json)) (r : gmap string cell)
    (k : string) :
  record_row fields = Some r ->
  cell_at k r = record_cell k fields.
Proof.
  unfold cell_at, record_cell. revert r.
  induction fields as [|[k' v] fields IH]; intros r; simpl.
  - by intros [= <-].
  - destruct (scalar_cell v) as [c|] eqn:Hc; [|done].
    destruct (record_row fields) as [r'|]; [|done].
    intros [= <-]. destruct (String.eqb_spec k' k) as [->|Hne].
    + by rewrite lookup_insert_eq, Hc.
    + rewrite lookup_insert_ne by done. by apply IH.
Qed.

(** ** The cells of the finished table *)

Lemma cellwise_weaken (P Q : string -> cell -> cell -> Prop) (m : cmd DataFrame unit) :
  (forall c v v', P c v v' -> Q c v v') -> cellwise P m -> cellwise Q m.
Proof.
  intros HPQ Hm df i r Hr. destruct (Hm df i r Hr) as (r' & Hr' & Hcells).
  exists r'. split; [done|]. intros c Hc. by apply HPQ, Hcells.
Qed.

(** A statement that cannot raise, followed by another. *)
Lemma cellwise_seq (P Q : string -> cell -> cell -> Prop) (m k : cmd DataFrame unit) :
  (forall df, fst (m df) = ok tt) ->
  cellwise P m -> cellwise Q k -> stable k ->
  cellwise (then_cell P Q) (m ;;; k)%cmd.
Proof.
  intros Hok Hm Hk Hstable df i r Hr. unfold cbind.
  specialize (Hok df). specialize (Hm df i r Hr).
  destruct (m df) as [[e|[]] df']; [done|]. cbn [snd] in Hm.
  destruct Hm as (r1 & Hr1 & Hcells1).
  destruct (Hk df' i r1 Hr1) as (r2 & Hr2 & Hcells2).
  exists r2. split; [done|]. intros c Hc.
  exists (cell_at c r1). split; [|by apply Hcells2].
  apply Hcells1. by apply (Hstable df').
Qed.

(** A statement that may raise, followed by one that leaves the cells as
    they are. *)
Lemma cellwise_seq_same (P : string -> cell -> cell -> Prop) (m k : cmd DataFrame unit) :
  cellwise P m -> cellwise same_cell k -> stable k ->
  cellwise P (m ;;; k)%cmd.
Proof.
  intros Hm Hk Hstable df i r Hr. unfold cbind.
  specialize (Hm df i r Hr).
  destruct (m df) as [[e|[]] df']; [done|]. cbn [snd] in Hm.
  destruct Hm as (r1 & Hr1 & Hcells1).
  destruct (Hk df' i r1 Hr1) as (r2 & Hr2 & Hcells2).
  exists r2. split; [done|]. intros c Hc.
  rewrite (Hcells2 c Hc). apply Hcells1. by apply (Hstable df').
Qed.

Lemma lookup_foldr_delete_other (cols : list string) (r : gmap string cell) (c : string) :
  existsb (String.eqb c) cols = false -> foldr delete r cols !! c = r !! c.
Proof.
  induction cols as [|a cols IH]; [done|]. cbn [existsb foldr].
  intros [Ha Hrest]%orb_false_iff. apply String.eqb_neq in Ha.
  rewrite lookup_delete_ne by done. by apply IH.
Qed.

Lemma cellwise_drop (cols : list string) :
  cellwise same_cell (update (drop_columns cols)).
Proof.
  intros df i r Hr. cbn [update snd]. unfold drop_columns at 1. cbn [rows].
  rewrite lookup_map, Hr. eexists. split; [done|].
  intros c. rewrite has_column_drop. intros [_ Hc%negb_true_iff]%andb_true_iff.
  unfold same_cell, cell_at. by rewrite lookup_foldr_delete_other.
Qed.

Lemma cellwise_when_assign (c0 : string) (g : cell -> cell) :
  cellwise (set_cell c0 g)
    (when_column c0 (update (assign c0 (fun r => g (cell_at c0 r))))).
Proof.
  intros df i r Hr. cbv [when_column cbind get update ok cret].
  destruct (has_column c0 df) eqn:Hc0; cbn [snd].
  - unfold assign at 1. cbn [rows]. rewrite lookup_map, Hr. eexists. split; [done|].
    intros c _. unfold set_cell, cell_at.
    destruct (String.eqb_spec c c0) as [->|Hne].
    + by rewrite lookup_insert_eq.
    + by rewrite lookup_insert_ne.
  - exists r. split; [done|]. intros c Hc. unfold set_cell.
    destruct (String.eqb_spec c c0) as [->|Hne]; [congruence|done].
Qed.

Lemma res_map_lookup {A B} (f : A -> res B) (l : list A) (vs : list B) (i : nat) (x : A) :
  res_map f l = inr vs -> l !! i = Some x ->
  exists v, vs !! i = Some v /\ f x = inr v.
Proof.
  revert vs i. induction l as [|a l IH]; intros vs i; [done|]. cbn [res_map].
  destruct (f a) as [e|y] eqn:Hy; [done|]. cbn [rbind].
  destruct (res_map f l) as [e|ys]; [done|]. cbn [rbind ok]. intros [= <-].
  destruct i as [|i]; [intros [= <-]; by exists y|]. apply (IH ys i eq_refl).
Qed.

Lemma cellwise_when_datetime `{Pandas} :
  cellwise (fun c v v' => if String.eqb c "年月" then v' = v \/ to_datetime v = Some v'
                          else v' = v)
    (when_column "年月" (rebind (assign_res "年月" (fun r => strict_datetime (cell_at "年月" r))))).
Proof.
  intros df i r Hr. cbv [when_column cbind get rebind ok cret].
  assert (forall c, (if String.eqb c "年月"
                     then cell_at c r = cell_at c r \/ to_datetime (cell_at c r) = Some (cell_at c r)
                     else cell_at c r = cell_at c r)) as Hsame.
  { intros c. destruct (String.eqb c "年月"); auto. }
  destruct (has_column "年月" df) eqn:Hc0;
    [|exists r; split; [done|]; intros c _; apply Hsame].
  destruct (assign_res _ _ df) as [e|df'] eqn:Hassign;
    [exists r; split; [done|]; intros c _; apply Hsame|]. cbn [snd].
  unfold assign_res in Hassign.
  destruct (res_map _ (rows df)) as [e|vals] eqn:Hvals; [done|].
  cbn [rbind ok] in Hassign. injection Hassign as <-. cbn [rows].
  destruct (res_map_lookup _ _ _ i r Hvals Hr) as (v & Hv & Hdate).
  rewrite lookup_zip_with, Hr, Hv. cbn. eexists. split; [done|].
  intros c _. unfold cell_at.
  destruct (String.eqb_spec c "年月") as [->|Hne].
  - rewrite lookup_insert_eq. right. fold (cell_at "年月" r).
    unfold strict_datetime in Hdate.
    destruct (to_datetime _) as [d|]; [|done]. by injection Hdate as ->.
  - by rewrite lookup_insert_ne.
Qed.

Lemma cellwise_select_existing (cols : list string) :
  cellwise same_cell
    (df <- get ;; rebind (select (List.filter (fun c => has_column c df) cols)))%cmd.
Proof.
  intros df i r Hr. cbv [cbind get rebind ok]. unfold select.
  destruct (forallb _ _); cbv [ok raise]; [|by exists r]. cbn [snd rows].
  rewrite lookup_map, Hr. eexists. split; [done|].
  intros c Hc.
  assert (existsb (String.eqb c) (List.filter (fun c => has_column c df) cols) = true)
    as Hin by exact Hc.
  unfold same_cell, cell_at at 1. by rewrite list_to_map_keyed, Hin.
Qed.

Lemma update_ok (f : DataFrame -> DataFrame) (df : DataFrame) :
  fst (update f df) = ok tt.
Proof. done. Qed.

Lemma when_assign_ok (c : string) (f : gmap string cell -> cell) (df : DataFrame) :
  fst (when_column c (update (assign c f)) df) = ok tt.
Proof. cbv [when_column cbind get update ok cret]. by destruct (has_column c df). Qed.

(** The finishing block keeps every row in its place and finishes its
    cells. *)
Lemma finishing_cells `{Pandas} : cellwise finished finishing_block.
Proof.
  unfold finishing_block, astype_str_column.
  eapply cellwise_weaken; cycle 1.
  - apply cellwise_seq; [apply update_ok|apply cellwise_drop| |].
    2:{ repeat (apply stable_seq;
                [first [apply stable_when_assign | apply stable_when_assign_res]|]).
        apply stable_select_existing. }
    apply cellwise_seq;
      [apply when_assign_ok|apply (cellwise_when_assign _ to_numeric)| |].
    2:{ repeat (apply stable_seq;
                [first [apply stable_when_assign | apply stable_when_assign_res]|]).
        apply stable_select_existing. }
    apply cellwise_seq;
      [apply when_assign_ok
      |apply (cellwise_when_assign _ (fun v => CStr (astype_str v)))| |].
    2:{ repeat (apply stable_seq;
                [first [apply stable_when_assign | apply stable_when_assign_res]|]).
        apply stable_select_existing. }
    apply cellwise_seq;
      [apply when_assign_ok
      |apply (cellwise_when_assign _ (fun v => CStr (astype_str v)))| |].
    2:{ repeat (apply stable_seq;
                [first [apply stable_when_assign | apply stable_when_assign_res]|]).
        apply stable_select_existing. }
    apply cellwise_seq;
      [apply when_assign_ok
      |apply (cellwise_when_assign _ (fun v => CStr (astype_str v)))| |].
    2:{ apply stable_seq; [apply stable_when_assign_res|apply stable_select_existing]. }
    apply cellwise_seq_same;
      [apply cellwise_when_datetime|apply cellwise_select_existing
      |apply stable_select_existing].
  - intros c v v' (v1 & -> & v2 & H2 & v3 & H3 & v4 & H4 & v5 & H5 & H6).
    unfold set_cell in *. unfold finished, finished_cell.
    destruct (String.eqb_spec c "年月") as [->|_];
      [cbn in H2, H3, H4, H5; by subst|].
    destruct (String.eqb_spec c "値（金額、数量）") as [->|_];
      [cbn in H3, H4, H5; by subst|].
    destruct (String.eqb_spec c "HSコード") as [->|_];
      [cbn in H4, H5; by subst|].
    destruct (String.eqb_spec c "国コード") as [->|_];
      [cbn in H5; by subst|].
    destruct (String.eqb_spec c "税関コード") as [->|_]; by subst.
Qed.

Lemma frame_of_records_row (recs : list json) (df : DataFrame) (i : nat) (j : json) :
  frame_of_records recs = Some df ->
  recs !! i = Some j ->
  exists fields r,
    j = JObj fields /\ rows df !! i = Some r /\
    forall k, cell_at k r = record_cell k fields.
Proof.
  unfold frame_of_records.
  destruct (mapM record recs) as [rs|] eqn:Hrs; [|done].
  intros [= <-] Hi. cbn [rows]. apply mapM_Some in Hrs.
  destruct (Forall2_lookup_l _ _ _ _ _ Hrs Hi) as ([keys r] & Hr & Hbuilt).
  unfold record in Hbuilt. destruct j as [| | | | |fields]; try done.
  destruct (record_row fields) as [r'|] eqn:Hrow; [|done]. simplify_eq.
  exists fields, r. split; [done|]. split; [by rewrite lookup_map, Hr|].
  intros k. by apply record_row_lookup.
Qed.

Lemma renamed_lookup (new : string -> string) (g : string -> cell) (cols : list string)
    (c : string) :
  c ∈ cols ->
  (forall c', c' ∈ cols -> new c' = new c -> c' = c) ->
  (list_to_map (map (fun c => (new c, g c)) cols) : gmap string cell) !! new c = Some (g c).
Proof.
  induction cols as [|a cols IH]; [by intros ?%elem_of_nil|].
  intros Hc Hinj. cbn [map list_to_map foldr].
  destruct (decide (new a = new c)) as [Heq|Hne].
  - rewrite (Hinj a) by (done || by left). by rewrite lookup_insert_eq.
  - rewrite lookup_insert_ne by done. apply IH.
    + apply elem_of_cons in Hc as [->|Hc]; [done|done].
    + intros c' Hc'. apply Hinj. by right.
Qed.

Lemma rename_columns_row (df : DataFrame) (i : nat) (r : gmap string cell) :
  rows df !! i = Some r ->
  exists r', rows (rename_columns rename_values df) !! i = Some r' /\
    forall c, c ∈ columns df ->
      (forall c', c' ∈ columns df -> long_name c' = long_name c -> c' = c) ->
      cell_at (long_name c) r' = cell_at c r.
Proof.
  intros Hr. unfold rename_columns. cbn [rows]. rewrite lookup_map, Hr.
  eexists. split; [done|]. intros c Hc Hinj. unfold cell_at at 1.
  by rewrite (renamed_lookup long_name (fun c => cell_at c r)).
Qed.

Lemma shaper_finishing `{Pandas} (df : DataFrame) :
  has_column "区分名" df = false -> shaper df = snd (finishing_block df).
Proof.
  intros Hcol. cbv [shaper shaping when_column cbind get ok]. by rewrite Hcol.
Qed.

(** C6, as the code behaves: when the retained envelope is absent or
    lacks its metadata section, the run does not raise and ends with a
    table that has every accumulated row, in its place, provided the
    rows carry no field named 区分名 themselves: under each column of
    the table, the cell of a row is the field of the accumulated record
    as lines 279-290 finish it (the value as a number, the codes as
    texts).  The table has no column that the accumulated rows do not
    carry themselves: the enrichment columns are absent, not present and
    empty. *)
Theorem C6_no_metadata_keeps_rows_adds_no_column `{Pandas} (st : loop_state)
    (df_hscode raw : DataFrame) :
  data_list st <> [] ->
  frame_of_records (data_list st) = Some raw ->
  (result st = None \/
   exists envelope, result st = Some envelope /\ metadata_missing envelope = inr true) ->
  has_column "区分名" (rename_columns rename_values raw) = false ->
  exists table,
    finish st df_hscode =
      Some (Completed table (processed_count st) (skipped_count st) (error_count st)) /\
    nrows table = length (data_list st) /\
    (forall c, has_column c table = true ->
               has_column c (rename_columns rename_values raw) = true) /\
    (forall i j, data_list st !! i = Some j ->
       exists fields row,
         j = JObj fields /\ rows table !! i = Some row /\
         forall k, k ∈ columns raw ->
           (forall k', k' ∈ columns raw -> long_name k' = long_name k -> k' = k) ->
           has_column (long_name k) table = true ->
           finished (long_name k) (record_cell k fields) (cell_at (long_name k) row)).
Proof.
  intros Hrows Hraw Hmeta Hname.
  exists (shaper (rename_columns rename_values raw)).
  pose proof (shaper_without_names _ Hname) as [Hn Hcols].
  split; [|split; [|split; [done|]]].
  - unfold finish, pd_DataFrame. rewrite (frame_of_records_no_raise _ _ Hraw).
    destruct (data_list st) as [|row rest]; [done|].
    rewrite Hraw. unfold resolve.
    by destruct Hmeta as [->|(envelope & -> & ->)].
  - by rewrite Hn, rename_columns_nrows, (frame_of_records_nrows _ _ Hraw).
  - intros i j Hi.
    destruct (frame_of_records_row _ _ i j Hraw Hi) as (fields & r & -> & Hr & Hcells).
    destruct (rename_columns_row raw i r Hr) as (r1 & Hr1 & Hrenamed).
    rewrite (shaper_finishing _ Hname).
    destruct (finishing_cells _ i r1 Hr1) as (row & Hrow & Hfinished).
    exists fields, row. split; [done|]. split; [done|].
    intros k Hk Hinj Hcol. rewrite <- (Hcells k), <- (Hrenamed k Hk Hinj).
    by apply Hfinished.
Qed.

Lemma C6_no_metadata_keeps_rows_adds_no_column_witness :
  let st := fetch_loop no_metadata_fetch ["010121010"] init_state in
  exists table,
    @finish plain_pandas st sample_hscode =
      Some (Completed table (processed_count st) (skipped_count st) (error_count st)) /\
    nrows table = length (data_list st) /\
    (forall c, has_column c table = true ->
               has_column c (rename_columns rename_values sample_raw) = true) /\
    (forall i j, data_list st !! i = Some j ->
       exists fields row,
         j = JObj fields /\ rows table !! i = Some row /\
         forall k, k ∈ columns sample_raw ->
           (forall k', k' ∈ columns sample_raw -> long_name k' = long_name k -> k' = k) ->
           has_column (long_name k) table = true ->
           @finished plain_pandas (long_name k) (record_cell k fields)
             (cell_at (long_name k) row)).
Proof.
  intros st.
  apply (@C6_no_metadata_keeps_rows_adds_no_column plain_pandas st sample_hscode
           sample_raw).
  - by vm_compute.
  - by vm_compute.
  - right. exists sample_no_metadata. by vm_compute.
  - by vm_compute.
Defined.

Lemma C6_counterexample :
  match @run plain_pandas sample_hscode no_metadata_fetch with
  | Some (Completed table 1 0 1) =>
      nrows table = 1 /\
      columns table = ["HSコード"; "国コード"; "税関コード"; "値（金額、数量）"; "単位"] /\
      has_column "国名" table = false /\
      has_column "税関" table = false /\
      has_column "区分名" table = false /\
      has_column "区分" table = false
  | _ => False
  end /\
  match @run plain_pandas sample_hscode named_fetch with
  | Some (Completed table 2 0 0) =>
      length (data_list (fetch_loop named_fetch ["010121010"; "resume"] init_state)) = 2 /\
      nrows table = 0
  | _ => False
  end.
Proof. vm_compute. by repeat split. Qed.

(** ** The country table of the resolver *)

Lemma frame_of_records_columns (recs : list json) (df : DataFrame) (k : string) :
  frame_of_records recs = Some df ->
  k ∈ columns df ->
  exists fields, JObj fields ∈ recs /\ dict_get k fields <> None.
Proof.
  unfold frame_of_records.
  destruct (mapM record recs) as [rs|] eqn:Hrs; [|done].
  intros [= <-]. cbn [columns]. apply mapM_Some in Hrs.
  destruct (uniq_by_text_spec [] (concat (map fst rs))) as [_ Hin].
  rewrite Hin. intros [Hk _].
  apply list_elem_of_In, in_concat in Hk as (keys & Hkeys & Hk).
  apply in_map_iff in Hkeys as ([keys' r] & <- & Hr).
  apply list_elem_of_In, list_elem_of_lookup in Hr as [i Hi].
  destruct (Forall2_lookup_r _ _ _ _ _ Hrs Hi) as (rec & Hrec & Hbuilt).
  unfold record in Hbuilt. destruct rec as [| | | | |fields]; try done.
  destruct (record_row fields); [|done]. simplify_eq.
  exists fields. split; [by eapply list_elem_of_lookup_2|].
  by apply dict_get_keys, list_elem_of_In.
Qed.

Lemma select_row (cols : list string) (df df' : DataFrame) (i : nat)
    (r : gmap string cell) :
  select cols df = inr df' -> rows df !! i = Some r ->
  exists r', rows df' !! i = Some r' /\
             forall c, c ∈ cols -> cell_at c r' = cell_at c r.
Proof.
  unfold select. destruct (forallb _ cols); [|done]. intros [= <-] Hr.
  cbn [rows]. rewrite lookup_map, Hr. eexists. split; [done|].
  intros c Hc%existsb_eqb_elem. unfold cell_at at 1.
  by rewrite list_to_map_keyed, Hc.
Qed.

(** The table that line 214 leaves is the table of lines 208-212 with
    its names cut. *)
Lemma country_table_names `{Pandas} (result : json) (objs : list json)
    (tables : lookup_tables) :
  class_objs_of result = ok objs ->
  read_lookup_tables result = Some (inr tables) ->
  exists source,
    country_source objs = Some (ok source) /\
    nrows (df_country_shrink tables) = nrows source /\
    column "国コード" (df_country_shrink tables) = column "国コード" source /\
    column "国名" (df_country_shrink tables) = map country_name (column "国名" source).
Proof.
  unfold read_lookup_tables, class_objs_of, country_source. intros ->.
  unfold ok at 1. cbv beta iota.
  destruct (lookup_table objs "cat02" _ _ _) as [[e|cat02]|]; [done| |done].
  destruct (lookup_table objs "cat03" _ _ _) as [[e|zeikan]|]; [done| |done].
  unfold lookup_table.
  destruct (find_class "area" objs) as [e|[obj|]]; [done| |].
  - destruct (py_in "CLASS" obj) as [e|[|]]; [done| |].
    + destruct (py_getitem obj "CLASS") as [e|v]; [done|].
      destruct (DataFrame_of v) as [[e|df]|]; [done| |done]. cbn [rbind].
      destruct (select _ _) as [e|shrink]; [done|]. cbn [rbind ok].
      intros [= <-]. cbn [df_country_shrink]. exists shrink.
      split; [done|]. split; [apply assign_nrows|].
      unfold column, assign. cbn [rows]. rewrite !map_map.
      split; apply map_ext; intros r; unfold cell_at at 1.
      * by rewrite lookup_insert_ne.
      * by rewrite lookup_insert_eq.
    + intros [= <-]. by exists (empty_frame ["国コード"; "国名"]).
  - intros [= <-]. by exists (empty_frame ["国コード"; "国名"]).
Qed.

(** The name of a country in the table of the resolver is the name of
    its record in the response, cut after the first underscore. *)
Lemma country_table_row `{Pandas} (result : json) (objs recs : list json) (obj : json)
    (tables : lookup_tables) (i : nat) (fields : list (string * json)) :
  class_objs_of result = ok objs ->
  read_lookup_tables result = Some (inr tables) ->
  find_class "area" objs = ok (Some obj) ->
  py_getitem obj "CLASS" = ok (JArr recs) ->
  (forall fields', JObj fields' ∈ recs -> dict_get "国名" fields' = None) ->
  recs !! i = Some (JObj fields) ->
  exists row,
    rows (df_country_shrink tables) !! i = Some row /\
    cell_at "国名" row = country_name (record_cell "@name" fields).
Proof.
  unfold read_lookup_tables, class_objs_of. intros -> Htables Hobj Hclass Hfree Hi.
  revert Htables. unfold ok at 1. cbv beta iota.
  destruct (lookup_table objs "cat02" _ _ _) as [[e|cat02]|]; [done| |done].
  destruct (lookup_table objs "cat03" _ _ _) as [[e|zeikan]|]; [done| |done].
  unfold lookup_table. rewrite Hobj. unfold ok at 1. cbv beta iota.
  assert (py_in "CLASS" obj = ok true) as ->.
  { destruct obj as [| | | | |members]; try done. cbn in Hclass |- *.
    by destruct (dict_get "CLASS" members). }
  unfold ok at 1. cbv beta iota. rewrite Hclass. unfold ok at 1. cbv beta iota.
  destruct recs as [|rec recs]; [done|]. cbn [DataFrame_of].
  unfold pd_DataFrame. destruct (constructor_raises _); [done|].
  destruct (frame_of_records (rec :: recs)) as [raw|] eqn:Hraw; [|done]. cbn [rbind ok].
  destruct (select _ _) as [e|shrink] eqn:Hshrink; [done|]. cbn [rbind ok].
  intros [= <-]. cbn [df_country_shrink].
  destruct (frame_of_records_row _ _ i _ Hraw Hi) as (fields0 & r & [= <-] & Hr & Hcells).
  set (names := [("@code", "国コード"); ("@name", "国名")]) in *.
  assert (forall c, c ∈ columns raw -> country_label c = "国名" -> c = "@name") as Hinj.
  { intros c Hc. unfold country_label. cbn [assoc].
    destruct (String.eqb_spec "@code" c) as [<-|_]; [done|].
    destruct (String.eqb_spec "@name" c) as [<-|_]; [done|]. cbn [default]. intros ->.
    destruct (frame_of_records_columns _ _ _ Hraw Hc) as (fields' & Hrec & Hkey).
    by rewrite (Hfree fields' Hrec) in Hkey. }
  assert ("@name" ∈ columns raw) as Hname.
  { pose proof (has_column_select "国名" _ _ _ Hshrink) as Hcol.
    unfold select in Hshrink.
    destruct (forallb _ _) eqn:Hall; [|done]. cbn [forallb] in Hall.
    apply andb_true_iff in Hall as [_ [Hhas _]%andb_true_iff].
    unfold has_column, rename_columns in Hhas. cbn [columns] in Hhas.
    apply existsb_eqb_elem, list_elem_of_In, in_map_iff in Hhas as (c & Hc & Hin).
    apply list_elem_of_In in Hin. by rewrite <- (Hinj c Hin Hc). }
  assert (exists r1, rows (rename_columns names raw) !! i = Some r1 /\
                     cell_at "国名" r1 = cell_at "@name" r) as (r1 & Hr1 & Hcell1).
  { unfold rename_columns. cbn [rows]. rewrite lookup_map, Hr. eexists. split; [done|].
    unfold cell_at at 1.
    pose proof (renamed_lookup country_label (fun c => cell_at c r) (columns raw)
                  "@name" Hname Hinj) as Hlook.
    change (country_label "@name") with "国名" in Hlook.
    unfold country_label in Hlook. fold names in Hlook. cbv beta in Hlook.
    by rewrite Hlook. }
  destruct (select_row _ _ _ i r1 Hshrink Hr1) as (r2 & Hr2 & Hcell2).
  unfold assign. cbn [rows]. rewrite lookup_map, Hr2. eexists. split; [done|].
  unfold cell_at at 1. rewrite lookup_insert_eq. cbn [default].
  rewrite Hcell2, Hcell1, Hcells; [done|]. by right; left.
Qed.

(** C7: the resolver replaces every name of the country table by the
    text that follows its first underscore.  The table that
    [read_lookup_tables] builds is the table of lines 208-212 with every
    name cut by line 214, and the name in row [i] is the name of the
    [i]-th record of the response cut in this way; a name made of a code
    segment without underscore, an underscore and a remainder becomes
    the remainder, and in general the new name is what is left after
    stripping everything up to and including the first underscore (a
    name without underscore has no such remainder and becomes NaN). *)
Theorem C7_country_display_name `{Pandas} :
  (forall pre post : string,
     has_underscore pre = false ->
     country_name (CStr (pre ++ "_" ++ post)) = CStr post) /\
  (forall c : cell,
     country_name c =
     match after_first_underscore (astype_str c) with
     | Some name => CStr name
     | None => CNull NaN
     end) /\
  (forall df : DataFrame,
     column "国名" (assign "国名" (fun r => country_name (cell_at "国名" r)) df) =
     map country_name (column "国名" df)) /\
  (forall (result : json) (objs : list json) (tables : lookup_tables),
     class_objs_of result = ok objs ->
     read_lookup_tables result = Some (inr tables) ->
     exists source,
       country_source objs = Some (ok source) /\
       nrows (df_country_shrink tables) = nrows source /\
       column "国コード" (df_country_shrink tables) = column "国コード" source /\
       column "国名" (df_country_shrink tables) = map country_name (column "国名" source)) /\
  (forall (result : json) (objs recs : list json) (obj : json) (tables : lookup_tables)
          (i : nat) (fields : list (string * json)),
     class_objs_of result = ok objs ->
     read_lookup_tables result = Some (inr tables) ->
     find_class "area" objs = ok (Some obj) ->
     py_getitem obj "CLASS" = ok (JArr recs) ->
     (forall fields', JObj fields' ∈ recs -> dict_get "国名" fields' = None) ->
     recs !! i = Some (JObj fields) ->
     exists row,
       rows (df_country_shrink tables) !! i = Some row /\
       cell_at "国名" row = country_name (record_cell "@name" fields)).
Proof.
  split; [|split; [|split; [|split]]].
  - intros pre post Hpre. unfold country_name, split_list. simpl.
    by rewrite (split_once_prefixed pre post Hpre).
  - apply country_name_after.
  - intros df. unfold column, assign. simpl. rewrite !map_map.
    apply map_ext. intros r. unfold cell_at at 1. by rewrite lookup_insert_eq.
  - apply country_table_names.
  - apply country_table_row.
Qed.

Lemma C7_country_display_name_witness :
  @country_name plain_pandas (CStr "103_大韓民国") = CStr "大韓民国" /\
  exists row,
    rows (df_country_shrink sample_tables) !! 0%nat = Some row /\
    cell_at "国名" row =
    @country_name plain_pandas
      (record_cell "@name"
         [("@code", JStr "50103"); ("@name", JStr "103_大韓民国"); ("@level", JStr "1")]).
Proof.
  split.
  - exact (proj1 (@C7_country_display_name plain_pandas) "103" "大韓民国" eq_refl).
  - refine (proj2 (proj2 (proj2 (proj2 (@C7_country_display_name plain_pandas))))
              sample_success _ [class_entry "50103" "103_大韓民国"] _ sample_tables 0%nat _
              eq_refl _ eq_refl eq_refl _ eq_refl).
    + by vm_compute.
    + intros fields' Hin. apply list_elem_of_singleton in Hin.
      injection Hin as ->. reflexivity.
Defined.

(** * Further properties *)


(** ** Passes of the loop do not depend on what was accumulated *)

Lemma try_body_uniform (r : response) :
  (exists e, forall s, try_body r s = (inl e, s)) \/
  (forall s, try_body r s = (ok tt, incr_skipped s)) \/
  (forall s, try_body r s = (ok tt, incr_error s)) \/
  (exists j rows, r = Body j /\
                  forall s, try_body r s = (ok tt, aggregate (Success rows j) s)).
Proof.
  unfold try_body, cbind, eval, update.
  destruct r as [| |j]; simpl; [by left; eexists .. |].
  repeat (case_scrutinee; simpl); simplify_eq; eauto 10.
  do 3 right. eexists _, _. split; [done|]. intros s.
  by rewrite append_rows_run.
Qed.

Lemma iteration_uniform (r : response) :
  (forall s, iteration r s = incr_skipped s) \/
  (forall s, iteration r s = incr_error s) \/
  (exists j rows, r = Body j /\ forall s, iteration r s = aggregate (Success rows j) s).
Proof.
  unfold iteration.
  destruct (try_body_uniform r) as [[e He]|[He|[He|(j & rows & -> & He)]]].
  - right; left. intros s. rewrite He. by destruct e.
  - left. intros s. by rewrite He.
  - right; left. intros s. by rewrite He.
  - right; right. exists j, rows. split; [done|]. intros s. by rewrite He.
Qed.

(** The three kinds of pass, with the counter each one increments. *)
Lemma pass_effect (r : response) :
  (bumped r = Skipped /\ forall s, iteration r s = incr_skipped s) \/
  (bumped r = Errored /\ forall s, iteration r s = incr_error s) \/
  (bumped r = Processed /\
   exists j rows, r = Body j /\ forall s, iteration r s = aggregate (Success rows j) s).
Proof.
  unfold bumped.
  destruct (iteration_uniform r) as [He|[He|(j & rows & -> & He)]].
  - left. by rewrite He.
  - right; left. by rewrite He.
  - right; right. rewrite He. split; [done|]. by exists j, rows.
Qed.

Lemma codes_with_snoc (c : counter) (fetch : string -> response)
    (codes : list string) (code : string) :
  codes_with c fetch (codes ++ [code]) =
  (codes_with c fetch codes ++
   (if counter_eqb (bumped (fetch code)) c then [code] else []))%list.
Proof. unfold codes_with. rewrite List.filter_app. simpl. by destruct (counter_eqb _ _). Qed.

Lemma fetch_loop_snoc (fetch : string -> response) (codes : list string)
    (code : string) (s : loop_state) :
  fetch_loop fetch (codes ++ [code]) s =
  iteration (fetch code) (fetch_loop fetch codes s).
Proof. unfold fetch_loop. by rewrite fold_left_app. Qed.

(** X1: the list accumulated by the loop is what it was before, followed
    by the rows of each call in the order of the codes; a call whose
    outcome is a Success contributes its value rows, any other outcome
    contributes nothing. *)
Theorem X1_rows_accumulate_in_order :
  (forall (fetch : string -> response) (codes : list string) (s : loop_state),
     data_list (fetch_loop fetch codes s) =
     (data_list s ++ concat (map (fun code => rows_appended (fetch code)) codes))%list) /\
  (forall (r : response) (o : Outcome),
     decode r = Some o ->
     rows_appended r = match o with Success rows _ => rows | _ => [] end).
Proof.
  split.
  - intros fetch codes s. induction codes as [|code codes IH] using rev_ind.
    + simpl. by rewrite app_nil_r.
    + rewrite fetch_loop_snoc, map_app, concat_app. simpl.
      rewrite app_nil_r, app_assoc, <- IH. unfold rows_appended.
      destruct (pass_effect (fetch code)) as [[_ He]|[[_ He]|(_ & j & rows & _ & He)]];
        rewrite !He; simpl; by rewrite ?app_nil_r.
  - intros r o Hdec. unfold rows_appended.
    by rewrite (decode_rows r o init_state Hdec).
Qed.

Lemma X1_rows_accumulate_in_order_witness :
  rows_appended (Body sample_success) = [sample_row].
Proof.
  exact (proj2 X1_rows_accumulate_in_order (Body sample_success)
           (Success [sample_row] sample_success) eq_refl).
Defined.

(** X2: after the loop the retained envelope is the body of the last
    code, in the order of the codes, whose call was processed; when no
    call was processed it is what it was before the loop. *)
Theorem X2_last_processed_envelope_is_retained (fetch : string -> response)
    (codes : list string) (s : loop_state) :
  result (fetch_loop fetch codes s) =
  match last (codes_with Processed fetch codes) with
  | Some code => body_of (fetch code)
  | None => result s
  end.
Proof.
  induction codes as [|code codes IH] using rev_ind; [done|].
  rewrite fetch_loop_snoc, codes_with_snoc.
  destruct (pass_effect (fetch code)) as [[Hb He]|[[Hb He]|(Hb & j & rows & Hr & He)]];
    rewrite He, Hb; simpl.
  - by rewrite app_nil_r.
  - by rewrite app_nil_r.
  - rewrite last_snoc, Hr. done.
Qed.

(** X3: each counter grows in the loop by the number of codes whose call
    increments it. *)
Theorem X3_each_counter_counts_its_codes (fetch : string -> response)
    (codes : list string) (s : loop_state) :
  processed_count (fetch_loop fetch codes s) =
    processed_count s + length (codes_with Processed fetch codes) /\
  skipped_count (fetch_loop fetch codes s) =
    skipped_count s + length (codes_with Skipped fetch codes) /\
  error_count (fetch_loop fetch codes s) =
    error_count s + length (codes_with Errored fetch codes).
Proof.
  induction codes as [|code codes IH] using rev_ind.
  - simpl. lia.
  - rewrite fetch_loop_snoc, !codes_with_snoc, !length_app.
    destruct IH as (IHp & IHk & IHe).
    destruct (pass_effect (fetch code)) as [[Hb He]|[[Hb He]|(Hb & j & rows & _ & He)]];
      rewrite He, Hb; simpl; lia.
Qed.

(** ** The run and the service *)

Lemma fetch_loop_ext (fetch fetch' : string -> response) (codes : list string)
    (s : loop_state) :
  (forall code, code ∈ codes -> fetch code = fetch' code) ->
  fetch_loop fetch codes s = fetch_loop fetch' codes s.
Proof.
  unfold fetch_loop. revert s.
  induction codes as [|code codes IH]; intros s Hsame; [done|]. simpl.
  rewrite (Hsame code) by left. apply IH. intros code' Hin. apply Hsame. by right.
Qed.

(** X4: a run consults the service for the codes of the reader and for
    nothing else: two services that answer those codes alike give the
    same run, and a run without a valid code does not depend on the
    service at all. *)
Theorem X4_run_asks_only_the_valid_codes `{Pandas} (df_hscode : DataFrame)
    (fetch fetch' : string -> response) :
  (forall codes code,
     hs_codes_of (column "HSコード" df_hscode) = ok codes ->
     code ∈ codes -> fetch code = fetch' code) ->
  run df_hscode fetch = run df_hscode fetch'.
Proof.
  intros Hsame. unfold run.
  destruct (negb (has_column "HSコード" df_hscode)); [done|].
  destruct (hs_codes_of (column "HSコード" df_hscode)) as [e|codes] eqn:Hcodes; [done|].
  destruct codes as [|code codes]; [done|].
  rewrite (fetch_loop_ext fetch fetch' (code :: codes) init_state); [done|].
  intros code' Hin. by apply (Hsame (code :: codes)).
Qed.

Lemma X4_run_asks_only_the_valid_codes_witness :
  @run plain_pandas sample_hscode sample_fetch =
  @run plain_pandas sample_hscode
    (fun code => if String.eqb code "unused" then NotJson else sample_fetch code).
Proof.
  apply (@X4_run_asks_only_the_valid_codes plain_pandas).
  intros codes code [= <-] Hin.
  apply elem_of_cons in Hin as [->|Hin]; [done|].
  apply elem_of_cons in Hin as [->|Hin]; [done|].
  by apply elem_of_nil in Hin.
Defined.

Lemma rows_need_a_processed_code (fetch : string -> response) (codes : list string) :
  data_list (fetch_loop fetch codes init_state) <> [] ->
  1 <= processed_count (fetch_loop fetch codes init_state).
Proof.
  induction codes as [|code codes IH] using rev_ind; [done|].
  rewrite fetch_loop_snoc.
  destruct (pass_effect (fetch code)) as [[_ He]|[[_ He]|(_ & j & rows & _ & He)]];
    rewrite He; simpl; [done|done|lia].
Qed.

Lemma finish_completed `{Pandas} (st : loop_state) (df_hscode table : DataFrame)
    (p k e : nat) :
  finish st df_hscode = Some (Completed table p k e) ->
  p = processed_count st /\ k = skipped_count st /\ e = error_count st /\
  data_list st <> [].
Proof.
  unfold finish. destruct (data_list st) as [|row rest]; [done|].
  destruct (pd_DataFrame _) as [[?|?]|]; [done| |done].
  destruct (resolve _ _ _) as [[?|?]|]; [done| |done].
  by intros [= _ <- <- <-].
Qed.

(** X5: the summary of a completed run: the three counters add up to
    the number of codes of the reader, and at least one code was
    processed. *)
Theorem X5_completed_run_summary `{Pandas} (df_hscode table : DataFrame)
    (fetch : string -> response) (p k e : nat) :
  run df_hscode fetch = Some (Completed table p k e) ->
  exists codes,
    hs_codes_of (column "HSコード" df_hscode) = ok codes /\
    p + k + e = length codes /\
    1 <= p.
Proof.
  unfold run.
  destruct (negb (has_column "HSコード" df_hscode)); [done|].
  destruct (hs_codes_of (column "HSコード" df_hscode)) as [err|codes]; [done|].
  destruct codes as [|code codes]; [done|].
  intros (-> & -> & -> & Hrows)%finish_completed.
  exists (code :: codes). split; [done|]. split.
  - pose proof (fetch_loop_sum fetch (code :: codes) init_state) as Hsum.
    unfold counters_sum in Hsum. simpl in Hsum. simpl. lia.
  - by apply rows_need_a_processed_code.
Qed.

Lemma X5_completed_run_summary_witness :
  exists codes,
    hs_codes_of (column "HSコード" sample_hscode) = ok codes /\
    1 + 0 + 1 = length codes /\
    1 <= 1.
Proof.
  apply (@X5_completed_run_summary plain_pandas sample_hscode scenario_table sample_fetch).
  by vm_compute.
Defined.

(** ** The frame of the accumulated rows *)

(** X6: the frame built from the accumulated records has one row for
    each record, in order; its columns are the keys that occur in some
    record, each once; and the cell of a row under a column is the value
    the record has for that key, NaN when the record lacks the key. *)
Theorem X6_frame_of_records_cells (recs : list json) (df : DataFrame) :
  frame_of_records recs = Some df ->
  nrows df = length recs /\
  NoDup (columns df) /\
  (forall k, has_column k df = true <->
             exists fields, JObj fields ∈ recs /\ dict_get k fields <> None) /\
  (forall i fields, recs !! i = Some (JObj fields) ->
     exists r, rows df !! i = Some r /\
               forall k, cell_at k r = record_cell k fields).
Proof.
  intros Hdf. split; [by apply frame_of_records_nrows|].
  unfold frame_of_records in Hdf.
  destruct (mapM record recs) as [rs|] eqn:Hrs; [|done].
  injection Hdf as <-. cbn [columns rows].
  apply mapM_Some in Hrs.
  destruct (uniq_by_text_spec [] (concat (map fst rs))) as [Hnd Hin].
  split; [done|]. split.
  - intros k. unfold has_column. cbn [columns].
    rewrite existsb_eqb_elem, Hin. split.
    + intros [Hk _]. apply list_elem_of_In, in_concat in Hk as (keys & Hkeys & Hk).
      apply in_map_iff in Hkeys as ([keys' r] & <- & Hr).
      apply list_elem_of_In, list_elem_of_lookup in Hr as [i Hi].
      destruct (Forall2_lookup_r _ _ _ _ _ Hrs Hi) as (rec & Hrec & Hbuilt).
      unfold record in Hbuilt. destruct rec as [| | | | |fields]; try done.
      destruct (record_row fields); [|done]. simplify_eq.
      exists fields. split; [by eapply list_elem_of_lookup_2|].
      by apply dict_get_keys, list_elem_of_In.
    + intros (fields & Hrec & Hk). split; [|by intros ?%elem_of_nil].
      apply list_elem_of_lookup in Hrec as [i Hi].
      destruct (Forall2_lookup_l _ _ _ _ _ Hrs Hi) as ([keys r] & Hr & Hbuilt).
      unfold record in Hbuilt. destruct (record_row fields); [|done].
      simplify_eq.
      apply list_elem_of_In, in_concat. exists (map fst fields).
      split; [|by apply list_elem_of_In, dict_get_keys].
      apply in_map_iff. eexists (_, _). split; [reflexivity|].
      by eapply list_elem_of_In, list_elem_of_lookup_2.
  - intros i fields Hi.
    destruct (Forall2_lookup_l _ _ _ _ _ Hrs Hi) as ([keys r] & Hr & Hbuilt).
    exists r. split; [by rewrite lookup_map, Hr|].
    intros k. unfold record in Hbuilt.
    destruct (record_row fields) as [r'|] eqn:Hrow; [|done].
    simplify_eq. by apply record_row_lookup.
Qed.

Lemma X6_frame_of_records_cells_witness :
  nrows sample_raw = length [sample_row] /\
  NoDup (columns sample_raw) /\
  (forall k, has_column k sample_raw = true <->
             exists fields, JObj fields ∈ [sample_row] /\ dict_get k fields <> None) /\
  (forall i fields, [sample_row] !! i = Some (JObj fields) ->
     exists r, rows sample_raw !! i = Some r /\
               forall k, cell_at k r = record_cell k fields).
Proof. apply (X6_frame_of_records_cells [sample_row] sample_raw). by vm_compute. Defined.

Lemma keyed_list_keys {A} (f : string -> string) (g : string -> A) (cols : list string) :
  (map (fun c => (f c, g c)) cols).*1 = map f cols.
Proof.
  induction cols as [|c cols IH]; [done|].
  cbn [map]. rewrite fmap_cons. cbn [fst]. by rewrite IH.
Qed.

Lemma keyed_list_lookup (f : string -> string) (g : string -> cell)
    (cols : list string) (c : string) :
  NoDup (map f cols) -> c ∈ cols ->
  (list_to_map (map (fun c => (f c, g c)) cols) : gmap string cell) !! f c = Some (g c).
Proof.
  intros Hnd Hc. apply elem_of_list_to_map_1; [by rewrite keyed_list_keys|].
  apply list_elem_of_In, in_map_iff. exists c. by rewrite <- list_elem_of_In.
Qed.

(** X7: renaming the columns (line 168) gives the seven field codes of
    the service their long names and leaves every other label alone;
    when the new labels are distinct it keeps the rows and moves the
    cells of each column, unchanged and in order, under its new label. *)
Theorem X7_rename_keeps_cells (df : DataFrame) :
  NoDup (columns (rename_columns rename_values df)) ->
  map long_name ["@cat01"; "@cat02"; "@cat03"; "@area"; "@time"; "$"; "@unit"; "@tab"] =
    ["HSコード"; "区分コード"; "税関コード"; "国コード"; "年コード"; "値（金額、数量）"; "単位";
     "@tab"] /\
  columns (rename_columns rename_values df) = map long_name (columns df) /\
  nrows (rename_columns rename_values df) = nrows df /\
  (forall c, c ∈ columns df ->
     column (long_name c) (rename_columns rename_values df) = column c df).
Proof.
  intros Hnd. split; [reflexivity|]. split; [reflexivity|].
  split; [apply rename_columns_nrows|].
  intros c Hc. unfold column, rename_columns. cbn [rows]. rewrite map_map.
  apply map_ext. intros r. unfold cell_at at 1.
  pose proof (keyed_list_lookup long_name (fun c => cell_at c r) (columns df) c Hnd Hc)
    as Hcell.
  unfold long_name in *. cbv zeta. by rewrite Hcell.
Qed.

Lemma X7_rename_keeps_cells_witness :
  column "HSコード" (rename_columns rename_values sample_raw) = column "@cat01" sample_raw.
Proof.
  refine (proj2 (proj2 (proj2 (X7_rename_keeps_cells sample_raw _))) "@cat01" _).
  - refine (bool_decide_unpack _ _). by vm_compute.
  - refine (bool_decide_unpack _ _). by vm_compute.
Defined.

(** ** Left joins *)

Lemma no_dup_labels_NoDup (l : list string) : no_dup_labels l = true <-> NoDup l.
Proof.
  induction l as [|x l IH]; simpl; [by split; [constructor|]|].
  rewrite andb_true_iff, negb_true_iff, IH, NoDup_cons.
  assert (existsb (String.eqb x) l = false <-> x ∉ l) as ->; [|done].
  rewrite <- existsb_eqb_elem. by destruct (existsb _ l).
Qed.

(** What a successful left join is. *)
Lemma merge_left_inv `{Pandas} (left right merged : DataFrame) (key : string) :
  merge_left left right key = inr merged ->
  has_column key left = true /\ has_column key right = true /\
  NoDup (merged_columns left right key) /\
  columns merged = merged_columns left right key /\
  rows merged = flat_map (rows_for left right key) (rows left).
Proof.
  unfold merge_left.
  destruct (has_column key left && has_column key right) eqn:Hkeys; [|done].
  apply andb_true_iff in Hkeys as [? ?]. cbn [negb].
  destruct (keys_mergeable _ _); [|done]. cbn [negb].
  destruct (no_dup_labels _) eqn:Hnd; [|done]. cbn [negb].
  intros [= <-]. apply no_dup_labels_NoDup in Hnd. done.
Qed.

(** X8: a left join never loses a left row: each left row gives as many
    rows as there are right rows with its key, and one row when there is
    none, so the result has at least as many rows as the left frame. *)
Theorem X8_left_join_row_count `{Pandas} (left right merged : DataFrame) (key : string) :
  merge_left left right key = inr merged ->
  nrows merged =
    sum_list (map (fun l => Nat.max 1 (length (matches right key l))) (rows left)) /\
  nrows left <= nrows merged.
Proof.
  intros (_ & _ & _ & _ & Hrows)%merge_left_inv. unfold nrows. rewrite Hrows.
  generalize (rows left) as ls. clear Hrows.
  induction ls as [|l ls IH]; [done|]. destruct IH as [IH1 IH2].
  simpl. rewrite length_app.
  assert (length (rows_for left right key l) = Nat.max 1 (length (matches right key l)))
    as ->.
  { unfold rows_for. destruct (matches right key l) as [|r rs]; [done|].
    rewrite length_map. simpl. lia. }
  split; lia.
Qed.

Lemma X8_left_join_row_count_witness :
  nrows sample_join = 4 /\ nrows sample_df <= nrows sample_join.
Proof.
  apply (@X8_left_join_row_count plain_pandas sample_df sample_hscode sample_join "HSコード").
  by vm_compute.
Defined.

Lemma joined_row_cells (left right : DataFrame) (key : string)
    (l : gmap string cell) (r : option (gmap string cell)) :
  NoDup (merged_columns left right key) ->
  (forall c, c ∈ columns left ->
     cell_at (left_label left right key c) (joined_row left right key l r) = cell_at c l) /\
  (forall c, c ∈ added_columns right key ->
     cell_at (right_label left right key c) (joined_row left right key l r) =
     match r with Some r => cell_at c r | None => CNull NaN end).
Proof.
  intros Hnd. unfold merged_columns in Hnd.
  assert (NoDup ((map (fun c => (left_label left right key c, cell_at c l)) (columns left) ++
                  map (fun c => (right_label left right key c,
                                 match r with Some r => cell_at c r | None => CNull NaN end))
                      (added_columns right key))%list.*1)) as Hkeys.
  { by rewrite fmap_app, !keyed_list_keys. }
  split; intros c Hc; unfold cell_at at 1, joined_row.
  - erewrite elem_of_list_to_map_1; [done|done|].
    apply elem_of_app. left.
    apply list_elem_of_In, in_map_iff. exists c. by rewrite <- list_elem_of_In.
  - erewrite elem_of_list_to_map_1; [done|done|].
    apply elem_of_app. right.
    apply list_elem_of_In, in_map_iff. exists c. by rewrite <- list_elem_of_In.
Qed.

Lemma rows_for_single (left right : DataFrame) (key : string) (l : gmap string cell) :
  single_match right key ->
  rows_for left right key l = [joined_row left right key l (head (matches right key l))].
Proof.
  intros Hsingle. specialize (Hsingle (cell_at key l)).
  unfold rows_for, matches in *.
  destruct (List.filter _ (rows right)) as [|r1 [|r2 rs]]; simpl in *; [done..|lia].
Qed.

Lemma merge_left_single `{Pandas} (left right merged : DataFrame) (key : string) :
  single_match right key ->
  merge_left left right key = inr merged ->
  (forall c, c ∈ columns left ->
     column (left_label left right key c) merged = column c left) /\
  (forall c, c ∈ added_columns right key ->
     column (right_label left right key c) merged =
     map (fun l => match head (matches right key l) with
                   | Some r => cell_at c r
                   | None => CNull NaN
                   end) (rows left)).
Proof.
  intros Hsingle (_ & _ & Hnd & _ & Hrows)%merge_left_inv.
  assert (rows merged =
          map (fun l => joined_row left right key l (head (matches right key l)))
              (rows left)) as Hmap.
  { rewrite Hrows. generalize (rows left) as ls.
    induction ls as [|l ls IH]; [done|].
    simpl. by rewrite rows_for_single, IH. }
  split; intros c Hc; unfold column; rewrite Hmap, map_map; apply map_ext; intros l;
    by apply joined_row_cells.
Qed.

(** X9: a left join with a table of deduplicated keys keeps the left
    frame as it is: the key column keeps its label, every left column
    holds the same cells in the same order (under its label in the
    result), and each added column holds, row by row, the cell of the one
    right row with the key of the left row, or NaN when there is none. *)
Theorem X9_left_join_keeps_the_left_frame `{Pandas}
    (left right merged : DataFrame) (key : string) :
  single_match right key ->
  merge_left left right key = inr merged ->
  left_label left right key key = key /\
  (forall c, c ∈ columns left ->
     column (left_label left right key c) merged = column c left) /\
  (forall c, c ∈ added_columns right key ->
     column (right_label left right key c) merged =
     map (fun l => match head (matches right key l) with
                   | Some r => cell_at c r
                   | None => CNull NaN
                   end) (rows left)).
Proof.
  intros Hsingle Hmerge. split.
  - unfold left_label, shared_label. by rewrite String.eqb_refl.
  - by apply merge_left_single.
Qed.

Lemma X9_left_join_keeps_the_left_frame_witness :
  column "区分名" sample_categories = [CStr "01_輸出"; CStr "01_輸出"].
Proof.
  refine (proj2 (proj2 (@X9_left_join_keeps_the_left_frame plain_pandas sample_df
                          (df_cat02_shrink sample_tables) sample_categories "区分コード" _ _))
            "区分名" _).
  - apply (single_match_texts _ _ ["110"; "100"]); [by vm_compute|].
    refine (bool_decide_unpack _ _). by vm_compute.
  - by vm_compute.
  - refine (bool_decide_unpack _ _). by vm_compute.
Defined.

(** X10: the rows of a left join, whatever the right table: each is a
    left row joined to a right row with the same key, or to nothing when
    no right row has its key; it reads as the left row on the left
    columns and as the right row (or NaN) on the added ones. *)
Theorem X10_left_join_rows `{Pandas} (left right merged : DataFrame) (key : string)
    (row : gmap string cell) :
  merge_left left right key = inr merged ->
  row ∈ rows merged ->
  exists (l : gmap string cell) (r : option (gmap string cell)),
    l ∈ rows left /\
    match r with
    | Some r => r ∈ rows right /\ key_eq (cell_at key l) (cell_at key r) = true
    | None => forall r, r ∈ rows right -> key_eq (cell_at key l) (cell_at key r) = false
    end /\
    (forall c, c ∈ columns left ->
       cell_at (left_label left right key c) row = cell_at c l) /\
    (forall c, c ∈ added_columns right key ->
       cell_at (right_label left right key c) row =
       match r with Some r => cell_at c r | None => CNull NaN end).
Proof.
  intros (_ & _ & Hnd & _ & Hrows)%merge_left_inv Hrow.
  rewrite Hrows in Hrow.
  apply list_elem_of_In, in_flat_map in Hrow as (l & Hl & Hrow).
  apply list_elem_of_In in Hl.
  unfold rows_for in Hrow.
  destruct (matches right key l) as [|r0 rs] eqn:Hm.
  - destruct Hrow as [<-|[]]. exists l, None.
    split; [done|]. split; [|by apply joined_row_cells].
    intros r Hr. destruct (key_eq _ _) eqn:Hk; [|done].
    assert (In r (matches right key l)) as Hin.
    { apply filter_In. by rewrite <- list_elem_of_In. }
    by rewrite Hm in Hin.
  - apply in_map_iff in Hrow as (r & <- & Hr).
    rewrite <- Hm in Hr. apply filter_In in Hr as [Hr Hk].
    apply list_elem_of_In in Hr. exists l, (Some r).
    split; [done|]. split; [done|]. by apply joined_row_cells.
Qed.

Lemma X10_left_join_rows_witness :
  exists (l : gmap string cell) (r : option (gmap string cell)),
    l ∈ rows codes_only /\
    match r with
    | Some r => r ∈ rows sample_hscode /\
                key_eq (cell_at "HSコード" l) (cell_at "HSコード" r) = true
    | None => forall r, r ∈ rows sample_hscode ->
                        key_eq (cell_at "HSコード" l) (cell_at "HSコード" r) = false
    end /\
    (forall c, c ∈ columns codes_only ->
       cell_at (left_label codes_only sample_hscode "HSコード" c)
         (default ∅ (head (rows codes_join))) = cell_at c l) /\
    (forall c, c ∈ added_columns sample_hscode "HSコード" ->
       cell_at (right_label codes_only sample_hscode "HSコード" c)
         (default ∅ (head (rows codes_join))) =
       match r with Some r => cell_at c r | None => CNull NaN end).
Proof.
  apply (@X10_left_join_rows plain_pandas codes_only sample_hscode codes_join "HSコード").
  - by vm_compute.
  - apply list_elem_of_lookup_2 with 0. by vm_compute.
Defined.

(** ** The item labels *)

Lemma first_per_key_filter (c code : string) (l : list (gmap string cell))
    (seen : list cell) :
  Forall (fun r => exists s, cell_at c r = CStr s) l ->
  List.filter (fun r => key_eq (CStr code) (cell_at c r)) (first_per_key c seen l) =
  if existsb (key_eq (CStr code)) seen then []
  else match List.find (fun r => key_eq (CStr code) (cell_at c r)) l with
       | Some r => [r]
       | None => []
       end.
Proof.
  intros Htext. revert seen.
  induction Htext as [|r l [s Hs] _ IH]; intros seen.
  - simpl. by destruct (existsb _ seen).
  - cbn [first_per_key List.find]. rewrite Hs.
    destruct (existsb (key_eq (CStr s)) seen) eqn:Hseen.
    + rewrite IH. destruct (existsb (key_eq (CStr code)) seen) eqn:Hcode; [done|].
      cbn [key_eq]. destruct (String.eqb_spec code s) as [->|_]; [congruence|done].
    + cbn [List.filter]. rewrite Hs, IH. cbn [existsb key_eq].
      destruct (String.eqb_spec code s) as [->|_].
      * by rewrite Hseen.
      * simpl. by destruct (existsb (key_eq (CStr code)) seen).
Qed.

Lemma find_map {A B} (p : B -> bool) (g : A -> B) (l : list A) :
  List.find p (map g l) = g <$> List.find (fun x => p (g x)) l.
Proof.
  induction l as [|x l IH]; [done|]. simpl. by destruct (p (g x)).
Qed.

Lemma label_table_rows `{Pandas} (df_hscode t : DataFrame) (code : string) :
  label_table df_hscode = inr t ->
  columns t = ["HSコード"; "品目"] /\
  match first_with_code code df_hscode with
  | Some r =>
      exists row, rows_with_key "HSコード" code t = [row] /\
                  cell_at "HSコード" row = CStr code /\
                  cell_at "品目" row = CStr (astype_str (cell_at "品目" r))
  | None => rows_with_key "HSコード" code t = []
  end.
Proof.
  unfold label_table, select.
  destruct (forallb _ _) eqn:Hcols; [|done]. cbn [rbind ok].
  unfold drop_duplicates, frame_astype_str, has_column. cbn [columns rows].
  cbn [existsb]. rewrite String.eqb_refl. cbn [orb]. intros [= <-]. split; [done|].
  unfold rows_with_key, first_with_code. cbn [rows].
  match goal with
  | |- context [map ?f (map ?f0 (rows df_hscode))] => set (ast := f); set (sel := f0)
  end.
  rewrite map_map. set (g := fun r => ast (sel r)).
  assert (forall r, cell_at "HSコード" (g r) = CStr (astype_str (cell_at "HSコード" r)) /\
                    cell_at "品目" (g r) = CStr (astype_str (cell_at "品目" r))) as Hg.
  { intros r. unfold g, ast, sel, cell_at.
    repeat (rewrite lookup_insert_eq || rewrite lookup_insert_ne by done). done. }
  clearbody g.
  rewrite first_per_key_filter.
  2:{ apply Forall_forall. intros row (r & <- & _)%list_elem_of_In%in_map_iff.
      eexists. apply Hg. }
  cbn [existsb]. rewrite find_map.
  assert (forall p q (l : list (gmap string cell)),
            (forall x, p x = q x) -> List.find p l = List.find q l) as find_ext.
  { intros p q l Hpq. induction l as [|x l IH]; [done|]. simpl. by rewrite Hpq, IH. }
  rewrite (find_ext (fun x => key_eq (CStr code) (cell_at "HSコード" (g x)))
                    (fun r => String.eqb code (astype_str (cell_at "HSコード" r)))).
  2:{ intros r. by destruct (Hg r) as [-> _]. }
  destruct (List.find _ (rows df_hscode)) as [r|] eqn:Hfind; [|done].
  cbn [fmap option_fmap option_map]. exists (g r). split; [done|].
  destruct (Hg r) as [-> ->]. split; [|done].
  apply find_some in Hfind as [_ ->%String.eqb_eq]. done.
Qed.

(** X11: the label table of line 230 has the two columns [HSコード] and
    [品目]; for every text it holds at most one row with that code, and
    this row carries the label (as a text) of the first row of the
    uploaded table whose code prints as that text: of two rows with one
    code the first wins. *)
Theorem X11_label_table_first_wins `{Pandas} (df_hscode t : DataFrame) (code : string) :
  label_table df_hscode = inr t ->
  columns t = ["HSコード"; "品目"] /\
  match first_with_code code df_hscode with
  | Some r =>
      exists row, rows_with_key "HSコード" code t = [row] /\
                  cell_at "HSコード" row = CStr code /\
                  cell_at "品目" row = CStr (astype_str (cell_at "品目" r))
  | None => rows_with_key "HSコード" code t = []
  end.
Proof. apply label_table_rows. Qed.

Lemma X11_label_table_first_wins_witness :
  exists row, rows_with_key "HSコード" "010121010" sample_labels = [row] /\
              cell_at "HSコード" row = CStr "010121010" /\
              cell_at "品目" row = CStr "馬".
Proof.
  exact (proj2 (@X11_label_table_first_wins plain_pandas sample_hscode sample_labels
                  "010121010" eq_refl)).
Defined.

(** ** The lookup tables and the join step *)

Lemma lookup_table_columns (class_objs : list json) (id : string)
    (names : list (string * string)) (cols : list string)
    (finish : DataFrame -> DataFrame) (t : DataFrame) :
  (forall d, columns d = cols -> columns (finish d) = cols) ->
  lookup_table class_objs id names cols finish = Some (inr t) ->
  columns t = cols.
Proof.
  intros Hfinish. unfold lookup_table.
  destruct (find_class id class_objs) as [e|[obj|]]; [done| |by intros [= <-]].
  destruct (py_in "CLASS" obj) as [e|[|]]; [done| |by intros [= <-]].
  destruct (py_getitem obj "CLASS") as [e|v]; [done|].
  destruct (DataFrame_of v) as [[e|df]|]; [done| |done].
  cbn [rbind]. unfold select.
  destruct (forallb _ cols); [|done]. cbn [rbind ok].
  intros [= <-]. by apply Hfinish.
Qed.

Lemma read_lookup_tables_columns `{Pandas} (result : json) (tables : lookup_tables) :
  read_lookup_tables result = Some (inr tables) ->
  columns (df_cat02_shrink tables) = ["区分コード"; "区分名"; "親コード"] /\
  columns (df_zeikan_shrink tables) = ["税関コード"; "税関"] /\
  columns (df_country_shrink tables) = ["国コード"; "国名"].
Proof.
  unfold read_lookup_tables.
  destruct (_ : res (list json)) as [e|class_objs]; [done|].
  destruct (lookup_table class_objs "cat02" _ _ _) as [[e|cat02]|] eqn:Hcat; [done| |done].
  destruct (lookup_table class_objs "cat03" _ _ _) as [[e|zeikan]|] eqn:Hzei; [done| |done].
  destruct (lookup_table class_objs "area" _ _ _) as [[e|country]|] eqn:Harea;
    [done| |done].
  intros [= <-]. cbn [df_cat02_shrink df_zeikan_shrink df_country_shrink].
  split; [by apply lookup_table_columns in Hcat|].
  split; [by apply lookup_table_columns in Hzei|].
  apply lookup_table_columns in Harea; [done|].
  intros d Hd. unfold assign, has_column. cbn [columns]. by rewrite Hd.
Qed.

(** X12: whatever the response holds, the three lookup tables that are
    read from it have the fixed columns of lines 185-187, in that order;
    the table of a classification that is missing from the response, or
    has no [CLASS] entry, is the empty table with these columns. *)
Theorem X12_lookup_tables_have_fixed_columns `{Pandas} (result : json)
    (tables : lookup_tables) :
  read_lookup_tables result = Some (inr tables) ->
  columns (df_cat02_shrink tables) = ["区分コード"; "区分名"; "親コード"] /\
  columns (df_zeikan_shrink tables) = ["税関コード"; "税関"] /\
  columns (df_country_shrink tables) = ["国コード"; "国名"] /\
  (forall class_objs id names cols finish,
     find_class id class_objs = ok None \/
     (exists obj, find_class id class_objs = ok (Some obj) /\
                  py_in "CLASS" obj = ok false) ->
     lookup_table class_objs id names cols finish = Some (ok (empty_frame cols))).
Proof.
  intros (Hcat & Hzei & Harea)%read_lookup_tables_columns.
  repeat (split; [done|]).
  intros objs id names cols fin [Hnone|(obj & Hsome & Hin)]; unfold lookup_table.
  - by rewrite Hnone.
  - rewrite Hsome. unfold ok at 1. cbv beta iota. by rewrite Hin.
Qed.

Lemma X12_lookup_tables_have_fixed_columns_witness :
  columns (df_cat02_shrink no_category_tables) = ["区分コード"; "区分名"; "親コード"] /\
  rows (df_cat02_shrink no_category_tables) = [].
Proof.
  split; [|by vm_compute].
  refine (proj1 (@X12_lookup_tables_have_fixed_columns plain_pandas no_category_success
                   no_category_tables _)).
  by vm_compute.
Defined.

(** X13: the joins are kept or dropped together.  When the uploaded
    table has no [品目] column, or the frame of value rows has no
    [区分コード] column, the join step falls back to the frame it was
    given, so the resolver returns that frame whatever the response
    holds. *)
Theorem X13_joins_fall_back_together `{Pandas} (df df_hscode : DataFrame) :
  has_column "品目" df_hscode = false \/ has_column "区分コード" df = false ->
  (forall tables, join_step df tables df_hscode = df) /\
  (forall result df_complete,
     resolve df result df_hscode = Some (inr df_complete) -> df_complete = df).
Proof.
  intros Hmissing.
  assert (forall tables, join_step df tables df_hscode = df) as Hjoin.
  { intros tables. unfold join_step.
    destruct (merge_all df tables df_hscode) as [e|merged] eqn:Hmerge; [done|].
    exfalso. revert Hmerge. unfold merge_all.
    destruct Hmissing as [Hitem|Hkey].
    - destruct (merge_left df _ _) as [?|m1]; [done|]. cbn [rbind].
      destruct (merge_left m1 _ _) as [?|m2]; [done|]. cbn [rbind].
      destruct (merge_left m2 _ _) as [?|m3]; [done|]. cbn [rbind].
      destruct (require_column "年コード" m3); [done|]. cbn [rbind].
      destruct (assign_res "年" _ _) as [?|m3']; [done|]. cbn [rbind].
      destruct (require_column "HSコード" m3'); [done|]. cbn [rbind].
      unfold select. cbn [forallb]. by rewrite Hitem, andb_false_r.
    - destruct (merge_left df _ _) as [?|m1] eqn:Hfirst; [done|].
      unfold merge_left in Hfirst. by rewrite Hkey in Hfirst. }
  split; [done|].
  intros result df_complete. unfold resolve.
  destruct result as [envelope|]; [|by intros [= <-]].
  destruct (metadata_missing envelope) as [e|[|]]; [done|by intros [= <-]|].
  destruct (read_lookup_tables envelope) as [[e|tables]|]; [by intros [= <-]| |done].
  intros [= <-]. apply Hjoin.
Qed.

Lemma X13_joins_fall_back_together_witness :
  @join_step plain_pandas sample_df sample_tables codes_only = sample_df.
Proof.
  refine (proj1 (@X13_joins_fall_back_together plain_pandas sample_df codes_only _)
            sample_tables).
  left. by vm_compute.
Defined.

(** ** The rows of the shaped frame *)

Lemma shrinks_seq (m k : cmd DataFrame unit) :
  shrinks m -> shrinks k -> shrinks (m ;;; k)%cmd.
Proof.
  intros Hm Hk df. unfold cbind. specialize (Hm df).
  destruct (m df) as [[e|[]] df']; [done|].
  etrans; [apply Hk|done].
Qed.

Lemma stable_shrinks (m : cmd DataFrame unit) : stable m -> shrinks m.
Proof. intros Hm df. destruct (Hm df) as [-> _]. done. Qed.

Lemma filter_rows_nrows (keep : gmap string cell -> bool) (df : DataFrame) :
  nrows (filter_rows keep df) <= nrows df.
Proof. unfold nrows, filter_rows. cbn [rows]. apply filter_length_le. Qed.

Lemma shrinks_dropna (subset : list string) : shrinks (rebind (dropna subset)).
Proof.
  intros df. unfold rebind, dropna.
  destruct (forallb _ subset); [|done]. apply filter_rows_nrows.
Qed.

Lemma shrinks_update (f : DataFrame -> DataFrame) :
  (forall df, nrows (f df) <= nrows df) -> shrinks (update f).
Proof. intros Hf df. apply Hf. Qed.

Lemma drop_columns_nrows (cols : list string) (df : DataFrame) :
  nrows (drop_columns cols df) = nrows df.
Proof. unfold nrows, drop_columns. cbn [rows]. by rewrite length_map. Qed.

Lemma shrinks_get_if (test : DataFrame -> bool) (m k : cmd DataFrame unit) :
  shrinks m -> shrinks k ->
  shrinks (df <- get ;; if test df then m else k)%cmd.
Proof.
  intros Hm Hk df. cbv [cbind get ok].
  destruct (test df); [apply Hm|apply Hk].
Qed.

Lemma year_month_block_shrinks `{Pandas} : shrinks year_month_block.
Proof.
  unfold year_month_block.
  apply (shrinks_get_if (fun df => has_column "年" df && has_column "月数値" df));
    [|by intros df].
  repeat (apply shrinks_seq;
          [first [apply shrinks_dropna
                 | apply shrinks_update; intros df; by rewrite assign_nrows]|]).
  apply shrinks_update. intros df. by rewrite drop_columns_nrows.
Qed.

Lemma named_stage_nrows `{Pandas} (df : DataFrame) :
  nrows (named_stage df) = length (List.filter keeps_name (rows df)).
Proof.
  unfold named_stage, split_name_columns. rewrite !assign_nrows.
  unfold nrows, drop_excluded, filter_rows. cbn [rows].
  induction (rows df) as [|r l IH]; [done|]. cbn [List.filter].
  unfold keeps_name at 1, notna_all at 1. cbn [forallb]. rewrite andb_true_r.
  destruct (negb (isna (cell_at "区分名" r))); cbn [andb List.filter]; [|done].
  destruct (negb (isin exclude_values (cell_at "区分名" r))); cbn [length]; by rewrite IH.
Qed.

Lemma category_block_rows `{Pandas} (df : DataFrame) :
  has_column "区分名" df = true ->
  nrows (snd (category_block df)) <= nrows (named_stage df).
Proof.
  intros Hcol. cbv [category_block cbind rebind update ok].
  unfold dropna. cbn [forallb]. rewrite !andb_true_r, !Hcol. cbv [ok].
  change (split_name_columns (drop_excluded (filter_rows (notna_all ["区分名"]) df)))
    with (named_stage df).
  destruct (assign_res "月数値" month_number (named_stage df)) as [e|df4] eqn:Hmonth;
    [done|].
  apply assign_res_nrows in Hmonth.
  pose proof (year_month_block_shrinks df4) as Hym.
  destruct (year_month_block df4) as [[e|[]] df5]; cbn [snd] in *; [lia|].
  rewrite drop_columns_nrows. lia.
Qed.

Lemma shaper_rows_named `{Pandas} (df : DataFrame) :
  has_column "区分名" df = true ->
  nrows (shaper df) <= length (List.filter keeps_name (rows df)).
Proof.
  intros Hcol. rewrite <- named_stage_nrows.
  etrans; [|apply (category_block_rows df Hcol)].
  cbv [shaper shaping when_column cbind get ok]. rewrite Hcol.
  destruct (category_block df) as [[e|[]] df']; [done|].
  by destruct (finishing_stable df') as [-> _].
Qed.

(** X14: the shaping block (lines 241-307) never adds a row, whether it
    completes or its handler takes over; when the frame has a [区分名]
    column, what leaves the block has at most as many rows as the frame
    has rows whose [区分名] is neither missing nor one of the four
    denied names. *)
Theorem X14_shaping_only_removes_rows `{Pandas} (df : DataFrame) :
  nrows (shaper df) <= nrows df /\
  (has_column "区分名" df = true ->
   nrows (shaper df) <= length (List.filter keeps_name (rows df))).
Proof.
  split; [|apply shaper_rows_named].
  destruct (has_column "区分名" df) eqn:Hcol.
  - etrans; [by apply shaper_rows_named|]. apply filter_length_le.
  - by destruct (shaper_without_names df Hcol) as [-> _].
Qed.

Lemma X14_shaping_only_removes_rows_witness :
  nrows (@shaper plain_pandas overflow_merged) <=
  length (List.filter keeps_name (rows overflow_merged)).
Proof.
  refine (proj2 (@X14_shaping_only_removes_rows plain_pandas overflow_merged) _).
  by vm_compute.
Defined.

(** ** The columns of the shaped frame *)

Lemma has_column_columns (c : string) (df df' : DataFrame) :
  columns df' = columns df -> has_column c df' = has_column c df.
Proof. unfold has_column. by intros ->. Qed.

Lemma keeps_columns_when_assign (c : string) (f : gmap string cell -> cell) :
  keeps_columns (when_column c (update (assign c f))).
Proof.
  intros df. cbv [when_column cbind get update ok cret].
  destruct (has_column c df) eqn:Hc; [|done].
  cbn [snd]. unfold assign. cbn [columns]. by rewrite Hc.
Qed.

Lemma keeps_columns_when_assign_res (c : string) (f : gmap string cell -> res cell) :
  keeps_columns (when_column c (rebind (assign_res c f))).
Proof.
  intros df. cbv [when_column cbind get rebind ok cret].
  destruct (has_column c df) eqn:Hc; [|done].
  unfold assign_res. destruct (res_map f (rows df)); [done|].
  cbn [rbind ok snd columns]. by rewrite Hc.
Qed.

Lemma orders_columns_after (m k : cmd DataFrame unit) :
  keeps_columns m -> orders_columns k -> orders_columns (m ;;; k)%cmd.
Proof.
  intros Hm Hk df out. unfold cbind. specialize (Hm df).
  destruct (m df) as [[e|[]] df']; [done|]. cbn [snd] in Hm.
  intros Hout%Hk. rewrite Hout. apply filter_ext. intros c.
  by apply has_column_columns.
Qed.

Lemma orders_columns_select :
  orders_columns (df <- get ;;
                  rebind (select (List.filter (fun c => has_column c df) final_cols_order)))%cmd.
Proof.
  intros df out. cbv [cbind get rebind ok]. unfold select.
  destruct (forallb _ _); [|done]. by intros [= <-].
Qed.

Lemma finishing_block_columns `{Pandas} (df out : DataFrame) :
  finishing_block df = (ok tt, out) ->
  columns out =
  List.filter (fun c => has_column c (drop_columns ["年コード"] df)) final_cols_order.
Proof.
  unfold finishing_block, astype_str_column. unfold cbind at 1. cbv [update].
  revert out. generalize (drop_columns ["年コード"] df). clear df.
  change (orders_columns
    (when_column "値（金額、数量）"
       (update (assign "値（金額、数量）" (fun r => to_numeric (cell_at "値（金額、数量）" r)))) ;;;
     when_column "HSコード"
       (update (assign "HSコード" (fun r => CStr (astype_str (cell_at "HSコード" r))))) ;;;
     when_column "国コード"
       (update (assign "国コード" (fun r => CStr (astype_str (cell_at "国コード" r))))) ;;;
     when_column "税関コード"
       (update (assign "税関コード" (fun r => CStr (astype_str (cell_at "税関コード" r))))) ;;;
     when_column "年月"
       (rebind (assign_res "年月" (fun r => strict_datetime (cell_at "年月" r)))) ;;;
     df <- get ;;
     rebind (select (List.filter (fun c => has_column c df) final_cols_order)))%cmd).
  repeat (apply orders_columns_after;
          [first [apply keeps_columns_when_assign
                 | apply keeps_columns_when_assign_res]|]).
  apply orders_columns_select.
Qed.

Lemma has_column_assign_res (c c' : string) (f : gmap string cell -> res cell)
    (df df' : DataFrame) :
  assign_res c' f df = inr df' ->
  has_column c df' = has_column c df || String.eqb c c'.
Proof.
  unfold assign_res. destruct (res_map f (rows df)) as [e|vals]; [done|].
  cbn [rbind ok]. intros [= <-].
  apply (has_column_assign c c' (fun _ => CNull NaN) df).
Qed.

Lemma year_month_block_columns `{Pandas} (df : DataFrame) (c : string) :
  has_column c (snd (year_month_block df)) =
  if has_column "年" df && has_column "月数値" df
  then (has_column c df || String.eqb c "年月") && negb (String.eqb c "月数値")
  else has_column c df.
Proof.
  cbv [year_month_block cbind get rebind update ok cret].
  destruct (has_column "年" df && has_column "月数値" df) eqn:Hcols; [|done].
  unfold dropna at 1. cbn [forallb]. rewrite andb_true_r, Hcols.
  cbv [ok]. set (df1 := assign "年月" _ _).
  unfold dropna. cbn [forallb]. rewrite andb_true_r.
  assert (has_column "年月" df1 = true) as ->.
  { unfold df1. by rewrite has_column_assign, String.eqb_refl, orb_true_r. }
  cbv [ok]. cbn [snd]. rewrite has_column_drop.
  change (has_column c (filter_rows (notna_all ["年月"]) df1)) with (has_column c df1).
  unfold df1. rewrite has_column_assign.
  change (has_column c (filter_rows (notna_all ["年"; "月数値"]) df)) with (has_column c df).
  cbn [existsb]. by rewrite orb_false_r.
Qed.

Lemma category_block_columns `{Pandas} (df df' : DataFrame) (c : string) :
  has_column "区分名" df = true ->
  category_block df = (ok tt, df') ->
  has_column c df' =
  (if has_column "年" df
   then (has_column c df || String.eqb c "月" || String.eqb c "区分" ||
         String.eqb c "月数値" || String.eqb c "年月") && negb (String.eqb c "月数値")
   else has_column c df || String.eqb c "月" || String.eqb c "区分" ||
        String.eqb c "月数値") && negb (String.eqb c "区分名").
Proof.
  intros Hcol. cbv [category_block cbind rebind update ok].
  unfold dropna. cbn [forallb]. rewrite !andb_true_r, !Hcol. cbv [ok].
  change (split_name_columns (drop_excluded (filter_rows (notna_all ["区分名"]) df)))
    with (named_stage df).
  destruct (assign_res "月数値" month_number (named_stage df)) as [e|df4] eqn:Hmonth;
    [done|].
  pose proof (year_month_block_columns df4 c) as Hym.
  destruct (year_month_block df4) as [[e|[]] df5]; [done|]. cbn [snd] in Hym.
  intros [= <-]. rewrite has_column_drop, Hym. cbn [existsb]. rewrite orb_false_r.
  assert (forall c', has_column c' df4 =
                     has_column c' df || String.eqb c' "月" || String.eqb c' "区分" ||
                     String.eqb c' "月数値") as Hdf4.
  { intros c'. rewrite (has_column_assign_res c' _ _ _ _ Hmonth).
    unfold named_stage, split_name_columns. by rewrite !has_column_assign. }
  rewrite !Hdf4. rewrite String.eqb_refl, orb_true_r, andb_true_r.
  assert (("年" =? "月") = false) as -> by done.
  assert (("年" =? "区分") = false) as -> by done.
  assert (("年" =? "月数値") = false) as -> by done.
  by rewrite !orb_false_r.
Qed.

(** X15: when the shaping block completes, the columns of the shaped
    frame are the labels of the final order (line 293) that the frame
    has at that point, in that order: those that the entering frame
    had, [月] and [区分] when it had a [区分名] column, and [年月] when
    it had [区分名] and [年].  No other column leaves the block: not
    [区分名], [年コード], [月数値], [親コード] or the table number. *)
Theorem X15_shaped_columns `{Pandas} (df : DataFrame) :
  fst (shaping df) = ok tt ->
  columns (shaper df) = List.filter (shaped_column df) final_cols_order /\
  (forall c, has_column c (shaper df) = true -> c ∈ final_cols_order).
Proof.
  intros Hdone.
  assert (columns (shaper df) = List.filter (shaped_column df) final_cols_order) as Hcols.
  { revert Hdone. cbv [shaper shaping when_column cbind get ok].
    destruct (has_column "区分名" df) eqn:Hcol.
    - destruct (category_block df) as [[e|[]] df'] eqn:Hblock; [done|].
      destruct (finishing_block df') as [[e|[]] out] eqn:Hfinish; [done|].
      intros _. cbn [snd]. rewrite (finishing_block_columns df' out Hfinish).
      apply filter_ext_in. intros c Hc.
      rewrite has_column_drop, (category_block_columns df df' c Hcol Hblock).
      unfold shaped_column. rewrite Hcol. cbn [existsb andb]. rewrite orb_false_r.
      destruct (has_column "年" df); destruct (has_column c df);
        repeat (destruct Hc as [<-|Hc]; [by vm_compute|]); done.
    - cbv [cret ok]. destruct (finishing_block df) as [[e|[]] out] eqn:Hfinish; [done|].
      intros _. cbn [snd]. rewrite (finishing_block_columns df out Hfinish).
      apply filter_ext_in. intros c Hc.
      rewrite has_column_drop. unfold shaped_column. rewrite Hcol.
      cbn [existsb andb]. rewrite !orb_false_r.
      destruct (has_column c df);
        repeat (destruct Hc as [<-|Hc]; [by vm_compute|]); done. }
  split; [done|].
  intros c. unfold has_column. rewrite Hcols, existsb_exists.
  intros (c' & [Hin _]%filter_In & ->%String.eqb_eq). by apply list_elem_of_In.
Qed.

Lemma X15_shaped_columns_witness :
  columns (@shaper plain_pandas sample_merged) = final_cols_order.
Proof.
  refine (proj1 (@X15_shaped_columns plain_pandas sample_merged _)).
  by vm_compute.
Defined.

(** ** The month and the category of a name *)

Lemma split_once_join (s : string) :
  has_underscore (fst (split_once s)) = false /\
  s = match snd (split_once s) with
      | Some tail => fst (split_once s) ++ "_" ++ tail
      | None => fst (split_once s)
      end.
Proof.
  induction s as [|c s [IH1 IH2]]; [done|]. cbn [split_once].
  destruct (Ascii.eqb c underscore) eqn:Hc.
  - apply Ascii.eqb_eq in Hc as ->. done.
  - destruct (split_once s) as [head [tail|]]; cbn [fst snd has_underscore] in *;
      rewrite Hc; (split; [done|by rewrite IH2 at 1]).
Qed.

(** X16: lines 255-257 cut each name at its first underscore and lose
    nothing: in every row, [月] is a text without underscore; when [区分]
    is a text, the name is [月], an underscore and [区分]; when [区分] is
    missing, the name is [月] itself.  The [区分名] cell stays as it
    was. *)
Theorem X16_name_is_month_and_category `{Pandas} (df : DataFrame) (i : nat)
    (r : gmap string cell) :
  rows df !! i = Some r ->
  exists (r' : gmap string cell) (month : string),
    rows (split_name_columns df) !! i = Some r' /\
    cell_at "区分名" r' = cell_at "区分名" r /\
    cell_at "月" r' = CStr month /\
    has_underscore month = false /\
    match cell_at "区分" r' with
    | CStr category => astype_str (cell_at "区分名" r) = month ++ "_" ++ category
    | CNull _ => astype_str (cell_at "区分名" r) = month
    | _ => False
    end.
Proof.
  intros Hr. unfold split_name_columns, assign. cbn [rows].
  rewrite map_map, lookup_map, Hr. cbn [fmap option_fmap option_map].
  eexists _, (fst (name_parts r)). split; [done|].
  split; [apply name_cell_split|].
  assert (cell_at "月" (<["月" := CStr (fst (name_parts r))]> r) = CStr (fst (name_parts r)))
    as Hmonth by (unfold cell_at; by rewrite lookup_insert_eq).
  assert (forall k, name_parts (<["月" := k]> r) = name_parts r) as Hparts.
  { intros k. unfold name_parts, cell_at. by rewrite lookup_insert_ne. }
  destruct (rows df) as [|r0 l] eqn:Hrows; [done|].
  rewrite month_cell_split. split; [done|].
  pose proof (split_once_join (astype_str (cell_at "区分名" r))) as [Hnone Hjoin].
  fold (name_parts r) in Hnone, Hjoin. split; [done|].
  unfold cell_at at 1. rewrite lookup_insert_eq. cbn [default]. rewrite !Hparts.
  destruct (existsb _ _) eqn:Hany.
  - by destruct (snd (name_parts r)).
  - destruct (snd (name_parts r)) as [tail|] eqn:Htail; [|done].
    exfalso. apply not_true_iff_false in Hany. apply Hany.
    apply existsb_exists. exists r. split; [|by rewrite Htail].
    apply list_elem_of_In. by apply list_elem_of_lookup_2 with i.
Qed.

Lemma X16_name_is_month_and_category_witness :
  exists (r' : gmap string cell) (month : string),
    rows (@split_name_columns plain_pandas names_only) !! 0 = Some r' /\
    cell_at "区分名" r' = cell_at "区分名" ({[ "区分名" := CStr "01_輸出" ]} : gmap string cell) /\
    cell_at "月" r' = CStr month /\
    has_underscore month = false /\
    match cell_at "区分" r' with
    | CStr category =>
        @astype_str plain_pandas
          (cell_at "区分名" ({[ "区分名" := CStr "01_輸出" ]} : gmap string cell)) =
        month ++ "_" ++ category
    | CNull _ =>
        @astype_str plain_pandas
          (cell_at "区分名" ({[ "区分名" := CStr "01_輸出" ]} : gmap string cell)) = month
    | _ => False
    end.
Proof.
  apply (@X16_name_is_month_and_category plain_pandas names_only 0). reflexivity.
Defined.

Lemma append_nil_l (s : string) : "" ++ s = s.
Proof. reflexivity. Qed.

Lemma append_cons (c : ascii) (a s : string) : String c a ++ s = String c (a ++ s).
Proof. reflexivity. Qed.

Lemma chars_app_tail (tail s : string) (b : ascii) :
  all_continuation tail = true ->
  starts_with_continuation s = false ->
  chars (String b (tail ++ s)) = String b tail :: chars s.
Proof.
  revert b. induction tail as [|c tail IH]; intros b Htail Hs.
  - rewrite append_nil_l. cbn [chars]. by rewrite Hs.
  - cbn [all_continuation] in Htail. apply andb_true_iff in Htail as [Hc Htail].
    rewrite append_cons. cbn [chars]. cbn [starts_with_continuation]. rewrite Hc.
    cbn [chars] in IH. rewrite (IH c Htail Hs). done.
Qed.

Lemma join_starts (l : list string) :
  Forall (fun ch => well_formed ch = true) l ->
  starts_with_continuation (join l) = false.
Proof.
  intros [|ch rest Hch _]; [done|].
  destruct ch as [|b tail]; [done|]. cbn [join]. rewrite append_cons.
  cbn [starts_with_continuation].
  by apply andb_true_iff in Hch as [?%negb_true_iff _].
Qed.

Lemma chars_join (l : list string) :
  Forall (fun ch => well_formed ch = true) l -> chars (join l) = l.
Proof.
  intros Hl. induction Hl as [|ch rest Hch Hl IH]; [done|].
  destruct ch as [|b tail]; [done|]. cbn [join]. rewrite append_cons.
  apply andb_true_iff in Hch as [_ Htail].
  rewrite chars_app_tail, IH; [done|done|by apply join_starts].
Qed.

Lemma digit_of_code_range (n : N) (v : Z) :
  digit_of_code n = Some v -> (0 <= v <= 9)%Z.
Proof.
  unfold digit_of_code. destruct (List.find _ _) as [run|]; [|done].
  intros [= <-].
  assert ((n - fst run) mod 10 < 10)%N as Hlt by (by apply N.mod_lt).
  revert Hlt. generalize ((n - fst run) mod 10)%N. lia.
Qed.

Lemma digit_not_replacement : digit_of_code replacement = None.
Proof. reflexivity. Qed.

Lemma is_digit_well_formed (ch : string) : is_digit ch = true -> well_formed ch = true.
Proof.
  unfold is_digit, digit_of.
  destruct (digit_of_code (code_point ch)) eqn:Hd; [|done]. intros _.
  assert (code_point ch <> replacement) as Hne.
  { intros Heq. by rewrite Heq, digit_not_replacement in Hd. }
  clear Hd. revert Hne. unfold code_point, well_formed.
  assert (forall b, (byte b <? 128)%N = true \/ (194 <=? byte b)%N = true ->
                    negb (is_continuation b) = true) as Hlead.
  { intros b Hb. unfold is_continuation. apply negb_true_iff, andb_false_iff.
    destruct Hb as [Hb%N.ltb_lt|Hb%N.leb_le]; [left; apply N.leb_gt|right; apply N.ltb_ge];
      lia. }
  destruct ch as [|b0 [|b1 [|b2 [|b3 [|b4 tail]]]]]; try done.
  - destruct (byte b0 <? 128)%N eqn:H0; [|done]. intros _.
    rewrite Hlead by by left. done.
  - destruct (_ && _ && _) eqn:Hc; [|done]. intros _.
    apply andb_true_iff in Hc as [[H1 H2]%andb_true_iff H3].
    cbn [all_continuation]. rewrite H3, Hlead; [done|right; done].
  - cbv zeta. destruct (_ && _ && _ && _ && _) eqn:Hc; [|done]. intros _.
    apply andb_true_iff in Hc as [[[[H1 H2]%andb_true_iff H3]%andb_true_iff H4]%andb_true_iff _].
    cbn [all_continuation]. rewrite H3, H4, Hlead; [done|right].
    apply N.leb_le. apply N.leb_le in H1. lia.
  - cbv zeta. destruct (_ && _ && _ && _ && _ && _) eqn:Hc; [|done]. intros _.
    apply andb_true_iff in Hc as
      [[[[[H1 H2]%andb_true_iff H3]%andb_true_iff H4]%andb_true_iff H5]%andb_true_iff _].
    cbn [all_continuation]. rewrite H3, H4, H5, Hlead; [done|right].
    apply N.leb_le. apply N.leb_le in H1. lia.
Qed.

(** A digit is no white space, no sign and no underscore. *)
Lemma digit_is_plain (ch : string) :
  is_digit ch = true ->
  is_int_space ch = false /\ (code_point ch =? 45)%N = false /\
  (code_point ch =? 43)%N = false.
Proof.
  unfold is_digit, digit_of, is_int_space, is_space.
  generalize (code_point ch) as n. intros n Hd.
  assert (forall m, In m (45 :: 43 :: white_space)%N -> digit_of_code m = None) as Hnone.
  { apply List.Forall_forall. repeat constructor. }
  repeat split.
  - apply andb_false_iff. left.
    destruct (existsb _ white_space) eqn:Hsp; [|done].
    apply existsb_exists in Hsp as (m & Hm & ->%N.eqb_eq).
    rewrite Hnone in Hd; [done|]. by do 2 right.
  - apply N.eqb_neq. intros ->. by rewrite Hnone in Hd; [|left].
  - apply N.eqb_neq. intros ->. by rewrite Hnone in Hd; [|right; left].
Qed.

Lemma while_all {A} (p : A -> bool) (l : list A) : forallb p (while p l) = true.
Proof.
  induction l as [|x l IH]; [done|]. simpl.
  destruct (p x) eqn:Hx; [|done]. simpl. by rewrite Hx.
Qed.

Lemma skip_head {A} (p : A -> bool) (l : list A) (x : A) (rest : list A) :
  skip p l = x :: rest -> p x = false.
Proof.
  induction l as [|y l IH]; [done|]. simpl.
  destruct (p y) eqn:Hy; [done|]. by intros [= <- _].
Qed.

Lemma trim_kept {A} (p : A -> bool) (l : list A) (x : A) :
  p x = false -> last (x :: l) = None \/ (exists y, last (x :: l) = Some y /\ p y = false) ->
  trim p (x :: l) = x :: l.
Proof.
  intros Hx Hlast. unfold trim. cbn [skip]. rewrite Hx.
  destruct Hlast as [Hnone|(y & Hy & Hpy)].
  - by apply last_None in Hnone.
  - apply last_Some in Hy as (l' & Hl'). rewrite Hl', rev_app_distr. cbn [rev app skip].
    rewrite Hpy. cbn [rev]. by rewrite rev_involutive.
Qed.

(** The run of digits that [extract_digits] finds. *)
Lemma extract_digits_run (s d : string) :
  extract_digits s = Some d ->
  exists ch ds,
    d = join (ch :: ds) /\ chars d = ch :: ds /\
    forallb is_digit (ch :: ds) = true.
Proof.
  unfold extract_digits.
  destruct (skip _ (chars s)) as [|ch found] eqn:Hskip; [done|].
  intros [= <-]. apply skip_head in Hskip. apply negb_false_iff in Hskip.
  cbn [while]. rewrite Hskip.
  exists ch, (while is_digit found).
  assert (forallb is_digit (ch :: while is_digit found) = true) as Hall.
  { cbn [forallb]. by rewrite Hskip, while_all. }
  split; [done|]. split; [|done].
  apply chars_join, Forall_forall. intros c Hc.
  apply is_digit_well_formed. rewrite forallb_forall in Hall.
  by apply Hall, list_elem_of_In.
Qed.

Lemma numeral_digits_run (l : list string) :
  forallb is_digit l = true -> numeral_digits true l = Some l.
Proof.
  induction l as [|ch l IH]; [done|]. cbn [forallb numeral_digits].
  intros [Hch Hl]%andb_true_iff. by rewrite Hch, (IH Hl).
Qed.

Lemma digits_fold_nonneg (l : list string) (acc : Z) :
  (0 <= acc)%Z ->
  (0 <= fold_left (fun a ch => 10 * a + default 0 (digit_of ch)) l acc)%Z.
Proof.
  revert acc. induction l as [|ch l IH]; intros acc Hacc; [done|].
  cbn [fold_left]. apply IH. unfold digit_of.
  destruct (digit_of_code (code_point ch)) as [v|] eqn:Hv; unfold default, from_option, id; [|lia].
  apply digit_of_code_range in Hv. lia.
Qed.

(** A run of digits is read by [int] as the number it writes. *)
Lemma int_of_str_digits (d ch : string) (ds : list string) :
  d = join (ch :: ds) -> chars d = ch :: ds ->
  forallb is_digit (ch :: ds) = true ->
  int_of_str d = Some (digits_value 0 d) /\ (0 <= digits_value 0 d)%Z.
Proof.
  intros Hd Hchars Hall. split; [|by apply digits_fold_nonneg].
  pose proof Hall as [Hch Hds]%andb_true_iff.
  destruct (digit_is_plain ch Hch) as (Hspace & Hminus & Hplus).
  unfold int_of_str. rewrite Hchars, (trim_kept is_int_space ds ch Hspace).
  - rewrite Hminus, Hplus. cbn [numeral_digits]. rewrite Hch, (numeral_digits_run ds Hds).
    by rewrite <- Hd.
  - destruct (last (ch :: ds)) as [y|] eqn:Hlast; [right|by left].
    exists y. split; [done|].
    apply last_Some_elem_of, list_elem_of_In in Hlast.
    rewrite forallb_forall in Hall. by destruct (digit_is_plain y (Hall y Hlast)).
Qed.

(** Full-width digits are digits of line 260. *)
Example month_number_samples :
  month_number {[ "月" := CStr "０１" ]} = ok (CNum (NInt 1)) /\
  month_number {[ "月" := CStr "1月" ]} = ok (CNum (NInt 1)) /\
  month_number {[ "月" := CStr "月" ]} = ok (CNull NA) /\
  month_number {[ "月" := CStr "99999999999999999999" ]} = raise OverflowError.
Proof. by vm_compute. Qed.

(** X17: the month number of line 260 is missing ([NA]) when [月] is no
    text or holds no digit, and otherwise the number written by the first
    run of digits of [月] (the decimal digits of Unicode, which the
    pattern and the cast both read), never negative; the only failure of
    the line is the overflow of a run of digits beyond 64 bits. *)
Theorem X17_month_number (r : gmap string cell) :
  month_number r =
    match cell_at "月" r with
    | CStr s =>
        match extract_digits s with
        | Some d => int64 (digits_value 0 d)
        | None => ok (CNull NA)
        end
    | _ => ok (CNull NA)
    end /\
  (forall c, month_number r = ok c ->
     c = CNull NA \/ exists z, c = CNum (NInt z) /\ (0 <= z <= int64_max)%Z) /\
  (forall e, month_number r = inl e -> e = OverflowError).
Proof.
  assert (month_number r =
          match cell_at "月" r with
          | CStr s =>
              match extract_digits s with
              | Some d => int64 (digits_value 0 d)
              | None => ok (CNull NA)
              end
          | _ => ok (CNull NA)
          end /\
          forall s d, cell_at "月" r = CStr s -> extract_digits s = Some d ->
                      (0 <= digits_value 0 d)%Z) as [Heq Hpos].
  { unfold month_number, extract_number, str_method.
    destruct (cell_at "月" r) as [k|s|n|y m d]; [done| |done..].
    destruct (extract_digits s) as [d|] eqn:Hd.
    - pose proof Hd as (ch & ds & Hjoin & Hchars & Hall)%extract_digits_run.
      cbn [astype_Int64].
      destruct (int_of_str_digits d ch ds Hjoin Hchars Hall) as [-> Hz].
      split; [done|]. intros s0 d0 [= <-]. rewrite Hd. by intros [= <-].
    - split; [done|]. intros s0 d0 [= <-]. by rewrite Hd. }
  split; [done|]. rewrite Heq.
  destruct (cell_at "月" r) as [k|s|n|y m d]; [split; [intros ? [= <-]; by left|done]|
    |split; [intros ? [= <-]; by left|done]..].
  destruct (extract_digits s) as [d|] eqn:Hd;
    [|split; [intros ? [= <-]; by left|done]].
  specialize (Hpos s d eq_refl Hd). unfold int64.
  destruct (_ && _)%Z eqn:Hrange.
  - split; [|done]. intros c [= <-]. right. eexists. split; [done|].
    apply andb_true_iff in Hrange as [_ ?%Z.leb_le]. lia.
  - split; [done|]. by intros e [= <-].
Qed.

Lemma X17_month_number_witness :
  CNum (NInt 1) = CNull NA \/
  exists z, CNum (NInt 1) = CNum (NInt z) /\ (0 <= z <= int64_max)%Z.
Proof.
  refine (proj1 (proj2 (X17_month_number {[ "月" := CStr "01" ]})) (CNum (NInt 1)) _).
  by vm_compute.
Defined.

(** ** A response without the category table *)

Lemma merge_left_has_left_column `{Pandas} (left right merged : DataFrame)
    (key c : string) :
  merge_left left right key = inr merged ->
  has_column c left = true -> has_column c right = false ->
  has_column c merged = true /\
  (forall row, row ∈ rows merged -> exists l, l ∈ rows left /\ cell_at c row = cell_at c l).
Proof.
  intros (_ & _ & Hnd & Hcols & Hrows)%merge_left_inv Hleft Hright.
  assert (left_label left right key c = c) as Hlabel.
  { unfold left_label, shared_label. by rewrite Hright, andb_false_r. }
  assert (c ∈ columns left) as Hin by by apply existsb_eqb_elem.
  split.
  - apply existsb_eqb_elem. rewrite Hcols. unfold merged_columns.
    apply elem_of_app. left. rewrite <- Hlabel.
    apply list_elem_of_In, in_map, list_elem_of_In, Hin.
  - intros row Hrow. rewrite Hrows in Hrow.
    apply list_elem_of_In, in_flat_map in Hrow as (l & Hl & Hrow).
    exists l. split; [by apply list_elem_of_In|].
    rewrite <- Hlabel at 1. unfold rows_for in Hrow.
    destruct (matches right key l) as [|r0 rs].
    + destruct Hrow as [<-|[]]. by apply joined_row_cells.
    + apply in_map_iff in Hrow as (r & <- & _). by apply joined_row_cells.
Qed.

Lemma merge_left_empty_right `{Pandas} (left right merged : DataFrame) (key c : string) :
  merge_left left right key = inr merged ->
  rows right = [] ->
  has_column c right = true -> c <> key -> has_column c left = false ->
  has_column c merged = true /\ all_missing c merged.
Proof.
  intros (_ & _ & Hnd & Hcols & Hrows)%merge_left_inv Hempty Hright Hkey Hleft.
  assert (right_label left right key c = c) as Hlabel.
  { unfold right_label, shared_label. by rewrite Hleft, andb_false_r. }
  assert (c ∈ added_columns right key) as Hin.
  { apply list_elem_of_In, filter_In. split.
    - by apply list_elem_of_In, existsb_eqb_elem.
    - by apply negb_true_iff, String.eqb_neq. }
  split.
  - apply existsb_eqb_elem. rewrite Hcols. unfold merged_columns.
    apply elem_of_app. right. rewrite <- Hlabel.
    apply list_elem_of_In, in_map, list_elem_of_In, Hin.
  - intros row Hrow. rewrite Hrows in Hrow.
    apply list_elem_of_In, in_flat_map in Hrow as (l & Hl & Hrow).
    unfold rows_for, matches in Hrow. rewrite Hempty in Hrow.
    destruct Hrow as [<-|[]]. rewrite <- Hlabel.
    by rewrite (proj2 (joined_row_cells left right key l None Hnd) c Hin).
Qed.

Lemma merge_left_keeps_missing `{Pandas} (left right merged : DataFrame) (key c : string) :
  merge_left left right key = inr merged ->
  has_column c right = false ->
  has_column c left = true /\ all_missing c left ->
  has_column c merged = true /\ all_missing c merged.
Proof.
  intros Hmerge Hright [Hleft Hall].
  destruct (merge_left_has_left_column _ _ _ _ c Hmerge Hleft Hright) as [Hcol Hrows].
  split; [done|]. intros row (l & Hl & ->)%Hrows. by apply Hall.
Qed.

Lemma assign_keeps_missing (c c' : string) (f : gmap string cell -> cell)
    (df : DataFrame) :
  c <> c' ->
  has_column c df = true /\ all_missing c df ->
  has_column c (assign c' f df) = true /\ all_missing c (assign c' f df).
Proof.
  intros Hne [Hcol Hall]. split; [by rewrite has_column_assign, Hcol|].
  intros row (r & <- & Hr%list_elem_of_In)%list_elem_of_In%in_map_iff.
  unfold cell_at. rewrite lookup_insert_ne by done. by apply Hall.
Qed.

Lemma assign_res_keeps_missing (c c' : string) (f : gmap string cell -> res cell)
    (df df' : DataFrame) :
  assign_res c' f df = inr df' ->
  c <> c' ->
  has_column c df = true /\ all_missing c df ->
  has_column c df' = true /\ all_missing c df'.
Proof.
  intros Hassign Hne [Hcol Hall].
  split; [by rewrite (has_column_assign_res c c' f df df' Hassign), Hcol|].
  unfold assign_res in Hassign.
  destruct (res_map f (rows df)) as [e|vals]; [done|].
  cbn [rbind ok] in Hassign. injection Hassign as <-.
  intros row (r & v & -> & Hr & _)%elem_of_zip_with.
  unfold cell_at. rewrite lookup_insert_ne by done. by apply Hall.
Qed.

(** X18: a response whose category table is missing or empty empties
    the output.  When the lookup tables are read, the category table has
    no row, the frame of value rows has no [区分名] column of its own and
    the joins succeed, the joined frame has a [区分名] column that is
    missing in every row, and the shaping block, which drops such rows
    first (line 251), leaves no row at all. *)
Theorem X18_no_category_table_no_rows `{Pandas} (result : json) (tables : lookup_tables)
    (df df_hscode merged : DataFrame) :
  read_lookup_tables result = Some (inr tables) ->
  rows (df_cat02_shrink tables) = [] ->
  has_column "区分名" df = false ->
  merge_all df tables df_hscode = inr merged ->
  has_column "区分名" merged = true /\
  all_missing "区分名" merged /\
  nrows (shaper merged) = 0.
Proof.
  intros Htables Hempty Hnew Hmerge.
  assert (has_column "区分名" merged = true /\ all_missing "区分名" merged) as [Hcol Hall].
  { revert Hmerge. unfold merge_all.
    destruct (merge_left df _ _) as [?|m1] eqn:H1; [done|]. cbn [rbind].
    destruct (merge_left m1 _ _) as [?|m2] eqn:H2; [done|]. cbn [rbind].
    destruct (merge_left m2 _ _) as [?|m3] eqn:H3; [done|]. cbn [rbind].
    destruct (require_column "年コード" m3); [done|]. cbn [rbind].
    destruct (assign_res "年" _ _) as [?|m3'] eqn:Hyear; [done|]. cbn [rbind].
    destruct (require_column "HSコード" m3'); [done|]. cbn [rbind].
    destruct (select _ df_hscode) as [?|labels] eqn:Hsel; [done|]. cbn [rbind].
    destruct (drop_duplicates _ _) as [?|dedup] eqn:Hdedup; [done|]. cbn [rbind].
    intros H4.
    destruct (read_lookup_tables_columns result tables Htables) as (Hc1 & Hc2 & Hc3).
    apply (merge_left_keeps_missing _ _ _ _ "区分名" H4).
    { unfold drop_duplicates in Hdedup.
      destruct (has_column "HSコード" _); [|done]. injection Hdedup as <-.
      unfold select in Hsel. destruct (forallb _ _); [|done]. by injection Hsel as <-. }
    apply assign_keeps_missing; [done|].
    apply (assign_res_keeps_missing _ _ _ _ _ Hyear); [done|].
    apply assign_keeps_missing; [done|].
    apply (merge_left_keeps_missing _ _ _ _ "区分名" H3).
    { unfold has_column. by rewrite Hc3. }
    apply (merge_left_keeps_missing _ _ _ _ "区分名" H2).
    { unfold has_column. by rewrite Hc2. }
    apply (merge_left_empty_right _ _ _ _ "区分名" H1); [done| |done|done].
    unfold has_column. by rewrite Hc1. }
  split; [done|]. split; [done|].
  pose proof (shaper_rows_named merged Hcol) as Hle.
  assert (List.filter keeps_name (rows merged) = []) as Hnone.
  { revert Hall. unfold all_missing. generalize (rows merged) as l.
    induction l as [|r l IH]; intros Hall; [done|]. cbn [List.filter].
    unfold keeps_name at 1. rewrite (Hall r) by left. cbn [negb andb].
    apply IH. intros r' Hr'. apply Hall. by right. }
  rewrite Hnone in Hle. simpl in Hle. lia.
Qed.

Lemma X18_no_category_table_no_rows_witness :
  has_column "区分名" no_category_merged = true /\
  all_missing "区分名" no_category_merged /\
  nrows (@shaper plain_pandas no_category_merged) = 0.
Proof.
  apply (@X18_no_category_table_no_rows plain_pandas no_category_success
           no_category_tables sample_df sample_hscode no_category_merged);
    by vm_compute.
Defined.

(** ** The item-label join *)

(** X19: the last join of the resolver (lines 228-231).  When the joins
    succeed, the joined frame is the left join of a frame [m] whose
    codes are all texts with the label table; it has the rows of [m] in
    number, keeps the code column, and, when [m] has no [品目] column of
    its own, its [品目] column holds for each row the label of the first
    uploaded row with the code of that row, NaN when the uploaded table
    does not hold the code. *)
Theorem X19_item_label_of_first_row `{Pandas} (df df_hscode merged : DataFrame)
    (tables : lookup_tables) :
  merge_all df tables df_hscode = inr merged ->
  exists m t : DataFrame,
    label_table df_hscode = inr t /\
    merge_left m t "HSコード" = inr merged /\
    (forall r, r ∈ rows m -> exists code, cell_at "HSコード" r = CStr code) /\
    nrows merged = nrows m /\
    column "HSコード" merged = column "HSコード" m /\
    (has_column "品目" m = false ->
     column "品目" merged = map (label_of df_hscode) (column "HSコード" m)).
Proof.
  unfold merge_all.
  destruct (merge_left df _ _) as [?|m1]; [done|]. cbn [rbind].
  destruct (merge_left m1 _ _) as [?|m2]; [done|]. cbn [rbind].
  destruct (merge_left m2 _ _) as [?|m3]; [done|]. cbn [rbind].
  destruct (require_column "年コード" m3); [done|]. cbn [rbind].
  destruct (assign_res "年" _ _) as [?|m3']; [done|]. cbn [rbind].
  destruct (require_column "HSコード" m3') as [?|[]] eqn:Hreq; [done|]. cbn [rbind].
  set (m := assign "HSコード" _ m3').
  destruct (select _ df_hscode) as [?|labels] eqn:Hsel; [done|]. cbn [rbind].
  destruct (drop_duplicates _ _) as [?|t] eqn:Hdedup; [done|]. cbn [rbind].
  intros Hmerge. exists m, t.
  assert (label_table df_hscode = inr t) as Hlabels.
  { unfold label_table. by rewrite Hsel. }
  pose proof (label_table_single _ _ Hdedup) as Hsingle.
  destruct (merge_left_single m t merged "HSコード" Hsingle Hmerge) as [Hleft Hright].
  assert (has_column "HSコード" m = true) as Hcode.
  { unfold m. by rewrite has_column_assign, String.eqb_refl, orb_true_r. }
  assert (forall r, r ∈ rows m -> exists code, cell_at "HSコード" r = CStr code) as Htext.
  { intros r (r0 & <- & _)%list_elem_of_In%in_map_iff.
    unfold cell_at at 1. rewrite lookup_insert_eq. by eexists. }
  repeat (split; [done|]).
  split; [by apply (merge_left_nrows m t merged "HSコード")|].
  split.
  - rewrite <- (Hleft "HSコード") by by apply existsb_eqb_elem.
    unfold left_label, shared_label. by rewrite String.eqb_refl.
  - intros Hnew.
    destruct (label_table_rows df_hscode t "" Hlabels) as [Hcols _].
    assert (right_label m t "HSコード" "品目" = "品目") as Hlabel.
    { unfold right_label, shared_label. by rewrite Hnew, andb_false_r. }
    rewrite <- Hlabel, Hright.
    2:{ unfold added_columns. rewrite Hcols.
        apply list_elem_of_In, filter_In. split; [by right; left|done]. }
    unfold column. rewrite map_map. apply map_ext_in.
    intros r [code Hr]%list_elem_of_In%Htext. rewrite Hr. unfold label_of, matches.
    rewrite Hr. fold (rows_with_key "HSコード" code t).
    destruct (label_table_rows df_hscode t code Hlabels) as [_ Hrows].
    destruct (first_with_code code df_hscode) as [first|].
    + destruct Hrows as (row & -> & _ & Hitem). cbn [head]. by rewrite Hitem.
    + by rewrite Hrows.
Qed.

Lemma X19_item_label_of_first_row_witness :
  exists m t : DataFrame,
    @label_table plain_pandas sample_hscode = inr t /\
    @merge_left plain_pandas m t "HSコード" = inr sample_merged /\
    (forall r, r ∈ rows m -> exists code, cell_at "HSコード" r = CStr code) /\
    nrows sample_merged = nrows m /\
    column "HSコード" sample_merged = column "HSコード" m /\
    (has_column "品目" m = false ->
     column "品目" sample_merged =
     map (@label_of plain_pandas sample_hscode) (column "HSコード" m)).
Proof.
  apply (@X19_item_label_of_first_row plain_pandas sample_df sample_hscode sample_merged
           sample_tables).
  by vm_compute.
Defined.

(** ** The period code *)

Lemma in_years_from (count : nat) (first y : Z) :
  (first <= y < first + Z.of_nat count)%Z -> In y (years_from first count).
Proof.
  revert first. induction count as [|n IH]; intros first Hy; [lia|].
  cbn [years_from]. destruct (Z.eq_dec first y) as [->|Hne]; [by left|].
  right. apply IH. lia.
Qed.

Lemma in_years_between (first last y : Z) :
  (first <= y <= last)%Z -> In y (years_from first (Z.to_nat (last - first + 1))).
Proof. intros Hy. apply in_years_from. rewrite Z2Nat.id; lia. Qed.

Lemma none_lost (first last y : Z) :
  years_lost first last = [] -> (first <= y <= last)%Z -> gives_year_back y = true.
Proof.
  intros Hnone Hy%in_years_between. unfold years_lost in Hnone.
  destruct (gives_year_back y) eqn:Hy'; [done|]. exfalso.
  assert (In y (List.filter (fun y => negb (gives_year_back y))
                  (years_from first (Z.to_nat (last - first + 1))))) as Hin.
  { apply filter_In. by rewrite Hy'. }
  by rewrite Hnone in Hin.
Qed.

(** X20: the period code of line 41 is the year followed by six zeros;
    for a year of four digits it has ten characters, and the year that
    line 224 cuts out of it (its first four characters) is the numeral
    of the selected year, which [int] reads back as that year. *)
Theorem X20_period_code_round_trip (selected_year : Z) :
  (1000 <= selected_year <= 9999)%Z ->
  String.length (cd_time selected_year) = 10 /\
  year_text (cd_time selected_year) = str_of_int selected_year /\
  int_of_str (year_text (cd_time selected_year)) = Some selected_year.
Proof.
  intros Hok%(none_lost 1000 9999); [|vm_compute; reflexivity].
  unfold gives_year_back in Hok.
  apply andb_true_iff in Hok as [[Htext Hint]%andb_true_iff Hlen].
  apply String.eqb_eq in Htext. apply Nat.eqb_eq in Hlen.
  destruct (int_of_str _) as [z|]; [|discriminate Hint].
  apply Z.eqb_eq in Hint as ->. repeat split; assumption.
Qed.

Lemma X20_period_code_round_trip_witness :
  String.length (cd_time 2023) = 10 /\
  year_text (cd_time 2023) = str_of_int 2023 /\
  int_of_str (year_text (cd_time 2023)) = Some 2023%Z.
Proof. apply X20_period_code_round_trip. lia. Defined.
